(** * Registrador de Atividades 2.0: credential vault, activity store access
      and session screen, embedded from the Python sources

    The development follows the source files:
    - [python]        the few Python notions the sources rely on
                      (exceptions, truthiness);
    - [base64]        the standard library's base64 codec used by the
                      credential vault;
    - [GUI_login]     [hash_password], [verify_password], [fazer_login];
    - [handle_db]     the activity table and the functions of handle_db.py;
    - [GUI_principal] the [MainScreen] state and its actions.

    Definitions come first, the properties after them. *)

From Stdlib Require Import ZArith NArith Lia String Ascii List Sorted QArith Qround Qabs
  Qpower Lqa.
From Stdlib.Strings Require Import Byte.
From stdpp Require Import base gmap list strings.

Local Open Scope Z_scope.

(* ===================================================================== *)
(** * Python basics                                                       *)
(* ===================================================================== *)

Module python.

(** Python [bytes]. *)
Definition bytes := list byte.

(** The exceptions the modelled code raises or catches. *)
Inductive exn : Type :=
| RuntimeError (msg : string)
| ValueError (msg : string)
| TypeError (msg : string)
| KeyError (key : string)
| OverflowError (msg : string)
| binascii_Error (msg : string).

(** A computation that returns a value or raises. *)
Inductive res (A : Type) : Type :=
| Ok (a : A)
| Raise (e : exn).
Arguments Ok {A} a.
Arguments Raise {A} e.

#[global] Instance res_ret : MRet res := fun A a => Ok a.

#[global] Instance res_bind : MBind res := fun A B k m =>
  match m with
  | Ok a => k a
  | Raise e => Raise e
  end.

Definition raised {A} (m : res A) : bool :=
  match m with Ok _ => false | Raise _ => true end.

(** [str(e)] as used in the f-strings that report an exception. *)
Definition str_exn (e : exn) : string :=
  match e with
  | RuntimeError m | ValueError m | TypeError m
  | OverflowError m | binascii_Error m => m
  | KeyError k => "'" +:+ k +:+ "'"
  end.

(** Truthiness of [Optional[str]] and [Optional[int]] values. *)
Definition truthy_str (o : option string) : bool :=
  match o with
  | Some s => negb (String.eqb s "")
  | None => false
  end.

Definition truthy_int (o : option Z) : bool :=
  match o with
  | Some z => negb (z =? 0)
  | None => false
  end.

(** [str.encode('utf-8')]: a [string] is held as its UTF-8 bytes. *)
Definition encode_utf8 (s : string) : bytes := list_byte_of_string s.

(** [bytes.decode('ascii')]. *)
Definition is_ascii (b : byte) : bool := (Byte.to_N b <? 128)%N.

Definition decode_ascii (b : bytes) : res string :=
  if forallb is_ascii b then Ok (string_of_list_byte b)
  else Raise (ValueError "'ascii' codec can't decode byte").

(** [secrets.compare_digest] on two [bytes] values: equality, computed
    without short-circuiting. *)
Fixpoint compare_digest_acc (a b : bytes) (acc : bool) : bool :=
  match a, b with
  | [], [] => acc
  | x :: a', y :: b' => compare_digest_acc a' b' (acc && Byte.eqb x y)
  | _, _ => false
  end.

Definition compare_digest (a b : bytes) : bool := compare_digest_acc a b true.

End python.
Export python.

(* ===================================================================== *)
(** * base64 (standard library codec)                                     *)
(* ===================================================================== *)

Module base64.

Definition byte_of (n : N) : byte :=
  match Byte.of_N n with
  | Some b => b
  | None => "000"%byte
  end.

Definition BASE64_PAD : byte := "="%byte.

Definition alphabet : bytes :=
  list_byte_of_string
    "ABCDEFGHIJKLMNOPQRSTUVWXYZabcdefghijklmnopqrstuvwxyz0123456789+/".

(** Encoding table: sextet to character. *)
Definition table_b2a_base64 (n : N) : byte :=
  nth (N.to_nat n) alphabet BASE64_PAD.

Fixpoint index_of (c : byte) (l : bytes) (i : N) : option N :=
  match l with
  | [] => None
  | x :: l' => if Byte.eqb c x then Some i else index_of c l' (N.succ i)
  end.

(** Decoding table: character to sextet, [None] outside the alphabet. *)
Definition table_a2b_base64 (c : byte) : option N := index_of c alphabet 0%N.

(** [binascii.b2a_base64(s, newline=False)]: three bytes give four
    characters; a final group of one or two bytes is padded with [=]. *)
Fixpoint b2a_base64 (s : bytes) : bytes :=
  match s with
  | [] => []
  | [a] =>
      let a := Byte.to_N a in
      [ table_b2a_base64 (N.shiftr a 2);
        table_b2a_base64 (N.shiftl (N.land a 3) 4);
        BASE64_PAD; BASE64_PAD ]
  | [a; b] =>
      let a := Byte.to_N a in
      let b := Byte.to_N b in
      [ table_b2a_base64 (N.shiftr a 2);
        table_b2a_base64 (N.lor (N.shiftl (N.land a 3) 4) (N.shiftr b 4));
        table_b2a_base64 (N.shiftl (N.land b 15) 2);
        BASE64_PAD ]
  | a :: b :: c :: rest =>
      let a := Byte.to_N a in
      let b := Byte.to_N b in
      let c := Byte.to_N c in
      table_b2a_base64 (N.shiftr a 2)
      :: table_b2a_base64 (N.lor (N.shiftl (N.land a 3) 4) (N.shiftr b 4))
      :: table_b2a_base64 (N.lor (N.shiftl (N.land b 15) 2) (N.shiftr c 6))
      :: table_b2a_base64 (N.land c 63)
      :: b2a_base64 rest
  end.

Definition b64encode (s : bytes) : bytes := b2a_base64 s.

(** Decoder state of [binascii.a2b_base64] in its default, non-strict
    mode: position in the current quad, pending bits, pads seen. *)
Record a2b_state : Type := mk_a2b {
  quad_pos : N;
  leftchar : N;
  pads : N;
}.

Definition a2b_init : a2b_state := mk_a2b 0 0 0.

Definition a2b_finish (st : a2b_state) (out : bytes) : res bytes :=
  if (quad_pos st =? 0)%N then Ok out
  else if (quad_pos st =? 1)%N then
    Raise (binascii_Error
      "Invalid base64-encoded string: number of data characters cannot be 1 more than a multiple of 4")
  else Raise (binascii_Error "Incorrect padding").

(** The decoding loop; [out] is the output produced so far. *)
Fixpoint a2b_loop (st : a2b_state) (out : bytes) (s : bytes) : res bytes :=
  match s with
  | [] => a2b_finish st out
  | ch :: rest =>
      if Byte.eqb ch BASE64_PAD then
        if (2 <=? quad_pos st)%N then
          if (4 <=? quad_pos st + (pads st + 1))%N then Ok out
          else a2b_loop (mk_a2b (quad_pos st) (leftchar st) (pads st + 1)) out rest
        else a2b_loop st out rest
      else
        match table_a2b_base64 ch with
        | None => a2b_loop st out rest
        | Some this_ch =>
            match quad_pos st with
            | 0%N => a2b_loop (mk_a2b 1 this_ch 0) out rest
            | 1%N =>
                a2b_loop (mk_a2b 2 (N.land this_ch 15) 0)
                  (out ++ [byte_of (N.land
                     (N.lor (N.shiftl (leftchar st) 2) (N.shiftr this_ch 4)) 255)])
                  rest
            | 2%N =>
                a2b_loop (mk_a2b 3 (N.land this_ch 3) 0)
                  (out ++ [byte_of (N.land
                     (N.lor (N.shiftl (leftchar st) 4) (N.shiftr this_ch 2)) 255)])
                  rest
            | _ =>
                a2b_loop (mk_a2b 0 0 0)
                  (out ++ [byte_of (N.land
                     (N.lor (N.shiftl (leftchar st) 6) this_ch) 255)])
                  rest
            end
        end
  end.

Definition a2b_base64 (s : bytes) : res bytes := a2b_loop a2b_init [] s.

(** [base64.b64decode(s)] for a [str] argument: the string must be
    ASCII, then [a2b_base64] decodes it. *)
Definition b64decode (s : string) : res bytes :=
  let raw := list_byte_of_string s in
  if forallb is_ascii raw then a2b_base64 raw
  else Raise (ValueError "string argument should contain only ASCII characters").

End base64.

(* ===================================================================== *)
(** * GUI_login.py: the credential vault                                  *)
(* ===================================================================== *)

Module GUI_login.
Import base64.

(** A value read from users.json; the contents of arrays and objects
    are never inspected. *)
Inductive json : Type :=
| JNull
| JBool (b : bool)
| JInt (z : Z)
| JFloat (q : Q)
| JStr (s : string)
| JArray
| JObject.

Definition INT_MAX : Z := 2147483647.

Section vault.

(** hashlib's PBKDF2-HMAC-SHA256 key derivation on accepted arguments:
    password, salt, iteration count. *)
Variable pbkdf2_hmac_sha256 : bytes -> bytes -> Z -> bytes.

(** The builtin [int()] applied to a value read from users.json. *)
Variable py_int : json -> res Z.

(** The builtin [str.strip()]. *)
Variable strip : string -> string.

(** [hashlib.pbkdf2_hmac('sha256', password, salt, iterations)]: the
    iteration count must be positive and fit a C int. *)
Definition pbkdf2_hmac (password salt : bytes) (iterations : Z) : res bytes :=
  if iterations <? 1 then
    Raise (ValueError "iteration value must be greater than 0.")
  else if INT_MAX <? iterations then
    Raise (OverflowError "iteration value is too great.")
  else Ok (pbkdf2_hmac_sha256 password salt iterations).

(** [hash_password(password, salt, iterations)]; [token_bytes] is the
    value [secrets.token_bytes(16)] would return, used when no salt is
    given. The result is the dict [{"salt", "hash", "iters"}]. *)
Definition hash_password (token_bytes : bytes) (password : string)
    (salt : option bytes) (iterations : Z) : res (gmap string json) :=
  let salt := match salt with
              | None => token_bytes
              | Some s => s
              end in
  let pwd := encode_utf8 password in
  dk ← pbkdf2_hmac pwd salt iterations;
  salt_b64 ← decode_ascii (b64encode salt);
  hash_b64 ← decode_ascii (b64encode dk);
  mret (<["salt" := JStr salt_b64]>
        (<["hash" := JStr hash_b64]>
         (<["iters" := JInt iterations]> ∅))).

(** [verify_password(password, salt_b64, hash_b64, iterations)]. *)
Definition verify_password (password salt_b64 hash_b64 : string)
    (iterations : Z) : res bool :=
  salt ← b64decode salt_b64;
  expected ← b64decode hash_b64;
  dk ← pbkdf2_hmac (encode_utf8 password) salt iterations;
  mret (compare_digest dk expected).

(** [record[key]]. *)
Definition getitem (record : gmap string json) (key : string) : res json :=
  match record !! key with
  | Some v => Ok v
  | None => Raise (KeyError key)
  end.

(** A value passed where [verify_password] expects a [str]:
    [base64.b64decode] rejects anything that is not a string. *)
Definition as_str (v : json) : res string :=
  match v with
  | JStr s => Ok s
  | _ => Raise (TypeError
           "argument should be a bytes-like object or ASCII string")
  end.

(** The call [verify_password(password, record["salt"], record["hash"],
    int(record.get("iters", 200000)))] as [fazer_login] evaluates it.
    Which exception comes first when several arguments are bad is not
    kept: the caller catches them all alike. *)
Definition verify_record (password : string) (record : gmap string json)
    : res bool :=
  salt_v ← getitem record "salt";
  hash_v ← getitem record "hash";
  iterations ← py_int (default (JInt 200000) (record !! "iters"));
  salt_b64 ← as_str salt_v;
  hash_b64 ← as_str hash_v;
  verify_password password salt_b64 hash_b64 iterations.

(** The value of [ok] in [fazer_login]: the [try]/[except Exception]
    around the verification turns every exception into [False]. *)
Definition fazer_login_ok (password : string) (record : gmap string json)
    : bool :=
  match verify_record password record with
  | Ok ok => ok
  | Raise _ => false
  end.

(** What [fazer_login] does: an error popup, or a successful login that
    sets [app.user_id] and switches to the main screen. *)
Inductive login_outcome : Type :=
| show_error (message : string)
| login_as (user_id : string).

Definition fazer_login (users : gmap string (gmap string json))
    (username password : option string) : login_outcome :=
  let username := strip (default "" username) in
  let password := strip (default "" password) in
  if String.eqb username "" || String.eqb password "" then
    show_error "Por favor, preencha todos os campos."
  else
    match users !! username with
    | None => show_error "Usuário não encontrado. Cadastre-se primeiro."
    | Some record =>
        if bool_decide (size record = 0%nat) then
          show_error "Usuário não encontrado. Cadastre-se primeiro."
        else if fazer_login_ok password record then login_as username
        else show_error "Usuário ou senha incorretos."
    end.

End vault.
End GUI_login.

(* ===================================================================== *)
(** * handle_db.py: the activity table                                    *)
(* ===================================================================== *)

Module handle_db.

(** ** Time *)

(** An aware [datetime]: the instant it denotes, in microseconds since
    the epoch (what subtraction of two aware datetimes compares), and the
    civil fields the sources read or format. *)
Record datetime : Type := mk_datetime {
  timestamp : Z;
  year : Z;
  month : Z;
  day : Z;
  hour : Z;
  minute : Z;
}.

(** A [timedelta], in microseconds. *)
Definition timedelta : Type := Z.

(** [fim - inicio]. *)
Definition datetime_sub (a b : datetime) : timedelta := timestamp a - timestamp b.

(** ** Floats

    A Python [float] is held as the rational it denotes. Every float
    operation rounds its exact result to binary64: to 53 significant
    bits, to nearest, ties to even. The values met here are quotients of
    a [timedelta] (at most 10^9 days, at least a microsecond), between
    1e-10 and 1e14 in magnitude, where binary64 neither overflows nor is
    subnormal. *)

(** Rounding to the nearest integer, ties to the even one. *)
Definition round_half_even (x : Q) : Z :=
  let f := Qfloor x in
  match Qcompare (x - inject_Z f) (1 # 2) with
  | Lt => f
  | Gt => f + 1
  | Eq => if Z.even f then f else f + 1
  end.

(** The exponent of the last bit of the float nearest to [x]:
    [2^52 <= |x| / 2^e < 2^53]. *)
Definition float_exponent (x : Q) : Z :=
  let e := Z.log2 (Z.abs (Qnum x)) - Z.log2 (Zpos (Qden x)) - 52 in
  match Qcompare (Qabs x) (2 ^ (e + 52))%Q with
  | Lt => e - 1
  | _ => e
  end.

(** The float nearest to [x]. *)
Definition round_to_float (x : Q) : Q :=
  match Qcompare x 0 with
  | Eq => 0%Q
  | _ =>
      let e := float_exponent x in
      Qred (inject_Z (round_half_even (x / 2 ^ e)) * 2 ^ e)%Q
  end.

(** [x / y] on floats. *)
Definition float_div (x y : Q) : Q := round_to_float (x / y).

(** [timedelta.total_seconds()]: the microseconds divided by 10**6, a
    true division of integers, which rounds once. *)
Definition total_seconds (td : timedelta) : Q :=
  round_to_float (td # 1000000).

(** [round(x, ndigits)] on a float: the decimal with [ndigits] places
    nearest to the exact value of [x], ties to even, and then the float
    nearest to that decimal. *)
Definition round (x : Q) (ndigits : Z) : Q :=
  round_to_float
    (inject_Z (round_half_even (x * inject_Z (10 ^ ndigits)))
     / inject_Z (10 ^ ndigits))%Q.

(** [calcular_horas_trabalhadas(inicio, fim)]. *)
Definition calcular_horas_trabalhadas (inicio : datetime)
    (fim : option datetime) : option Q :=
  match fim with
  | None => None
  | Some fim =>
      let diferenca := datetime_sub fim inicio in
      let horas := float_div (total_seconds diferenca) 3600 in
      Some (round horas 10)
  end.

(** ** The table [atividades] *)

(** A record of the table, with the columns of [CREATE_TABLE_SQL]. The
    timestamps are held as [datetime] values, not as ISO strings. *)
Record Row : Type := mk_Row {
  id : Z;
  tipo_atividade : string;
  descricao : option string;
  inicio : datetime;
  fim : option datetime;
  user_id : option string;
  ano : Z;
  mes : Z;
  dia : Z;
  horas_trabalhadas : option Q;
}.

Definition set_fim (fim_ : datetime) (horas : option Q) (r : Row) : Row :=
  mk_Row (id r) (tipo_atividade r) (descricao r) (inicio r) (Some fim_)
         (user_id r) (ano r) (mes r) (dia r) horas.

(** What the logger records. *)
Inductive LogRecord : Type :=
| ErroInserir (error : string)
| ErroBuscarAtividade (activity_id : Z) (error : string)
| AtividadeNaoEncontrada (activity_id : Z)
| ErroFinalizar (activity_id : Z) (error : string)
| AtividadeFinalizada (activity_id : Z) (horas : option Q)
| ErroBuscarEmAndamento (error : string)
| ClienteIndisponivel (e : exn)
| FalhaFinalizar (act_id : Z) (e : exn)
| LoteConcluido (sucesso falhas total : Z)
| ErroInesperado (e : exn).

(** What lies outside the program: whether SUPABASE_URL and SUPABASE_KEY
    are set, the error (if any) the n-th request to the remote store
    ends with, and the value of the n-th reading of the wall clock. *)
Record Env : Type := mk_Env {
  has_credentials : bool;
  fault : nat -> option string;
  wall_clock : nat -> datetime;
}.

(** The remote table and the process's log. [serial] is the next value
    of the [bigserial] primary key. *)
Record World : Type := mk_World {
  table : list Row;
  serial : Z;
  requests : nat;
  clock_reads : nat;
  log : list LogRecord;
}.

(** Computations that read and change the world and may raise. *)
Definition M (A : Type) : Type := World -> res A * World.

#[global] Instance M_ret : MRet M := fun A a w => (Ok a, w).

#[global] Instance M_bind : MBind M := fun A B k m w =>
  match m w with
  | (Ok a, w') => k a w'
  | (Raise e, w') => (Raise e, w')
  end.

Definition raise {A} (e : exn) : M A := fun w => (Raise e, w).

(** [try: m except Exception as e: h e]. *)
Definition try_except {A} (m : M A) (h : exn -> M A) : M A := fun w =>
  match m w with
  | (Ok a, w') => (Ok a, w')
  | (Raise e, w') => h e w'
  end.

Definition logger (r : LogRecord) : M unit := fun w =>
  (Ok tt, mk_World (table w) (serial w) (requests w) (clock_reads w)
            (log w ++ [r])).

(** ** The query builder of the Supabase client

    A query collects filters, an ordering and a limit in any order of
    calls; the store applies the filters, then the ordering, then the
    limit. *)
Inductive Filter : Type :=
| is_fim_None
| eq_id (v : Z)
| eq_user_id (v : string).

Record Query : Type := mk_Query {
  filters : list Filter;
  order_id_desc : bool;
  limit_ : option nat;
}.

Definition select : Query := mk_Query [] false None.

Definition is_ (f : Filter) (q : Query) : Query :=
  mk_Query (filters q ++ [f]) (order_id_desc q) (limit_ q).

Definition eq_ (f : Filter) (q : Query) : Query := is_ f q.

Definition order_desc (q : Query) : Query :=
  mk_Query (filters q) true (limit_ q).

Definition limit (n : nat) (q : Query) : Query :=
  mk_Query (filters q) (order_id_desc q) (Some n).

Definition matches (r : Row) (f : Filter) : bool :=
  match f with
  | is_fim_None => match fim r with None => true | Some _ => false end
  | eq_id v => id r =? v
  | eq_user_id v =>
      match user_id r with
      | Some u => String.eqb u v
      | None => false
      end
  end.

Fixpoint insert_desc (r : Row) (l : list Row) : list Row :=
  match l with
  | [] => [r]
  | x :: l' => if id x <? id r then r :: l else x :: insert_desc r l'
  end.

(** ORDER BY id DESC. *)
Definition sort_desc (l : list Row) : list Row := foldr insert_desc [] l.

Definition run_query (q : Query) (rows : list Row) : list Row :=
  let rows := List.filter (fun r => forallb (matches r) (filters q)) rows in
  let rows := if order_id_desc q then sort_desc rows else rows in
  match limit_ q with
  | Some n => take n rows
  | None => rows
  end.

(** The response of [execute()]. *)
Record Response : Type := mk_Response {
  error : option string;
  data : list Row;
}.

Section store.

Variable env : Env.

Definition next_request (w : World) : World :=
  mk_World (table w) (serial w) (S (requests w)) (clock_reads w) (log w).

(** [query.execute()] of a select. *)
Definition execute_select (q : Query) : M Response := fun w =>
  match fault env (requests w) with
  | Some e => (Ok (mk_Response (Some e) []), next_request w)
  | None => (Ok (mk_Response None (run_query q (table w))), next_request w)
  end.

(** [table.insert(payload).execute()]: the store assigns the id and
    returns the inserted record. *)
Definition execute_insert (payload : Row) : M Response := fun w =>
  match fault env (requests w) with
  | Some e => (Ok (mk_Response (Some e) []), next_request w)
  | None =>
      let r := mk_Row (serial w) (tipo_atividade payload) (descricao payload)
                 (inicio payload) (fim payload) (user_id payload)
                 (ano payload) (mes payload) (dia payload)
                 (horas_trabalhadas payload) in
      (Ok (mk_Response None [r]),
       mk_World (table w ++ [r]) (serial w + 1) (S (requests w))
         (clock_reads w) (log w))
  end.

(** [table.update({"fim": .., "horas_trabalhadas": ..}).eq("id", v).execute()]. *)
Definition execute_update (fim_ : datetime) (horas : option Q) (v : Z)
    : M Response := fun w =>
  match fault env (requests w) with
  | Some e => (Ok (mk_Response (Some e) []), next_request w)
  | None =>
      let upd r := if id r =? v then set_fim fim_ horas r else r in
      (Ok (mk_Response None
             (map (set_fim fim_ horas)
                (List.filter (fun r => id r =? v) (table w)))),
       mk_World (map upd (table w)) (serial w) (S (requests w))
         (clock_reads w) (log w))
  end.

(** [datetime.now(TIMEZONE)]. *)
Definition now : M datetime := fun w =>
  (Ok (wall_clock env (clock_reads w)),
   mk_World (table w) (serial w) (requests w) (S (clock_reads w)) (log w)).

(** The Supabase client object. *)
Definition Client : Type := unit.

Definition get_supabase_client : M Client :=
  if has_credentials env then mret tt
  else raise (RuntimeError
    "SUPABASE_URL e SUPABASE_KEY devem estar definidas como variáveis de ambiente.").

Definition client_or_default (supabase_client : option Client) : M Client :=
  match supabase_client with
  | Some c => mret c
  | None => get_supabase_client
  end.

(** [iniciar_nova_atividade(tipo, descricao, user_id, supabase_client)]. *)
Definition iniciar_nova_atividade (tipo descricao_ user_id_ : string)
    (supabase_client : option Client) : M (option Z) :=
  _ ← client_or_default supabase_client;
  hora_inicio ← now;
  let payload :=
    mk_Row 0 tipo (Some descricao_) hora_inicio None (Some user_id_)
      (year hora_inicio) (month hora_inicio) (day hora_inicio) None in
  resp ← execute_insert payload;
  match error resp with
  | Some e =>
      _ ← logger (ErroInserir e);
      raise (RuntimeError ("Supabase insert error: " +:+ e))
  | None =>
      match data resp with
      | inserted :: _ => mret (Some (id inserted))
      | [] => mret None
      end
  end.

(** [finalizar_atividade(activity_id, supabase_client)]. *)
Definition finalizar_atividade (activity_id : Z)
    (supabase_client : option Client) : M bool :=
  _ ← client_or_default supabase_client;
  atividade ← execute_select (eq_ (eq_id activity_id) select);
  match error atividade with
  | Some e =>
      _ ← logger (ErroBuscarAtividade activity_id e);
      raise (RuntimeError ("Supabase select error: " +:+ e))
  | None =>
      match data atividade with
      | [] =>
          _ ← logger (AtividadeNaoEncontrada activity_id);
          raise (RuntimeError "Atividade não encontrada.")
      | first :: _ =>
          let inicio_ := inicio first in
          fim_ ← now;
          let horas := calcular_horas_trabalhadas inicio_ (Some fim_) in
          resp ← execute_update fim_ horas activity_id;
          match error resp with
          | Some e =>
              _ ← logger (ErroFinalizar activity_id e);
              raise (RuntimeError ("Supabase update error: " +:+ e))
          | None =>
              _ ← logger (AtividadeFinalizada activity_id horas);
              mret true
          end
      end
  end.

(** [buscar_atividade_em_andamento(user_id, supabase_client)]. *)
Definition buscar_atividade_em_andamento (user_id_ : option string)
    (supabase_client : option Client) : M (option Row) :=
  _ ← client_or_default supabase_client;
  let query := limit 1 (order_desc (is_ is_fim_None select)) in
  let query := match user_id_ with
               | Some u => eq_ (eq_user_id u) query
               | None => query
               end in
  resp ← execute_select query;
  match error resp with
  | Some e =>
      _ ← logger (ErroBuscarEmAndamento e);
      raise (RuntimeError ("Supabase select error: " +:+ e))
  | None =>
      match data resp with
      | first :: _ => mret (Some first)
      | [] => mret None
      end
  end.

(** The loop of [finalizar_atividades_em_andamento]: one attempt per id,
    a failure is logged and the loop goes on. *)
Fixpoint finalizar_cada (ids : list Z) (client : Client) (sucesso : Z)
    : M Z :=
  match ids with
  | [] => mret sucesso
  | act_id :: ids' =>
      sucesso' ← try_except
        (_ ← finalizar_atividade act_id (Some client); mret (sucesso + 1))
        (fun e => _ ← logger (FalhaFinalizar act_id e); mret sucesso);
      finalizar_cada ids' client sucesso'
  end.

(** [finalizar_atividades_em_andamento(supabase_client)]. *)
Definition finalizar_atividades_em_andamento
    (supabase_client : option Client) : M Z :=
  try_except
    (client ← client_or_default supabase_client; mret (Some client))
    (fun e => _ ← logger (ClienteIndisponivel e); mret None)
  ≫= fun client =>
  match client with
  | None => mret 0
  | Some client =>
      try_except
        (resp ← execute_select (is_ is_fim_None select);
         match error resp with
         | Some e => _ ← logger (ErroBuscarEmAndamento e); mret 0
         | None =>
             let ids := map id (data resp) in
             sucesso ← finalizar_cada ids client 0;
             _ ← logger (LoteConcluido sucesso
                           (Z.of_nat (length ids) - sucesso)
                           (Z.of_nat (length ids)));
             mret sucesso
         end)
        (fun e => _ ← logger (ErroInesperado e); mret 0)
  end.

End store.
End handle_db.

(* ===================================================================== *)
(** * GUI_principal.py: the main screen                                   *)
(* ===================================================================== *)

Module GUI_principal.
Import handle_db.

Inductive Color : Type := NORMAL_COLOR | SELECTED_COLOR | DISABLED_COLOR.

(** A [ToggleButton] of the activity grid; the buttons carry distinct
    texts, and a reference to a button is held as its text. *)
Record ToggleButton : Type := mk_ToggleButton {
  text : string;
  down : bool;
  disabled : bool;
  background_color : Color;
}.

Inductive Popup : Type :=
| Erro (message : string)
| Sucesso (message : string).

(** [datetime.date()]. *)
Definition date : Type := (Z * Z * Z)%type.

Definition date_of (d : datetime) : date := (year d, month d, day d).

Definition digit (n : Z) : ascii := ascii_of_N (48 + Z.to_N n).

Definition two_digits (n : Z) : string :=
  String (digit (n / 10)) (String (digit (n mod 10)) EmptyString).

(** [now.strftime("%H:%M")]. *)
Definition strftime_HM (d : datetime) : string :=
  two_digits (hour d) +:+ ":" +:+ two_digits (minute d).

(** The state of a [MainScreen]: its attributes, the widgets of
    [self.ids] it reads and writes, and the popups it has opened. *)
Record MainScreen : Type := mk_MainScreen {
  current_activity_id : option Z;
  selected_activity_type : option string;
  selected_button : option string;
  _auto_finalize_last_date : gmap string (option date);
  activity_buttons : list ToggleButton;
  selected_activity_label : string;
  descricao_text : string;
  descricao_text_disabled : bool;
  status_label : string;
  start_button_disabled : bool;
  end_button_disabled : bool;
  active_box_shown : bool;
  active_label : string;
  popups : list Popup;
}.

(** [MainScreen.__init__], over the widgets the KV file declares. *)
Definition init (buttons : list ToggleButton) (sel desc status : string)
    (desc_dis start_dis end_dis box : bool) (active : string) : MainScreen :=
  mk_MainScreen None None None
    (<["11:28" := None]> (<["16:10" := None]> ∅))
    buttons sel desc desc_dis status start_dis end_dis box active [].

(** ** Attribute and widget assignments *)

Definition set_current_activity_id (v : option Z) (s : MainScreen) : MainScreen :=
  mk_MainScreen v (selected_activity_type s) (selected_button s)
    (_auto_finalize_last_date s) (activity_buttons s)
    (selected_activity_label s) (descricao_text s) (descricao_text_disabled s)
    (status_label s) (start_button_disabled s) (end_button_disabled s)
    (active_box_shown s) (active_label s) (popups s).

Definition set_selected_activity_type (v : option string) (s : MainScreen)
    : MainScreen :=
  mk_MainScreen (current_activity_id s) v (selected_button s)
    (_auto_finalize_last_date s) (activity_buttons s)
    (selected_activity_label s) (descricao_text s) (descricao_text_disabled s)
    (status_label s) (start_button_disabled s) (end_button_disabled s)
    (active_box_shown s) (active_label s) (popups s).

Definition set_selected_button (v : option string) (s : MainScreen)
    : MainScreen :=
  mk_MainScreen (current_activity_id s) (selected_activity_type s) v
    (_auto_finalize_last_date s) (activity_buttons s)
    (selected_activity_label s) (descricao_text s) (descricao_text_disabled s)
    (status_label s) (start_button_disabled s) (end_button_disabled s)
    (active_box_shown s) (active_label s) (popups s).

Definition set_auto_finalize_last_date (v : gmap string (option date))
    (s : MainScreen) : MainScreen :=
  mk_MainScreen (current_activity_id s) (selected_activity_type s)
    (selected_button s) v (activity_buttons s)
    (selected_activity_label s) (descricao_text s) (descricao_text_disabled s)
    (status_label s) (start_button_disabled s) (end_button_disabled s)
    (active_box_shown s) (active_label s) (popups s).

Definition set_activity_buttons (v : list ToggleButton) (s : MainScreen)
    : MainScreen :=
  mk_MainScreen (current_activity_id s) (selected_activity_type s)
    (selected_button s) (_auto_finalize_last_date s) v
    (selected_activity_label s) (descricao_text s) (descricao_text_disabled s)
    (status_label s) (start_button_disabled s) (end_button_disabled s)
    (active_box_shown s) (active_label s) (popups s).

Definition set_selected_activity_label (v : string) (s : MainScreen)
    : MainScreen :=
  mk_MainScreen (current_activity_id s) (selected_activity_type s)
    (selected_button s) (_auto_finalize_last_date s) (activity_buttons s)
    v (descricao_text s) (descricao_text_disabled s)
    (status_label s) (start_button_disabled s) (end_button_disabled s)
    (active_box_shown s) (active_label s) (popups s).

Definition set_descricao_text (v : string) (s : MainScreen) : MainScreen :=
  mk_MainScreen (current_activity_id s) (selected_activity_type s)
    (selected_button s) (_auto_finalize_last_date s) (activity_buttons s)
    (selected_activity_label s) v (descricao_text_disabled s)
    (status_label s) (start_button_disabled s) (end_button_disabled s)
    (active_box_shown s) (active_label s) (popups s).

Definition set_status_label (v : string) (s : MainScreen) : MainScreen :=
  mk_MainScreen (current_activity_id s) (selected_activity_type s)
    (selected_button s) (_auto_finalize_last_date s) (activity_buttons s)
    (selected_activity_label s) (descricao_text s) (descricao_text_disabled s)
    v (start_button_disabled s) (end_button_disabled s)
    (active_box_shown s) (active_label s) (popups s).

(** [start_button.disabled], [end_button.disabled], [descricao_text.disabled]. *)
Definition set_controls (start_dis end_dis desc_dis : bool) (s : MainScreen)
    : MainScreen :=
  mk_MainScreen (current_activity_id s) (selected_activity_type s)
    (selected_button s) (_auto_finalize_last_date s) (activity_buttons s)
    (selected_activity_label s) (descricao_text s) desc_dis
    (status_label s) start_dis end_dis
    (active_box_shown s) (active_label s) (popups s).

Definition set_active_box (shown : bool) (label : string) (s : MainScreen)
    : MainScreen :=
  mk_MainScreen (current_activity_id s) (selected_activity_type s)
    (selected_button s) (_auto_finalize_last_date s) (activity_buttons s)
    (selected_activity_label s) (descricao_text s) (descricao_text_disabled s)
    (status_label s) (start_button_disabled s) (end_button_disabled s)
    shown label (popups s).

Definition open_popup (p : Popup) (s : MainScreen) : MainScreen :=
  mk_MainScreen (current_activity_id s) (selected_activity_type s)
    (selected_button s) (_auto_finalize_last_date s) (activity_buttons s)
    (selected_activity_label s) (descricao_text s) (descricao_text_disabled s)
    (status_label s) (start_button_disabled s) (end_button_disabled s)
    (active_box_shown s) (active_label s) (popups s ++ [p]).

Definition show_error (message : string) : MainScreen -> MainScreen :=
  open_popup (Erro message).

Definition show_success (message : string) : MainScreen -> MainScreen :=
  open_popup (Sucesso message).

(** ** Toggle buttons *)

Definition update_button (inst : string) (f : ToggleButton -> ToggleButton)
    (s : MainScreen) : MainScreen :=
  set_activity_buttons
    (map (fun b => if String.eqb (text b) inst then f b else b)
       (activity_buttons s)) s.

Definition with_color (c : Color) (b : ToggleButton) : ToggleButton :=
  mk_ToggleButton (text b) (down b) (disabled b) c.

Definition with_down (d : bool) (b : ToggleButton) : ToggleButton :=
  mk_ToggleButton (text b) d (disabled b) (background_color b).

Definition with_disabled (d : bool) (b : ToggleButton) : ToggleButton :=
  mk_ToggleButton (text b) (down b) d (background_color b).

Definition is_button (o : option string) (inst : string) : bool :=
  match o with
  | Some t => String.eqb t inst
  | None => false
  end.

(** [on_activity_toggled(inst, state, activity_type)]. *)
Definition on_activity_toggled (inst : string) (state_down : bool)
    (activity_type : string) (s : MainScreen) : MainScreen :=
  if state_down then
    let s := set_selected_button (Some inst) s in
    let s := set_selected_activity_type (Some activity_type) s in
    let s := update_button inst (with_color SELECTED_COLOR) s in
    set_selected_activity_label ("Selecionado: " +:+ activity_type) s
  else
    let s := update_button inst (with_color NORMAL_COLOR) s in
    if is_button (selected_button s) inst then
      let s := set_selected_button None s in
      let s := set_selected_activity_type None s in
      set_selected_activity_label "Nenhuma atividade selecionada" s
    else s.

(** [btn.state = ...]: the handler bound in [carregar_atividades] runs
    when the state of the button changes. *)
Definition set_state (inst : string) (state_down : bool) (s : MainScreen)
    : MainScreen :=
  if existsb (fun b => String.eqb (text b) inst && negb (Bool.eqb (down b) state_down))
       (activity_buttons s)
  then on_activity_toggled inst state_down inst
         (update_button inst (with_down state_down) s)
  else s.

(** [_set_state_em_andamento(em_andamento)]. *)
Definition _set_state_em_andamento (em_andamento : bool) (s : MainScreen)
    : MainScreen :=
  let s := set_controls em_andamento (negb em_andamento) em_andamento s in
  set_activity_buttons
    (map (fun b => with_disabled
            (em_andamento && negb (is_button (selected_button s) (text b))) b)
       (activity_buttons s)) s.

(** [_show_active_box(tipo_atividade_or_none)]. *)
Definition _show_active_box (tipo : option string) (s : MainScreen) : MainScreen :=
  if truthy_str tipo then
    set_active_box true ("Atividade em andamento: " +:+ default "" tipo) s
  else set_active_box false "" s.

(** The local reset shared by [acao_finalizar] and
    [_on_auto_finalized_success]. *)
Definition reset_local (s : MainScreen) : MainScreen :=
  let s := set_current_activity_id None s in
  let s := match selected_button s with
           | Some inst => set_selected_button None (set_state inst false s)
           | None => s
           end in
  let s := set_selected_activity_type None s in
  let s := set_selected_activity_label "Nenhuma atividade selecionada" s in
  let s := set_descricao_text "" s in
  let s := set_status_label "Pronto para começar." s in
  let s := _show_active_box None s in
  _set_state_em_andamento false s.

Definition nl : string := String "010"%char EmptyString.

Section screen.

Variable env : Env.

(** [MDApp.get_running_app().user_id]. *)
Variable app_user_id : string.

(** ** Actions *)

(** [acao_iniciar()]. *)
Definition acao_iniciar (s : MainScreen) (w : World) : MainScreen * World :=
  if negb (truthy_str (selected_activity_type s)) then
    (show_error "Por favor, selecione um tipo de atividade." s, w)
  else
    let tipo := default "" (selected_activity_type s) in
    let descricao_ := descricao_text s in
    match iniciar_nova_atividade env tipo descricao_ app_user_id None w with
    | (Ok new_id, w') =>
        let s := set_current_activity_id new_id s in
        let s := set_status_label ("Em andamento: " +:+ tipo) s in
        let s := _show_active_box (selected_activity_type s) s in
        (_set_state_em_andamento true s, w')
    | (Raise e, w') =>
        (show_error ("Falha ao iniciar atividade:" +:+ nl +:+ str_exn e) s, w')
    end.

(** [acao_finalizar()]. *)
Definition acao_finalizar (s : MainScreen) (w : World) : MainScreen * World :=
  if negb (truthy_int (current_activity_id s)) then
    (show_error "Não há atividade em andamento para finalizar." s, w)
  else
    match finalizar_atividade env (default 0 (current_activity_id s)) None w with
    | (Ok _, w') =>
        (reset_local (show_success "Atividade finalizada com sucesso." s), w')
    | (Raise e, w') =>
        (show_error ("Falha ao finalizar atividade:" +:+ nl +:+ str_exn e) s, w')
    end.

(** [verificar_atividade_em_andamento()]. *)
Definition verificar_atividade_em_andamento (s : MainScreen) (w : World)
    : MainScreen * World :=
  match buscar_atividade_em_andamento env (Some app_user_id) None w with
  | (Ok (Some row), w') =>
      let s := set_current_activity_id (Some (id row)) s in
      let tipo := tipo_atividade row in
      let s := set_selected_activity_type (Some tipo) s in
      let s := fold_left
                 (fun s b =>
                    if String.eqb (text b) tipo
                    then set_selected_button (Some (text b))
                           (set_state (text b) true s)
                    else s)
                 (activity_buttons s) s in
      let s := set_selected_activity_label ("Continuando: " +:+ tipo) s in
      let s := set_descricao_text (default "" (descricao row)) s in
      let s := set_status_label ("Continuando: " +:+ tipo) s in
      let s := _show_active_box (Some tipo) s in
      (_set_state_em_andamento true s, w')
  | (Ok None, w') => (_set_state_em_andamento false s, w')
  | (Raise _, w') => (_set_state_em_andamento false s, w')
  end.

(** ** The auto-finalizer *)

Definition targets : list string := ["11:28"; "16:10"].

(** The thread [_auto_finalize_check] starts: [worker_finalize] with its
    arguments. *)
Record Job : Type := mk_Job {
  act_id : Z;
  time_str : string;
  fired_on : date;
}.

(** What a worker schedules on the UI thread with [Clock.schedule_once]. *)
Inductive Callback : Type :=
| call_show_error (message : string)
| call_on_auto_finalized_success (time_str : string).

(** [self._auto_finalize_last_date.get(hhmm)]. *)
Definition last_date_get (s : MainScreen) (hhmm : string) : option date :=
  mjoin (_auto_finalize_last_date s !! hhmm).

(** [_auto_finalize_check(dt)]: the new state, and the thread it starts,
    if any. *)
Definition _auto_finalize_check (s : MainScreen) (w : World)
    : MainScreen * option Job * World :=
  match now env w with
  | (Ok now_, w') =>
      let hhmm := strftime_HM now_ in
      let today := date_of now_ in
      if existsb (String.eqb hhmm) targets
         && negb (bool_decide (last_date_get s hhmm = Some today))
      then
        let s := set_auto_finalize_last_date
                   (<[hhmm := Some today]> (_auto_finalize_last_date s)) s in
        if truthy_int (current_activity_id s) then
          (s, Some (mk_Job (default 0 (current_activity_id s)) hhmm today), w')
        else (s, None, w')
      else (s, None, w')
  | (Raise _, w') => (s, None, w')
  end.

(** [worker_finalize(act_id, time_str)], run on its own thread. *)
Definition worker_finalize (j : Job) (w : World) : Callback * World :=
  match finalizar_atividade env (act_id j) None w with
  | (Ok _, w') => (call_on_auto_finalized_success (time_str j), w')
  | (Raise e, w') =>
      (call_show_error ("Falha ao finalizar automaticamente: " +:+ str_exn e), w')
  end.

(** [_on_auto_finalized_success(time_str)]. *)
Definition _on_auto_finalized_success (time_str_ : string) (s : MainScreen)
    : MainScreen :=
  reset_local
    (show_success ("Atividade finalizada automaticamente às " +:+ time_str_ +:+ ".") s).

Definition run_callback (c : Callback) (s : MainScreen) : MainScreen :=
  match c with
  | call_show_error m => show_error m s
  | call_on_auto_finalized_success t => _on_auto_finalized_success t s
  end.

(** ** The running screen

    The screen, the store, the worker threads started and not yet run,
    and the callbacks waiting on the UI thread. *)
Record System : Type := mk_System {
  screen : MainScreen;
  world : World;
  threads : list Job;
  scheduled : list Callback;
}.

(** What can happen next: the user presses an activity button, Iniciar
    or Finalizar; the clock ticks; the [k]-th waiting worker thread
    runs; the first waiting callback runs. *)
Inductive Action : Type :=
| press_activity (inst : string)
| press_iniciar
| press_finalizar
| clock_tick
| thread_runs (k : nat)
| callback_runs.

(** A press on a toggle button of the group ['activity']: nothing if the
    button is disabled or already down ([allow_no_selection=False]),
    otherwise the other buttons are released and this one goes down. *)
Definition press_toggle (inst : string) (s : MainScreen) : MainScreen :=
  if existsb (fun b => String.eqb (text b) inst && negb (disabled b) && negb (down b))
       (activity_buttons s)
  then
    let s := fold_left
               (fun s b => if String.eqb (text b) inst then s
                           else set_state (text b) false s)
               (activity_buttons s) s in
    set_state inst true s
  else s.

(** One step; the second component is the thread started by the step,
    if any. *)
Definition step (a : Action) (x : System) : System * option Job :=
  match a with
  | press_activity inst =>
      (mk_System (press_toggle inst (screen x)) (world x)
         (threads x) (scheduled x), None)
  | press_iniciar =>
      let '(s, w) := acao_iniciar (screen x) (world x) in
      (mk_System s w (threads x) (scheduled x), None)
  | press_finalizar =>
      let '(s, w) := acao_finalizar (screen x) (world x) in
      (mk_System s w (threads x) (scheduled x), None)
  | clock_tick =>
      let '(s, j, w) := _auto_finalize_check (screen x) (world x) in
      (mk_System s w (threads x ++ option_list j) (scheduled x), j)
  | thread_runs k =>
      match threads x !! k with
      | Some j =>
          let '(c, w) := worker_finalize j (world x) in
          (mk_System (screen x) w (delete k (threads x)) (scheduled x ++ [c]),
           None)
      | None => (x, None)
      end
  | callback_runs =>
      match scheduled x with
      | c :: cs =>
          (mk_System (run_callback c (screen x)) (world x) (threads x) cs, None)
      | [] => (x, None)
      end
  end.

(** A run: the final state and the threads started on the way. *)
Fixpoint run (acts : list Action) (x : System) : System * list Job :=
  match acts with
  | [] => (x, [])
  | a :: acts' =>
      let '(x', j) := step a x in
      let '(x'', js) := run acts' x' in
      (x'', option_list j ++ js)
  end.

(** ** Operations run to completion

    A start, a stop, or a scheduler tick whose worker and callback
    finish before the next operation begins. *)
Inductive Operation : Type :=
| op_select (inst : string)
| op_iniciar
| op_finalizar
| op_auto_finalize.

Definition actions_of (o : Operation) : list Action :=
  match o with
  | op_select inst => [press_activity inst]
  | op_iniciar => [press_iniciar]
  | op_finalizar => [press_finalizar]
  | op_auto_finalize => [clock_tick; thread_runs 0; callback_runs]
  end.

Definition perform (o : Operation) (x : System) : System :=
  fst (run (actions_of o) x).

Definition perform_all (ops : list Operation) (x : System) : System :=
  fold_left (fun x o => perform o x) ops x.

(** Every [op_iniciar] of [ops] happens while the Iniciar button is
    enabled. *)
Fixpoint iniciar_enabled (ops : list Operation) (x : System) : bool :=
  match ops with
  | [] => true
  | o :: ops' =>
      match o with
      | op_iniciar => negb (start_button_disabled (screen x))
      | _ => true
      end && iniciar_enabled ops' (perform o x)
  end.

End screen.
End GUI_principal.

(* ===================================================================== *)
(** * GUI_login.py: the user file, account creation and the keyboard      *)
(* ===================================================================== *)

Module GUI_login_accounts.
Import base64 GUI_login.

(** The file users.json: missing, unreadable (corrupt, or no permission),
    or holding a table of users. Its top-level value is taken to be an
    object, and [get_user_store_path], which creates the folder, is
    taken to return: with another top-level value, or when the folder
    cannot be made, the functions below raise where this model does
    not. *)
Inductive users_file : Type :=
| file_absent
| file_unreadable
| file_users (users : gmap string (gmap string json)).

(** [load_users()]. *)
Definition load_users (f : users_file) : gmap string (gmap string json) :=
  match f with
  | file_absent => ∅
  | file_unreadable => ∅
  | file_users users => users
  end.

(** How a write of users.json can fail: the file cannot be opened, or
    the write stops after the file was truncated. *)
Inductive save_fault : Type :=
| open_fails (e : exn)
| write_fails (e : exn).

(** [save_users(users)]: the file afterwards, and the exception if any. *)
Definition save_users (fault : option save_fault)
    (users : gmap string (gmap string json)) (f : users_file)
    : res unit * users_file :=
  match fault with
  | None => (Ok tt, file_users users)
  | Some (open_fails e) => (Raise e, f)
  | Some (write_fails e) => (Raise e, file_unreadable)
  end.

(** What [on_create] shows. *)
Inductive create_outcome : Type :=
| create_error (message : string)
| create_info (message : string).

Section accounts.

Variable pbkdf2_hmac_sha256 : bytes -> bytes -> Z -> bytes.
Variable py_int : json -> res Z.
Variable strip : string -> string.

(** [on_create] of [criar_conta_popup], on the texts of the three
    fields; [token_bytes] is what [secrets.token_bytes(16)] returns. An
    exception of [hash_password] is not caught. *)
Definition on_create (token_bytes : bytes) (fault : option save_fault)
    (username_text password_text confirm_text : string) (f : users_file)
    : res create_outcome * users_file :=
  let user := strip username_text in
  let pwd := strip password_text in
  let conf := strip confirm_text in
  if String.eqb user "" || String.eqb pwd "" then
    (Ok (create_error "Preencha usuário e senha."), f)
  else if negb (String.eqb pwd conf) then
    (Ok (create_error "Senha e confirmação não coincidem."), f)
  else
    let users := load_users f in
    match users !! user with
    | Some _ => (Ok (create_error "Usuário já existe. Escolha outro nome."), f)
    | None =>
        match hash_password pbkdf2_hmac_sha256 token_bytes pwd None 200000 with
        | Raise e => (Raise e, f)
        | Ok rec =>
            match save_users fault (<[user := rec]> users) f with
            | (Ok _, f') =>
                (Ok (create_info "Conta criada com sucesso. Faça login."), f')
            | (Raise e, f') =>
                (Ok (create_error ("Falha ao salvar usuário: " +:+ str_exn e)),
                 f')
            end
        end
    end.

(** The two text fields of the login screen. *)
Record LoginForm : Type := mk_LoginForm {
  username_text : string;
  password_text : string;
  username_focus : bool;
  password_focus : bool;
}.

Definition tab : string := String "009"%char EmptyString.
Definition carriage_return : string := String "013"%char EmptyString.
Definition line_feed : string := String "010"%char EmptyString.

Definition codepoint_is (codepoint : option string) (c : string) : bool :=
  match codepoint with
  | Some s => String.eqb s c
  | None => false
  end.

(** [_on_key_down(window, key, scancode, codepoint, modifiers)] up to
    the call of [fazer_login]: whether the key was handled, the form as
    the handler's own assignments leave it, and the user name and
    password it passes to [fazer_login], if it calls it. The call runs
    in [_on_key_down_login] below. *)
Definition _on_key_down (form : LoginForm) (key : Z) (codepoint : option string)
    : bool * LoginForm * option (string * string) :=
  if (key =? 9) || codepoint_is codepoint tab then
    let form' :=
      if username_focus form then
        mk_LoginForm (username_text form) (password_text form) false true
      else if password_focus form then
        mk_LoginForm (username_text form) (password_text form) true false
      else
        mk_LoginForm (username_text form) (password_text form) true
          (password_focus form) in
    (true, form', None)
  else if (key =? 13)
          || codepoint_is codepoint carriage_return
          || codepoint_is codepoint line_feed then
    let u := strip (username_text form) in
    let p := strip (password_text form) in
    if negb (String.eqb u "") && negb (String.eqb p "") then
      (true, form, Some (u, p))
    else (true, form, None)
  else (false, form, None).

(** Whether [fazer_login] ended in its last branch, the only one that
    writes to the form: after "Usuário ou senha incorretos." it clears
    the password field. *)
Definition wrong_password (outcome : login_outcome) : bool :=
  match outcome with
  | show_error message => String.eqb message "Usuário ou senha incorretos."
  | login_as _ => false
  end.

(** [_on_key_down] with the call of [fazer_login] run inside it, over
    the users [load_users] returns: the form afterwards, and what the
    login did, if it was attempted. *)
Definition _on_key_down_login (users : gmap string (gmap string json))
    (form : LoginForm) (key : Z) (codepoint : option string)
    : bool * LoginForm * option login_outcome :=
  match _on_key_down form key codepoint with
  | (handled, form', Some (u, p)) =>
      let outcome :=
        fazer_login pbkdf2_hmac_sha256 py_int strip users (Some u) (Some p) in
      (handled,
       if wrong_password outcome then
         mk_LoginForm (username_text form') "" (username_focus form')
           (password_focus form')
       else form',
       Some outcome)
  | (handled, form', None) => (handled, form', None)
  end.

End accounts.
End GUI_login_accounts.

(* ===================================================================== *)
(** * handle_db.py: listing and the table check                           *)
(* ===================================================================== *)

Module handle_db_queries.
Import handle_db.

(** The log lines of [listar_atividades] and [setup_database]; these two
    functions hand them back beside their result. *)
Inductive LogLine : Type :=
| ErroListarAtividades (error : string)
| ErroAcessarTabela (error : string)
| FaltamColunas
| TabelaAcessivel
| FalhaVerificarTabela (e : exn).

Definition CREATE_TABLE_SQL : string :=
  "
CREATE TABLE IF NOT EXISTS public.atividades (
  id bigserial PRIMARY KEY,
  tipo_atividade text NOT NULL,
  descricao text,
  inicio timestamp without time zone NOT NULL,
  fim timestamp without time zone,
  user_id text,
  ano integer,
  mes integer,
  dia integer,
  horas_trabalhadas numeric
);
".

(** The dict [setup_database] returns. *)
Record TableStatus : Type := mk_TableStatus {
  exists_ : bool;
  create_table_sql : option string;
}.

Section queries.

Variable env : Env.

(** [listar_atividades(limit, user_id, supabase_client)]. *)
Definition listar_atividades (limit_arg : nat) (user_id_ : option string)
    (supabase_client : option Client) (w : World)
    : res (list Row) * list LogLine * World :=
  match client_or_default env supabase_client w with
  | (Raise e, w') => (Raise e, [], w')
  | (Ok _, w') =>
      let query := limit limit_arg (order_desc select) in
      let query := match user_id_ with
                   | Some u => eq_ (eq_user_id u) query
                   | None => query
                   end in
      match execute_select env query w' with
      | (Raise e, w'') => (Raise e, [], w'')
      | (Ok resp, w'') =>
          match error resp with
          | Some e =>
              (Raise (RuntimeError ("Supabase select error: " +:+ e)),
               [ErroListarAtividades e], w'')
          | None => (Ok (data resp), [], w'')
          end
      end
  end.

(** The exception, if any, with which the client raises on the [n]-th
    request instead of handing back a response. *)
Variable raises : nat -> option exn.

(** [query.execute()] of a select, by a client that may raise. *)
Definition execute (q : Query) : M Response := fun w =>
  match raises (requests w) with
  | Some e => (Raise e, next_request w)
  | None => execute_select env q w
  end.

(** [setup_database()]: the client is made outside the [try]; inside
    it, an error in the first response or an exception of either
    request gives [exists: False] with the SQL, and an error in the
    second response only warns. *)
Definition setup_database (w : World)
    : res TableStatus * list LogLine * World :=
  match get_supabase_client env w with
  | (Raise e, w') => (Raise e, [], w')
  | (Ok _, w') =>
      match execute (limit 1 select) w' with
      | (Raise e, w1) =>
          (Ok (mk_TableStatus false (Some CREATE_TABLE_SQL)),
           [FalhaVerificarTabela e], w1)
      | (Ok resp, w1) =>
          match error resp with
          | Some e =>
              (Ok (mk_TableStatus false (Some CREATE_TABLE_SQL)),
               [ErroAcessarTabela e], w1)
          | None =>
              match execute (limit 1 select) w1 with
              | (Raise e, w2) =>
                  (Ok (mk_TableStatus false (Some CREATE_TABLE_SQL)),
                   [FalhaVerificarTabela e], w2)
              | (Ok check_columns, w2) =>
                  match error check_columns with
                  | Some _ =>
                      (Ok (mk_TableStatus true None),
                       [FaltamColunas; TabelaAcessivel], w2)
                  | None =>
                      (Ok (mk_TableStatus true None), [TabelaAcessivel], w2)
                  end
              end
          end
      end
  end.

End queries.
End handle_db_queries.

(* ===================================================================== *)
(** * GUI_principal.py: loading the screen and the scheduler's clock      *)
(* ===================================================================== *)

Module GUI_principal_lifecycle.
Import handle_db GUI_principal.

(** The activity types of [carregar_atividades]. *)
Definition activity_types : list string :=
  ["Pesquisa e Desenvolvimento"; "Atendimento de Fábrica"; "Documentação";
   "Gabaritos e Dispositivos"; "Cadastro"; "Reuniões"; "Custos"; "Finame";
   "RNC"; "Outros"].

(** A [ToggleButton] as [carregar_atividades] creates it. *)
Definition new_button (activity_type : string) : ToggleButton :=
  mk_ToggleButton activity_type false false NORMAL_COLOR.

Section lifecycle.

Variable env : Env.
Variable app_user_id : string.

(** [carregar_atividades()]. *)
Definition carregar_atividades (s : MainScreen) (w : World)
    : MainScreen * World :=
  let s := set_activity_buttons (map new_button activity_types) s in
  verificar_atividade_em_andamento env app_user_id s w.

End lifecycle.

(** Kivy's [Clock] as the screen uses it: the intervals scheduled and
    not cancelled, each with its own handle. *)
Record ClockState : Type := mk_ClockState {
  intervals : list nat;
  next_handle : nat;
}.

(** The screen's [_auto_finalize_event] beside the clock. *)
Record Ticker : Type := mk_Ticker {
  _auto_finalize_event : option nat;
  clock : ClockState;
}.

(** [start_auto_finalizer()]. *)
Definition start_auto_finalizer (t : Ticker) : Ticker :=
  match _auto_finalize_event t with
  | None =>
      let h := next_handle (clock t) in
      mk_Ticker (Some h) (mk_ClockState (intervals (clock t) ++ [h]) (S h))
  | Some _ => t
  end.

(** [stop_auto_finalizer()]. *)
Definition stop_auto_finalizer (t : Ticker) : Ticker :=
  match _auto_finalize_event t with
  | Some h =>
      mk_Ticker None
        (mk_ClockState (List.filter (fun x => negb (Nat.eqb x h))
                          (intervals (clock t)))
           (next_handle (clock t)))
  | None => t
  end.

(** [on_pre_enter] and [on_leave]. *)
Definition on_pre_enter (t : Ticker) : Ticker := start_auto_finalizer t.
Definition on_leave (t : Ticker) : Ticker := stop_auto_finalizer t.

Inductive Visit : Type := enter | leave.

Definition visit (t : Ticker) (v : Visit) : Ticker :=
  match v with
  | enter => on_pre_enter t
  | leave => on_leave t
  end.

End GUI_principal_lifecycle.

(* ===================================================================== *)
(** * Properties of the base64 codec                                      *)
(* ===================================================================== *)

Section base64_facts.
Import base64.
Local Open Scope N_scope.

(** Checking a property of bytes by running through all of them. *)
Definition all_bytes (P : N -> bool) : bool :=
  forallb P (map N.of_nat (seq 0 256)).

Lemma all_bytes_spec (P : N -> bool) :
  all_bytes P = true -> forall n, n <= 255 -> P n = true.
Proof.
  unfold all_bytes. intros H n Hn.
  rewrite forallb_forall in H. apply H.
  apply in_map_iff. exists (N.to_nat n). split.
  - apply N2Nat.id.
  - apply in_seq. lia.
Qed.

Lemma byte_of_to_N (b : byte) : byte_of (Byte.to_N b) = b.
Proof. unfold byte_of. now rewrite Byte.of_to_N. Qed.

Lemma table_b2a_a2b (n : N) :
  n < 64 -> table_a2b_base64 (table_b2a_base64 n) = Some n.
Proof.
  intros Hn.
  assert (H : all_bytes (fun n => (64 <=? n) ||
            bool_decide (table_a2b_base64 (table_b2a_base64 n) = Some n)) = true)
    by (vm_compute; reflexivity).
  apply all_bytes_spec with (n := n) in H; [|lia].
  apply orb_true_iff in H as [H|H].
  - apply N.leb_le in H. lia.
  - now apply bool_decide_eq_true in H.
Qed.

Lemma table_b2a_not_pad (n : N) :
  n < 64 -> Byte.eqb (table_b2a_base64 n) BASE64_PAD = false.
Proof.
  intros Hn.
  assert (H : all_bytes (fun n => (64 <=? n) ||
            negb (Byte.eqb (table_b2a_base64 n) BASE64_PAD)) = true)
    by (vm_compute; reflexivity).
  apply all_bytes_spec with (n := n) in H; [|lia].
  apply orb_true_iff in H as [H|H].
  - apply N.leb_le in H. lia.
  - now apply negb_true_iff in H.
Qed.

Lemma table_b2a_ascii (n : N) : is_ascii (table_b2a_base64 n) = true.
Proof.
  unfold table_b2a_base64.
  destruct (nth_in_or_default (N.to_nat n) alphabet BASE64_PAD) as [H|H].
  - revert H. generalize (nth (N.to_nat n) alphabet BASE64_PAD). intros b H.
    assert (A : forallb is_ascii alphabet = true) by (vm_compute; reflexivity).
    rewrite forallb_forall in A. now apply A.
  - rewrite H. reflexivity.
Qed.

(** The sextets of a group of three bytes. *)
Definition sextet0 (a : N) : N := N.shiftr a 2.
Definition sextet1 (a b : N) : N := N.lor (N.shiftl (N.land a 3) 4) (N.shiftr b 4).
Definition sextet2 (b c : N) : N := N.lor (N.shiftl (N.land b 15) 2) (N.shiftr c 6).
Definition sextet3 (c : N) : N := N.land c 63.

Definition sextets_ok (a b : N) : bool :=
  (sextet0 a <? 64) && (sextet1 a b <? 64) && (sextet2 a b <? 64)
  && (sextet3 a <? 64)
  && (N.land (N.lor (N.shiftl (sextet0 a) 2) (N.shiftr (sextet1 a b) 4)) 255 =? a)
  && (N.land (sextet1 a b) 15 =? N.shiftr b 4)
  && (N.land (N.lor (N.shiftl (N.shiftr a 4) 4) (N.shiftr (sextet2 a b) 2)) 255 =? a)
  && (N.land (N.lor (N.shiftl (N.land (sextet2 a b) 3) 6) (sextet3 b)) 255 =? b).

Lemma sextets_checked :
  all_bytes (fun a => all_bytes (fun b => sextets_ok a b)) = true.
Proof. vm_compute. reflexivity. Qed.

Lemma sextets_facts (a b : byte) :
  sextets_ok (Byte.to_N a) (Byte.to_N b) = true.
Proof.
  pose proof sextets_checked as H.
  apply all_bytes_spec with (n := Byte.to_N a) in H; [|apply Byte.to_N_bounded].
  apply all_bytes_spec with (n := Byte.to_N b) in H; [|apply Byte.to_N_bounded].
  exact H.
Qed.


Lemma sextets_split (a b : byte) :
  let x := Byte.to_N a in
  let y := Byte.to_N b in
  sextet0 x < 64 /\ sextet1 x y < 64 /\ sextet2 x y < 64 /\ sextet3 x < 64
  /\ N.land (N.lor (N.shiftl (sextet0 x) 2) (N.shiftr (sextet1 x y) 4)) 255 = x
  /\ N.land (sextet1 x y) 15 = N.shiftr y 4
  /\ N.land (N.lor (N.shiftl (N.shiftr x 4) 4) (N.shiftr (sextet2 x y) 2)) 255 = x
  /\ N.land (N.lor (N.shiftl (N.land (sextet2 x y) 3) 6) (sextet3 y)) 255 = y.
Proof.
  intros x y. pose proof (sextets_facts a b) as H. fold x y in H.
  unfold sextets_ok in H.
  repeat (apply andb_true_iff in H as [H ?]).
  repeat match goal with
         | H : (_ <? _) = true |- _ => apply N.ltb_lt in H
         | H : (_ =? _) = true |- _ => apply N.eqb_eq in H
         end.
  repeat split; assumption.
Qed.

(** One decoding step on a character of the alphabet. *)
Lemma a2b_loop_sextet (st : a2b_state) (out : bytes) (n : N) (rest : bytes) :
  n < 64 ->
  a2b_loop st out (table_b2a_base64 n :: rest) =
  match quad_pos st with
  | 0 => a2b_loop (mk_a2b 1 n 0) out rest
  | 1 =>
      a2b_loop (mk_a2b 2 (N.land n 15) 0)
        (out ++ [byte_of (N.land (N.lor (N.shiftl (leftchar st) 2) (N.shiftr n 4)) 255)])
        rest
  | 2 =>
      a2b_loop (mk_a2b 3 (N.land n 3) 0)
        (out ++ [byte_of (N.land (N.lor (N.shiftl (leftchar st) 4) (N.shiftr n 2)) 255)])
        rest
  | _ =>
      a2b_loop (mk_a2b 0 0 0)
        (out ++ [byte_of (N.land (N.lor (N.shiftl (leftchar st) 6) n) 255)])
        rest
  end.
Proof.
  intros Hn. cbn [a2b_loop].
  rewrite (table_b2a_not_pad n Hn), (table_b2a_a2b n Hn). reflexivity.
Qed.

Lemma zero_byte : Byte.to_N "000"%byte = 0.
Proof. reflexivity. Qed.

(** Decoding what the encoder wrote gives the bytes back. *)
Lemma a2b_b2a_loop (s : bytes) : forall out,
  a2b_loop a2b_init out (b2a_base64 s) = Ok (out ++ s).
Proof.
  induction s as [s IH] using (induction_ltof1 _ (@length byte)).
  unfold ltof in IH. intros out.
  destruct s as [|a [|b [|c rest]]].
  - cbn. now rewrite app_nil_r.
  - destruct (sextets_split a "000"%byte) as (H0 & H1 & _ & _ & F1 & _).
    rewrite zero_byte in *. cbn zeta in *.
    unfold sextet1 in H1, F1. rewrite N.shiftr_0_l, N.lor_0_r in H1, F1.
    cbn [b2a_base64]. cbn zeta.
    rewrite a2b_loop_sextet by exact H0. cbn [a2b_init quad_pos].
    cbv iota.
    rewrite a2b_loop_sextet by exact H1. cbn [quad_pos leftchar]. cbv iota.
    unfold sextet0 in F1. rewrite F1, byte_of_to_N.
    reflexivity.
  - destruct (sextets_split a b) as (H0 & H1 & _ & _ & F1 & G & _).
    destruct (sextets_split b "000"%byte) as (_ & _ & H2 & _ & _ & _ & F2 & _).
    rewrite zero_byte in *. cbn zeta in *.
    unfold sextet2 in H2, F2. rewrite N.shiftr_0_l, N.lor_0_r in H2, F2.
    cbn [b2a_base64]. cbn zeta.
    rewrite a2b_loop_sextet by exact H0. cbn [a2b_init quad_pos]. cbv iota.
    rewrite a2b_loop_sextet by exact H1. cbn [quad_pos leftchar]. cbv iota.
    unfold sextet0 in F1. unfold sextet1 in F1, G. rewrite F1, byte_of_to_N.
    rewrite a2b_loop_sextet by exact H2. cbn [quad_pos leftchar]. cbv iota.
    rewrite G, F2, byte_of_to_N.
    cbn. now rewrite <- app_assoc.
  - destruct (sextets_split a b) as (H0 & H1 & _ & _ & F1 & G & _).
    destruct (sextets_split b c) as (_ & _ & H2 & _ & _ & _ & F2 & F3).
    destruct (sextets_split c c) as (_ & _ & _ & H3 & _).
    cbn zeta in *.
    cbn [b2a_base64]. cbn zeta.
    rewrite a2b_loop_sextet by exact H0. cbn [a2b_init quad_pos]. cbv iota.
    rewrite a2b_loop_sextet by exact H1. cbn [quad_pos leftchar]. cbv iota.
    unfold sextet0 in F1. unfold sextet1 in F1, G. rewrite F1, byte_of_to_N.
    rewrite a2b_loop_sextet by exact H2. cbn [quad_pos leftchar]. cbv iota.
    unfold sextet2 in F2, F3. rewrite G, F2, byte_of_to_N.
    rewrite a2b_loop_sextet by exact H3. cbn [quad_pos leftchar]. cbv iota.
    unfold sextet3 in F3. rewrite F3, byte_of_to_N.
    change (mk_a2b 0 0 0) with a2b_init.
    rewrite IH by (cbn; lia).
    now rewrite <- !app_assoc.
Qed.

Lemma b2a_base64_ascii (s : bytes) : forallb is_ascii (b2a_base64 s) = true.
Proof.
  induction s as [s IH] using (induction_ltof1 _ (@length byte)).
  unfold ltof in IH.
  destruct s as [|a [|b [|c rest]]]; cbn [b2a_base64 forallb];
    rewrite ?table_b2a_ascii; try reflexivity.
  cbn. apply IH. cbn. lia.
Qed.

(** [b64decode(b64encode(s).decode('ascii'))] is [s]. *)
Lemma b64decode_b64encode (s : bytes) :
  decode_ascii (b64encode s) ≫= b64decode = Ok s.
Proof.
  unfold decode_ascii, b64encode. rewrite b2a_base64_ascii. cbn.
  unfold b64decode. rewrite list_byte_of_string_of_list_byte.
  rewrite b2a_base64_ascii. unfold a2b_base64.
  now rewrite a2b_b2a_loop.
Qed.

(** The test vectors of RFC 4648. *)
Example b64encode_vectors :
  map (fun s => string_of_list_byte (b64encode (list_byte_of_string s)))
    [EmptyString; "f"%string; "fo"%string; "foo"%string; "foob"%string;
     "fooba"%string; "foobar"%string]
  = [EmptyString; "Zg=="%string; "Zm8="%string; "Zm9v"%string;
     "Zm9vYg=="%string; "Zm9vYmE="%string; "Zm9vYmFy"%string].
Proof. vm_compute. reflexivity. Qed.

(** Characters outside the alphabet are skipped; a truncated quad is an
    error. *)
Example b64decode_vectors :
  b64decode "Zm9v YmFy" = Ok (list_byte_of_string "foobar")
  /\ b64decode "Zg==" = Ok (list_byte_of_string "f")
  /\ raised (b64decode "Zg=") = true
  /\ raised (b64decode "A") = true.
Proof. vm_compute. repeat split. Qed.

End base64_facts.

(* ===================================================================== *)
(** * Properties of the credential vault                                  *)
(* ===================================================================== *)

Section vault_facts.
Import base64 GUI_login.

Variable pbkdf2_hmac_sha256 : bytes -> bytes -> Z -> bytes.
Variable py_int : json -> res Z.
Variable strip : string -> string.

Lemma compare_digest_acc_false (a b : bytes) :
  compare_digest_acc a b false = false.
Proof.
  revert b. induction a as [|x a IH]; intros [|y b]; cbn; auto.
Qed.

(** [compare_digest] decides equality of byte strings. *)
Lemma compare_digest_spec (a b : bytes) : compare_digest a b = true <-> a = b.
Proof.
  unfold compare_digest. revert b.
  induction a as [|x a IH]; intros [|y b]; cbn; try (split; congruence).
  destruct (Byte.eqb x y) eqn:E.
  - apply Byte.byte_dec_bl in E. subst y. rewrite IH. split; congruence.
  - rewrite compare_digest_acc_false. split; [discriminate|].
    intros [= -> _]. now rewrite (Byte.byte_dec_lb eq_refl) in E.
Qed.

Lemma pbkdf2_hmac_ok (p s : bytes) (n : Z) :
  1 <= n <= INT_MAX ->
  pbkdf2_hmac pbkdf2_hmac_sha256 p s n = Ok (pbkdf2_hmac_sha256 p s n).
Proof.
  intros [H1 H2]. unfold pbkdf2_hmac.
  destruct (Z.ltb_spec n 1); [lia|].
  destruct (Z.ltb_spec INT_MAX n); [lia|]. reflexivity.
Qed.

Lemma pbkdf2_hmac_raises (p s : bytes) (n : Z) :
  raised (pbkdf2_hmac pbkdf2_hmac_sha256 p s n) = true <-> n < 1 \/ INT_MAX < n.
Proof.
  unfold pbkdf2_hmac.
  destruct (Z.ltb_spec n 1); [cbn; intuition|].
  destruct (Z.ltb_spec INT_MAX n); cbn; [intuition|].
  split; [discriminate|lia].
Qed.

Lemma decode_ascii_b64encode (s : bytes) :
  decode_ascii (b64encode s) = Ok (string_of_list_byte (b64encode s)).
Proof. unfold decode_ascii, b64encode. now rewrite b2a_base64_ascii. Qed.

Lemma b64decode_encoded (s : bytes) :
  b64decode (string_of_list_byte (b64encode s)) = Ok s.
Proof.
  pose proof (b64decode_b64encode s) as H.
  now rewrite decode_ascii_b64encode in H.
Qed.

(** [hash_password] returns a record exactly when the iteration count
    is one [pbkdf2_hmac] accepts. *)
Lemma hash_password_returns (token : bytes) (p : string) (salt : option bytes)
    (n : Z) :
  raised (hash_password pbkdf2_hmac_sha256 token p salt n) = false
  <-> 1 <= n <= INT_MAX.
Proof.
  unfold hash_password.
  destruct (Z_lt_dec n 1) as [H|H]; [|destruct (Z_lt_dec INT_MAX n) as [H'|H']].
  - unfold pbkdf2_hmac. destruct (Z.ltb_spec n 1); [|lia]. cbn. split; [discriminate|lia].
  - unfold pbkdf2_hmac. destruct (Z.ltb_spec n 1); [lia|].
    destruct (Z.ltb_spec INT_MAX n); [|lia]. cbn. split; [discriminate|lia].
  - rewrite pbkdf2_hmac_ok by lia. cbn.
    rewrite !decode_ascii_b64encode. cbn. split; [lia|reflexivity].
Qed.

(** C7. For every password [p], salt (given or drawn) and iteration
    count [n]: when [hash_password] returns a record, [verify_password]
    applied to [p] and the record's salt, hash and iters returns [True];
    and it returns a record for every iteration count [pbkdf2_hmac]
    accepts, the only other outcome being its exception for a count
    below 1 or above [INT_MAX]. *)
Theorem verify_password_hash_password (token : bytes) (p : string)
    (salt : option bytes) (n : Z) :
  match hash_password pbkdf2_hmac_sha256 token p salt n with
  | Ok record =>
      exists salt_b64 hash_b64,
        record !! "salt" = Some (JStr salt_b64)
        /\ record !! "hash" = Some (JStr hash_b64)
        /\ record !! "iters" = Some (JInt n)
        /\ verify_password pbkdf2_hmac_sha256 p salt_b64 hash_b64 n = Ok true
  | Raise _ => n < 1 \/ INT_MAX < n
  end.
Proof.
  unfold hash_password.
  destruct (pbkdf2_hmac pbkdf2_hmac_sha256 (encode_utf8 p)
              (match salt with None => token | Some s => s end) n)
    as [dk|e] eqn:E.
  - cbn. rewrite !decode_ascii_b64encode. cbn.
    eexists _, _. repeat split.
    unfold verify_password. rewrite !b64decode_encoded. cbn.
    rewrite E. cbn. f_equal. now apply compare_digest_spec.
  - cbn. eapply pbkdf2_hmac_raises. rewrite E. reflexivity.
Qed.

(** A field of the record decodes: it is present, a string, and
    [b64decode] accepts it. *)
Definition decodes (v : option json) : bool :=
  match v with
  | Some (JStr s) => negb (raised (b64decode s))
  | _ => false
  end.

(** On such a record [verify_password] itself raises. *)
Lemma verify_password_raises (p salt_b64 hash_b64 : string) (n : Z) :
  raised (b64decode salt_b64) = true \/ raised (b64decode hash_b64) = true ->
  raised (verify_password pbkdf2_hmac_sha256 p salt_b64 hash_b64 n) = true.
Proof.
  unfold verify_password.
  destruct (b64decode salt_b64); cbn; [|reflexivity].
  destruct (b64decode hash_b64); cbn; [|reflexivity].
  intros [H|H]; discriminate.
Qed.

Lemma verify_record_raises (p : string) (record : gmap string json) :
  decodes (record !! "salt") = false \/ decodes (record !! "hash") = false ->
  raised (verify_record pbkdf2_hmac_sha256 py_int p record) = true.
Proof.
  unfold verify_record, getitem, decodes.
  destruct (record !! "salt") as [sv|]; cbn; [|reflexivity].
  destruct (record !! "hash") as [hv|]; cbn; [|reflexivity].
  destruct (py_int _); cbn; [|reflexivity].
  destruct sv; cbn; try reflexivity.
  destruct hv; cbn; try reflexivity.
  intros H. apply verify_password_raises.
  destruct H as [H|H]; apply negb_false_iff in H; auto.
Qed.

(** C8. For every password and every credential record whose salt or
    hash does not decode, the verification [fazer_login] performs yields
    [False]: the exception [verify_password] raises is caught there, and
    the login ends with an error popup, for any user table, user name and
    password. *)
Theorem fazer_login_malformed_record (p : string) (record : gmap string json) :
  decodes (record !! "salt") = false \/ decodes (record !! "hash") = false ->
  fazer_login_ok pbkdf2_hmac_sha256 py_int p record = false
  /\ forall users username password,
       users !! strip (default "" username) = Some record ->
       strip (default "" password) = p ->
       exists message,
         fazer_login pbkdf2_hmac_sha256 py_int strip users username password
         = show_error message.
Proof.
  intros H. apply verify_record_raises with (p := p) in H.
  assert (Hok : fazer_login_ok pbkdf2_hmac_sha256 py_int p record = false).
  { unfold fazer_login_ok. destruct (verify_record _ _ _ _); [discriminate|reflexivity]. }
  split; [exact Hok|].
  intros users username password Hu Hp. unfold fazer_login.
  destruct (_ || _); [eauto|].
  rewrite Hu. destruct (bool_decide _); [eauto|].
  rewrite Hp, Hok. eauto.
Qed.

End vault_facts.

(* ===================================================================== *)
(** * Properties of handle_db                                             *)
(* ===================================================================== *)

Section hours_facts.
Import handle_db.
Local Open Scope Q_scope.

(** Rounding moves a number by at most one half. *)
Lemma round_half_even_near (x : Q) :
  x - (1 # 2) <= inject_Z (round_half_even x) <= x + (1 # 2).
Proof.
  unfold round_half_even.
  pose proof (Qfloor_le x) as Hlo.
  pose proof (Qlt_floor x) as Hhi.
  rewrite inject_Z_plus in Hhi. change (inject_Z 1) with 1 in Hhi.
  destruct (Qcompare_spec (x - inject_Z (Qfloor x)) (1 # 2)) as [E|E|E].
  - destruct (Z.even (Qfloor x)).
    + split; lra.
    + rewrite inject_Z_plus. change (inject_Z 1) with 1. split; lra.
  - split; lra.
  - rewrite inject_Z_plus. change (inject_Z 1) with 1. split; lra.
Qed.

Lemma round_half_even_sign (x : Q) :
  (0 <= x -> (0 <= round_half_even x)%Z)
  /\ (x <= -(1) -> (round_half_even x < 0)%Z).
Proof.
  pose proof (round_half_even_near x) as [Hlo Hhi].
  split; intros H.
  - assert (A : inject_Z (-1) < inject_Z (round_half_even x)).
    { change (inject_Z (-1)) with (-(1)). lra. }
    rewrite <- Zlt_Qlt in A. lia.
  - assert (A : inject_Z (round_half_even x) < inject_Z 0).
    { change (inject_Z 0) with 0. lra. }
    rewrite <- Zlt_Qlt in A. lia.
Qed.

(** Powers of two as rationals. *)
Lemma two_power_pos (k : Z) : 0 < 2 ^ k.
Proof. apply Qpower_0_lt. reflexivity. Qed.

Lemma two_power_Z (k : Z) : (0 <= k)%Z -> inject_Z (2 ^ k) == 2 ^ k.
Proof. intros H. now rewrite Zpower_Qpower. Qed.

Lemma two_power_succ (k : Z) : 2 ^ (k + 1) == 2 ^ k * 2.
Proof. rewrite Qpower_plus by discriminate. reflexivity. Qed.

(** A quotient of positive integers is above the quotient of the powers
    of two that bracket them. *)
Lemma quotient_above (a d : Z) :
  (0 < a)%Z -> (0 < d)%Z ->
  2 ^ (Z.log2 a - Z.log2 d - 1) <= inject_Z a / inject_Z d.
Proof.
  intros Ha Hd.
  pose proof (Z.log2_spec a Ha) as [La _].
  pose proof (Z.log2_spec d Hd) as [_ Ld].
  pose proof (Z.log2_nonneg a) as Na.
  pose proof (Z.log2_nonneg d) as Nd.
  replace (Z.log2 a - Z.log2 d - 1)%Z with (Z.log2 a - Z.succ (Z.log2 d))%Z by lia.
  rewrite Qpower_minus by discriminate.
  rewrite <- !two_power_Z by lia.
  assert (A : inject_Z (2 ^ Z.log2 a) <= inject_Z a) by now rewrite <- Zle_Qle.
  assert (D : inject_Z d <= inject_Z (2 ^ Z.succ (Z.log2 d)))
    by (rewrite <- Zle_Qle; lia).
  assert (D0 : 0 < inject_Z d) by (change 0 with (inject_Z 0); now rewrite <- Zlt_Qlt).
  assert (P0 : 0 < inject_Z (2 ^ Z.log2 a)).
  { change 0 with (inject_Z 0). rewrite <- Zlt_Qlt. now apply Z.pow_pos_nonneg. }
  revert A D D0 P0.
  generalize (inject_Z (2 ^ Z.log2 a)) (inject_Z a) (inject_Z d)
    (inject_Z (2 ^ Z.succ (Z.log2 d))).
  intros pa qa qd pd A D D0 P0.
  assert (PD0 : 0 < pd) by lra.
  apply Qle_shift_div_l; [exact D0|].
  apply Qle_trans with pa; [|exact A].
  unfold Qdiv. rewrite <- Qmult_assoc.
  rewrite <- (Qmult_1_r pa) at 2.
  apply Qmult_le_l; [exact P0|].
  rewrite Qmult_comm. apply Qle_shift_div_r; [exact PD0|]. lra.
Qed.

Lemma float_exponent_spec (x : Q) :
  ~ x == 0 -> 2 ^ (float_exponent x + 52) <= Qabs x.
Proof.
  intros Hx. unfold float_exponent.
  set (e := (Z.log2 (Z.abs (Qnum x)) - Z.log2 (Z.pos (Qden x)) - 52)%Z).
  destruct (Qcompare_spec (Qabs x) (2 ^ (e + 52))) as [E|E|E].
  - rewrite E. apply Qle_refl.
  - replace (e - 1 + 52)%Z
      with (Z.log2 (Z.abs (Qnum x)) - Z.log2 (Z.pos (Qden x)) - 1)%Z
      by (unfold e; lia).
    assert (Ha : (0 < Z.abs (Qnum x))%Z).
    { destruct x as [n d]. cbn. destruct n; [|lia|lia].
      exfalso. apply Hx. reflexivity. }
    pose proof (quotient_above (Z.abs (Qnum x)) (Z.pos (Qden x)) Ha eq_refl) as H.
    rewrite <- Qmake_Qdiv in H. destruct x as [n d]. exact H.
  - apply Qlt_le_weak. exact E.
Qed.

(** One part in 2^53: half the distance between neighbouring floats,
    relative to their size. *)
Definition ulp53 : Q := 1 # (2 ^ 53).

Lemma scaled_near (x p m : Q) :
  0 < p -> x / p - (1 # 2) <= m <= x / p + (1 # 2) ->
  - (p * (1 # 2)) <= m * p - x <= p * (1 # 2).
Proof.
  intros Hp [Hlo Hhi].
  assert (E : x == x / p * p) by (field; lra).
  revert Hlo Hhi E. generalize (x / p). intros y Hlo Hhi E.
  assert (A : (y - (1 # 2)) * p <= m * p) by (apply Qmult_le_compat_r; lra).
  assert (B : m * p <= (y + (1 # 2)) * p) by (apply Qmult_le_compat_r; lra).
  split; lra.
Qed.

(** A float operation is off by at most one part in 2^53. *)
Lemma round_to_float_near (x : Q) :
  Qabs (round_to_float x - x) <= Qabs x * ulp53.
Proof.
  assert (H : ~ x == 0 ->
              Qabs (Qred (inject_Z (round_half_even (x / 2 ^ float_exponent x))
                          * 2 ^ float_exponent x) - x)
              <= Qabs x * ulp53).
  { intros Hx. rewrite Qred_correct.
    pose proof (float_exponent_spec x Hx) as He.
    rewrite Qpower_plus in He by discriminate.
    pose proof (two_power_pos (float_exponent x)) as Hp.
    pose proof (round_half_even_near (x / 2 ^ float_exponent x)) as Hm.
    pose proof (scaled_near x _ _ Hp Hm) as Hs.
    revert He Hs. generalize (2 ^ float_exponent x).
    generalize (inject_Z (round_half_even (x / 2 ^ float_exponent x))).
    intros m p. change (2 ^ 52) with (4503599627370496 # 1).
    unfold ulp53. change (1 # 2 ^ 53) with (1 # 9007199254740992).
    generalize (Qabs x). intros a He Hs.
    apply Qabs_Qle_condition. split; lra. }
  unfold round_to_float.
  destruct (Qcompare_spec x 0) as [E|E|E].
  - rewrite E. cbn. discriminate.
  - apply H. lra.
  - apply H. lra.
Qed.

(** Its two sides, by the sign of the exact result. *)
Lemma round_to_float_pos (x : Q) :
  0 <= x -> x * (1 - ulp53) <= round_to_float x <= x * (1 + ulp53).
Proof.
  intros Hx. pose proof (round_to_float_near x) as H.
  rewrite (Qabs_pos x Hx) in H. apply Qabs_Qle_condition in H.
  split; lra.
Qed.

Lemma round_to_float_neg (x : Q) :
  x <= 0 -> x * (1 + ulp53) <= round_to_float x <= x * (1 - ulp53).
Proof.
  intros Hx. pose proof (round_to_float_near x) as H.
  rewrite (Qabs_neg x Hx) in H. apply Qabs_Qle_condition in H.
  split; lra.
Qed.

(** The hours before the decimal rounding, and the number of 1e-10 hour
    units [round] takes them to. *)
Definition float_hours (td : timedelta) : Q :=
  float_div (total_seconds td) 3600.

Definition hour_units (td : timedelta) : Z :=
  round_half_even (float_hours td * inject_Z (10 ^ 10)).

(** The distance allowed between the hours returned and the exact
    ones: half a unit of 1e-10, and four float roundings' worth of
    2^-53 of the value. *)
Definition hours_tolerance (exact : Q) : Q :=
  (1 # 20000000000) + (Qabs exact + (1 # 10000000000)) * (1 # 2 ^ 51).

Lemma hours_near (td : Z) :
  let exact := inject_Z td / inject_Z 3600000000 in
  let h := round (float_hours td) 10 in
  Qabs (h - exact) <= hours_tolerance exact
  /\ (0 <= h <-> (0 <= td)%Z).
Proof.
  intros exact h. subst h. unfold round. fold (hour_units td).
  unfold hours_tolerance.
  assert (Ex : exact * (3600000000 # 1) == inject_Z td).
  { unfold exact. change (inject_Z 3600000000) with (3600000000 # 1). field. }
  assert (Ea : (td # 1000000) * (1000000 # 1) == inject_Z td).
  { rewrite (Qmake_Qdiv td 1000000).
    change (inject_Z (Z.pos 1000000)) with (1000000 # 1). field. }
  assert (Eb : total_seconds td / 3600 * (3600 # 1) == total_seconds td) by field.
  assert (Ed : inject_Z (hour_units td) / inject_Z (10 ^ 10) * (10000000000 # 1)
               == inject_Z (hour_units td)).
  { change (inject_Z (10 ^ 10)) with (10000000000 # 1). field. }
  pose proof (round_half_even_near (float_hours td * inject_Z (10 ^ 10))) as Hu.
  fold (hour_units td) in Hu.
  pose proof (round_half_even_sign (float_hours td * inject_Z (10 ^ 10)))
    as [Upos Uneg].
  fold (hour_units td) in Upos, Uneg.
  change (inject_Z (10 ^ 10)) with (10000000000 # 1) in Ed, Hu, Upos, Uneg |- *.
  change (1 # 2 ^ 51) with (1 # 2251799813685248).
  destruct (Z_le_gt_dec 0 td) as [Htd|Htd].
  - assert (T0 : 0 <= inject_Z td)
      by (change 0 with (inject_Z 0); now rewrite <- Zle_Qle).
    assert (A0 : 0 <= td # 1000000) by lra.
    pose proof (round_to_float_pos _ A0) as Hts. fold (total_seconds td) in Hts.
    unfold ulp53 in Hts. change (1 # 2 ^ 53) with (1 # 9007199254740992) in Hts.
    assert (B0 : 0 <= total_seconds td / 3600) by lra.
    pose proof (round_to_float_pos _ B0) as Hhf.
    fold (float_div (total_seconds td) 3600) in Hhf. fold (float_hours td) in Hhf.
    unfold ulp53 in Hhf. change (1 # 2 ^ 53) with (1 # 9007199254740992) in Hhf.
    assert (U0 : 0 <= inject_Z (hour_units td)).
    { change 0 with (inject_Z 0). rewrite <- Zle_Qle. apply Upos. lra. }
    assert (D0 : 0 <= inject_Z (hour_units td) / (10000000000 # 1))
      by (apply Qle_shift_div_l; [reflexivity|lra]).
    pose proof (round_to_float_pos _ D0) as Hh.
    unfold ulp53 in Hh. change (1 # 2 ^ 53) with (1 # 9007199254740992) in Hh.
    assert (X0 : 0 <= exact) by lra.
    rewrite (Qabs_pos exact X0).
    revert Ex Ea Eb Ed Hu Hts Hhf Hh U0 D0 X0 T0 A0 B0.
    generalize (round_to_float (inject_Z (hour_units td) / (10000000000 # 1))).
    generalize (inject_Z (hour_units td) / (10000000000 # 1)).
    generalize (inject_Z (hour_units td)).
    generalize (float_hours td).
    generalize (total_seconds td / 3600).
    generalize (total_seconds td).
    generalize (td # 1000000).
    generalize (inject_Z td). generalize exact.
    intros x t a ts b hf u dec h Ex Ea Eb Ed Hu Hts Hhf Hh U0 D0 X0 T0 A0 B0.
    split.
    + apply Qabs_Qle_condition. split; lra.
    + split; [intros _; exact Htd|intros _; lra].
  - assert (T0 : inject_Z td <= -(1)).
    { change (-(1)) with (inject_Z (-1)). rewrite <- Zle_Qle. lia. }
    assert (A0 : td # 1000000 <= 0) by lra.
    pose proof (round_to_float_neg _ A0) as Hts. fold (total_seconds td) in Hts.
    unfold ulp53 in Hts. change (1 # 2 ^ 53) with (1 # 9007199254740992) in Hts.
    assert (B0 : total_seconds td / 3600 <= 0) by lra.
    pose proof (round_to_float_neg _ B0) as Hhf.
    fold (float_div (total_seconds td) 3600) in Hhf. fold (float_hours td) in Hhf.
    unfold ulp53 in Hhf. change (1 # 2 ^ 53) with (1 # 9007199254740992) in Hhf.
    assert (U0 : inject_Z (hour_units td) <= -(1)).
    { change (-(1)) with (inject_Z (-1)). rewrite <- Zle_Qle.
      assert (hour_units td < 0)%Z; [|lia]. apply Uneg. lra. }
    assert (D0 : inject_Z (hour_units td) / (10000000000 # 1) <= 0)
      by (apply Qle_shift_div_r; [reflexivity|lra]).
    pose proof (round_to_float_neg _ D0) as Hh.
    unfold ulp53 in Hh. change (1 # 2 ^ 53) with (1 # 9007199254740992) in Hh.
    assert (X0 : exact <= 0) by lra.
    rewrite (Qabs_neg exact X0).
    revert Ex Ea Eb Ed Hu Hts Hhf Hh U0 D0 X0 T0 A0 B0.
    generalize (round_to_float (inject_Z (hour_units td) / (10000000000 # 1))).
    generalize (inject_Z (hour_units td) / (10000000000 # 1)).
    generalize (inject_Z (hour_units td)).
    generalize (float_hours td).
    generalize (total_seconds td / 3600).
    generalize (total_seconds td).
    generalize (td # 1000000).
    generalize (inject_Z td). generalize exact.
    intros x t a ts b hf u dec h Ex Ea Eb Ed Hu Hts Hhf Hh U0 D0 X0 T0 A0 B0.
    split.
    + apply Qabs_Qle_condition. split; lra.
    + split; [intros H; exfalso; lra|intros H; lia].
Qed.

(** [timedelta.min] and [timedelta.max], in microseconds. *)
Definition timedelta_min : Z := -86399999913600000000.
Definition timedelta_max : Z := 86399999999999999999.

(** C9 (amended). [calcular_horas_trabalhadas] returns [None] exactly
    when the end time is absent; otherwise it returns the float nearest
    to a whole number of 1e-10 hour units, which lies within half a unit
    and the float roundings ([hours_tolerance]) of the wall-clock
    difference [fim - inicio] expressed in hours. The result is
    non-negative exactly when the end time is not before the start time:
    it is the signed difference, and is negative when the end precedes
    the start. *)
Theorem calcular_horas_trabalhadas_spec (inicio : datetime)
    (fim : option datetime) :
  (calcular_horas_trabalhadas inicio fim = None <-> fim = None)
  /\ forall f, fim = Some f ->
       (timedelta_min <= datetime_sub f inicio <= timedelta_max)%Z ->
       exists units : Z,
         let h := round_to_float (inject_Z units / inject_Z (10 ^ 10)) in
         let exact := inject_Z (timestamp f - timestamp inicio)
                      / inject_Z 3600000000 in
         calcular_horas_trabalhadas inicio fim = Some h
         /\ Qabs (h - exact) <= hours_tolerance exact
         /\ (0 <= h <-> (timestamp inicio <= timestamp f)%Z).
Proof.
  split.
  - destruct fim; cbn; split; congruence.
  - intros f -> _. exists (hour_units (datetime_sub f inicio)).
    cbv zeta. split; [reflexivity|].
    destruct (hours_near (datetime_sub f inicio)) as [Hnear Hsign].
    split; [exact Hnear|].
    rewrite Hsign. unfold datetime_sub. split; lia.
Qed.

Definition at_instant (t : Z) : datetime := mk_datetime t 2024 1 15 9 0.

(** Two and a half hours of work are recorded as 2.5. *)
Example calcular_horas_two_and_a_half :
  calcular_horas_trabalhadas (at_instant 0) (Some (at_instant 9000000000))
  = Some (5 # 2).
Proof. vm_compute. reflexivity. Qed.

(** Float rounding shows after some four years: the hours are rounded
    to 364510680761380 units, where the exact quotient would round to
    the next one. *)
Example calcular_horas_float_rounding :
  calcular_horas_trabalhadas (at_instant 0) (Some (at_instant 131223845074097))
  = Some (round_to_float (inject_Z 364510680761380 / inject_Z (10 ^ 10)))
  /\ round_half_even (inject_Z 131223845074097 / inject_Z 3600000000
                      * inject_Z (10 ^ 10))
     = 364510680761381%Z.
Proof. split; vm_compute; reflexivity. Qed.

(** C9, counterexample to "non-negative for every start and end time":
    an end time one hour before the start time gives minus one hour. *)
Lemma calcular_horas_trabalhadas_negative :
  exists h,
    calcular_horas_trabalhadas (at_instant 3600000000) (Some (at_instant 0))
    = Some h /\ h == -(1) /\ h < 0.
Proof. eexists. split; [vm_compute; reflexivity|]. split; reflexivity. Qed.

End hours_facts.

Section store_facts.
Import handle_db.

Variable env : Env.

(** What the update of [finalizar_atividade] does to a record. *)
Definition closed_by (v : Z) (f : datetime) (h : option Q) (r : Row) : Row :=
  if id r =? v then set_fim f h r else r.

Lemma run_query_eq_id (v : Z) (tbl : list Row) :
  run_query (eq_ (eq_id v) select) tbl = List.filter (fun r => id r =? v) tbl.
Proof.
  unfold run_query. cbn. apply filter_ext. intros r. apply andb_true_r.
Qed.

(** [finalizar_atividade], step by step. *)
Lemma finalizar_atividade_run (v : Z) (c : Client) (w : World) :
  finalizar_atividade env v (Some c) w =
  match fault env (requests w) with
  | Some e =>
      (Raise (RuntimeError ("Supabase select error: " +:+ e)),
       mk_World (table w) (serial w) (S (requests w)) (clock_reads w)
         (log w ++ [ErroBuscarAtividade v e]))
  | None =>
      match List.filter (fun r => id r =? v) (table w) with
      | [] =>
          (Raise (RuntimeError "Atividade não encontrada."),
           mk_World (table w) (serial w) (S (requests w)) (clock_reads w)
             (log w ++ [AtividadeNaoEncontrada v]))
      | first :: _ =>
          let fim_ := wall_clock env (clock_reads w) in
          let horas := calcular_horas_trabalhadas (inicio first) (Some fim_) in
          match fault env (S (requests w)) with
          | Some e =>
              (Raise (RuntimeError ("Supabase update error: " +:+ e)),
               mk_World (table w) (serial w) (S (S (requests w)))
                 (S (clock_reads w)) (log w ++ [ErroFinalizar v e]))
          | None =>
              (Ok true,
               mk_World (map (closed_by v fim_ horas) (table w)) (serial w)
                 (S (S (requests w))) (S (clock_reads w))
                 (log w ++ [AtividadeFinalizada v horas]))
          end
      end
  end.
Proof.
  unfold finalizar_atividade, client_or_default, execute_select.
  unfold mbind, M_bind, mret, M_ret. cbn.
  destruct (fault env (requests w)) as [e|] eqn:F1; cbn; [reflexivity|].
  rewrite (filter_ext _ (fun r => id r =? v)) by (intros; apply andb_true_r).
  destruct (List.filter _ (table w)) as [|first rest]; cbn; [reflexivity|].
  unfold execute_update. cbn.
  destruct (fault env (S (requests w))) as [e|] eqn:F2; cbn; reflexivity.
Qed.

Lemma finalizar_atividade_no_client (v : Z) (w : World) :
  finalizar_atividade env v None w =
  if has_credentials env then finalizar_atividade env v (Some tt) w
  else (Raise (RuntimeError
          "SUPABASE_URL e SUPABASE_KEY devem estar definidas como variáveis de ambiente."),
        w).
Proof.
  unfold finalizar_atividade, client_or_default, get_supabase_client.
  destruct (has_credentials env); reflexivity.
Qed.

Lemma finalizar_atividade_client (v : Z) (client : option Client) (w : World) :
  (client = None -> has_credentials env = true) ->
  finalizar_atividade env v client w = finalizar_atividade env v (Some tt) w.
Proof.
  intros H. destruct client as [[]|]; [reflexivity|].
  rewrite finalizar_atividade_no_client, H; reflexivity.
Qed.

Lemma filter_find {A} (f : A -> bool) (l : list A) :
  hd_error (List.filter f l) = find f l.
Proof.
  induction l as [|x l IH]; cbn; [reflexivity|].
  destruct (f x); cbn; auto.
Qed.

Lemma closed_by_hit (v : Z) (f : datetime) (h : option Q) (r : Row) :
  id (closed_by v f h r) = id r
  /\ inicio (closed_by v f h r) = inicio r
  /\ (id r = v -> fim (closed_by v f h r) = Some f
                  /\ horas_trabalhadas (closed_by v f h r) = h)
  /\ (id r <> v -> closed_by v f h r = r).
Proof.
  unfold closed_by. destruct (Z.eqb_spec (id r) v); cbn; intuition.
Qed.

(** C4 (amended). [finalizar_atividade] does not look at the stored end
    time: whenever the record exists and the two store requests succeed,
    it returns [True] and overwrites [fim] with the current time and
    [horas_trabalhadas] with the hours since [inicio], whether or not the
    session was closed before. Records with another id are unchanged. *)
Theorem finalizar_atividade_overwrites (v : Z) (client : option Client)
    (w : World) (first : Row) :
  (client = None -> has_credentials env = true) ->
  fault env (requests w) = None ->
  fault env (S (requests w)) = None ->
  find (fun r => id r =? v) (table w) = Some first ->
  let fim_ := wall_clock env (clock_reads w) in
  let horas := calcular_horas_trabalhadas (inicio first) (Some fim_) in
  exists w',
    finalizar_atividade env v client w = (Ok true, w')
    /\ table w' = map (closed_by v fim_ horas) (table w)
    /\ (forall r, In r (table w') -> id r = v ->
          fim r = Some fim_ /\ horas_trabalhadas r = horas)
    /\ (forall r, In r (table w) -> id r <> v -> In r (table w')).
Proof.
  intros Hc F1 F2 Hfind fim_ horas.
  rewrite (finalizar_atividade_client v client w Hc), finalizar_atividade_run.
  rewrite F1. rewrite <- filter_find in Hfind.
  destruct (List.filter _ (table w)) as [|x rest]; [discriminate|].
  injection Hfind as ->. cbn zeta. rewrite F2.
  eexists. split; [reflexivity|]. cbn [table].
  split; [reflexivity|]. split.
  - intros r Hr Hid. apply in_map_iff in Hr as (r0 & <- & _).
    destruct (closed_by_hit v fim_ horas r0) as (Hi & _ & Hhit & _).
    apply Hhit. now rewrite <- Hi.
  - intros r Hr Hid. apply in_map_iff. exists r. split; [|exact Hr].
    now apply closed_by_hit.
Qed.

End store_facts.

(** Closing a session twice. *)
Section close_twice.
Import handle_db.

Definition hourly_clock : Env :=
  mk_Env true (fun _ => None)
    (fun n => at_instant (3600000000 * (1 + Z.of_nat n))).

Definition one_open_session : World :=
  mk_World
    [mk_Row 1 "Cadastro" (Some "") (at_instant 0) None (Some "ana")
       2024 1 15 None]
    2 0 0 [].

(** C4, counterexample to "the second close never changes the stored end
    time and hours": closing session 1 at 01:00 and again at 02:00, both
    calls return [True] and the second replaces what the first stored. *)
Lemma finalizar_atividade_twice :
  exists w1 w2 r1 r2,
    finalizar_atividade hourly_clock 1 None one_open_session = (Ok true, w1)
    /\ finalizar_atividade hourly_clock 1 None w1 = (Ok true, w2)
    /\ table w1 = [r1] /\ table w2 = [r2]
    /\ fim r1 = Some (at_instant 3600000000)
    /\ fim r2 = Some (at_instant 7200000000)
    /\ fim r2 <> fim r1
    /\ horas_trabalhadas r2 <> horas_trabalhadas r1.
Proof.
  eexists _, _, _, _.
  split; [vm_compute; reflexivity|].
  split; [vm_compute; reflexivity|].
  split; [reflexivity|]. split; [reflexivity|].
  split; [reflexivity|]. split; [reflexivity|].
  split; cbn; discriminate.
Qed.

End close_twice.

(* ===================================================================== *)
(** * The shutdown sweep                                                  *)
(* ===================================================================== *)

Section sweep_facts.
Import handle_db.

Variable env : Env.

Definition is_open (r : Row) : bool :=
  match fim r with None => true | Some _ => false end.

(** The attempts to close a session that a log reports: the id, and
    whether the close succeeded. *)
Definition attempt_of (rec : LogRecord) : list (Z * bool) :=
  match rec with
  | AtividadeFinalizada v _ => [(v, true)]
  | FalhaFinalizar v _ => [(v, false)]
  | _ => []
  end.

Definition attempts (l : list LogRecord) : list (Z * bool) :=
  flat_map attempt_of l.

(** Every record with id [v] has an end time. *)
Definition closed (v : Z) (tbl : list Row) : Prop :=
  forall r, In r tbl -> id r = v -> is_open r = false.

Lemma attempts_app (l1 l2 : list LogRecord) :
  attempts (l1 ++ l2) = attempts l1 ++ attempts l2.
Proof. apply flat_map_app. Qed.

Lemma closed_by_closed (v v' : Z) (f : datetime) (h : option Q)
    (tbl : list Row) :
  closed v' tbl -> closed v' (map (closed_by v f h) tbl).
Proof.
  intros H r Hr Hid. apply in_map_iff in Hr as (r0 & <- & Hr0).
  unfold closed_by in *. destruct (id r0 =? v); [reflexivity|]. now apply H.
Qed.

Lemma closed_by_closes (v : Z) (f : datetime) (h : option Q) (tbl : list Row) :
  closed v (map (closed_by v f h) tbl).
Proof.
  intros r Hr Hid. apply in_map_iff in Hr as (r0 & <- & Hr0).
  unfold closed_by in *. destruct (Z.eqb_spec (id r0) v); [reflexivity|].
  contradiction.
Qed.

(** What the store's answers make of the closes of [ids], the first of
    them starting at request [n]: a close sends the select and then the
    update, and fails at the first of the two that ends in an error. *)
Fixpoint outcomes (n : nat) (ids : list Z) : list (Z * bool) :=
  match ids with
  | [] => []
  | v :: ids' =>
      match fault env n with
      | Some _ => (v, false) :: outcomes (S n) ids'
      | None =>
          match fault env (S n) with
          | Some _ => (v, false) :: outcomes (S (S n)) ids'
          | None => (v, true) :: outcomes (S (S n)) ids'
          end
      end
  end.

(** The number of closes the store accepted. *)
Definition accepted (results : list (Z * bool)) : Z :=
  Z.of_nat (length (List.filter snd results)).

(** A record before and after a sweep with these results: it keeps its
    id; it has an end time if a close of its id was accepted, and is
    as it was otherwise. *)
Definition swept (results : list (Z * bool)) (r r' : Row) : Prop :=
  id r' = id r
  /\ (In (id r, true) results -> is_open r' = false)
  /\ (~ In (id r, true) results -> r' = r).

Lemma in_results_dec (x : Z * bool) (l : list (Z * bool)) : In x l \/ ~ In x l.
Proof.
  destruct (in_dec (fun a b : Z * bool => decide (a = b)) x l); auto.
Qed.

Lemma swept_nil (tbl : list Row) : Forall2 (swept []) tbl tbl.
Proof.
  induction tbl; constructor; [|assumption].
  split; [reflexivity|]. split; [intros []|reflexivity].
Qed.

(** The table after one more attempt at the front. *)
Lemma swept_cons (v : Z) (b : bool) (f : datetime) (h : option Q)
    (results : list (Z * bool)) (tbl tbl1 tbl2 : list Row) :
  tbl1 = (if b then map (closed_by v f h) tbl else tbl) ->
  Forall2 (swept results) tbl1 tbl2 ->
  Forall2 (swept ((v, b) :: results)) tbl tbl2.
Proof.
  intros -> H.
  assert (G : forall l l2,
            Forall2 (swept results)
              (map (fun r => if b then closed_by v f h r else r) l) l2 ->
            Forall2 (swept ((v, b) :: results)) l l2).
  { induction l as [|r l IH]; intros l2 F; inversion F; subst;
      constructor; [|now apply IH].
    match goal with
    | S : swept results _ ?r2 |- _ => destruct S as (Hid & Hc & Hu)
    end.
    assert (Hid1 : id (if b then closed_by v f h r else r) = id r)
      by (destruct b; [apply closed_by_hit|reflexivity]).
    rewrite Hid1 in Hid, Hc, Hu.
    split; [exact Hid|]. split.
    - intros [E|Hin]; [|now apply Hc].
      destruct (in_results_dec (id r, true) results) as [Hin|Hno];
        [now apply Hc|].
      rewrite (Hu Hno). injection E as Ev Eb. subst b.
      unfold closed_by. rewrite Ev, Z.eqb_refl. reflexivity.
    - intros Hno.
      assert (Hno' : ~ In (id r, true) results)
        by (intros Hin; apply Hno; now right).
      rewrite (Hu Hno'). destruct b; [|reflexivity].
      apply closed_by_hit. intros E. apply Hno. left. now rewrite E. }
  apply G. destruct b; [|now rewrite map_id].
  exact H.
Qed.

(** One attempt of the sweep on an id the table holds: the store's
    answers to the select and to the update decide whether the close is
    accepted; a failure is caught and logged, and leaves the table as it
    was. *)
Lemma sweep_attempt (v : Z) (c : Client) (sucesso : Z) (w : World) :
  (exists r, In r (table w) /\ id r = v) ->
  exists (b : bool) new_log w',
    try_except
      (_ ← finalizar_atividade env v (Some c); mret (sucesso + 1))
      (fun e => _ ← logger (FalhaFinalizar v e); mret sucesso) w
    = (Ok (sucesso + accepted [(v, b)]), w')
    /\ log w' = log w ++ new_log
    /\ attempts new_log = [(v, b)]
    /\ (forall ids, outcomes (requests w) (v :: ids)
                    = (v, b) :: outcomes (requests w') ids)
    /\ exists f h, table w' = if b then map (closed_by v f h) (table w)
                              else table w.
Proof.
  intros (r0 & Hin & Hid).
  unfold try_except, mbind, M_bind, mret, M_ret.
  rewrite finalizar_atividade_run.
  destruct (fault env (requests w)) as [e|] eqn:F1.
  { exists false. eexists [ErroBuscarAtividade v e; FalhaFinalizar v _], _.
    cbn. rewrite Z.add_0_r. split; [reflexivity|].
    split; [now rewrite <- app_assoc|]. split; [reflexivity|].
    split; [intros ids; now rewrite F1|]. eexists (inicio r0), None. reflexivity. }
  destruct (List.filter (fun r => id r =? v) (table w)) as [|first rest] eqn:Fl.
  { exfalso. assert (H : In r0 (List.filter (fun r => id r =? v) (table w))).
    { apply filter_In. split; [exact Hin|]. now apply Z.eqb_eq. }
    rewrite Fl in H. destruct H. }
  cbn zeta. destruct (fault env (S (requests w))) as [e|] eqn:F2.
  { exists false. eexists [ErroFinalizar v e; FalhaFinalizar v _], _.
    cbn. rewrite Z.add_0_r. split; [reflexivity|].
    split; [now rewrite <- app_assoc|]. split; [reflexivity|].
    split; [intros ids; now rewrite F1, F2|].
    eexists (inicio r0), None. reflexivity. }
  exists true. eexists [AtividadeFinalizada v _], _.
  cbn. split; [reflexivity|]. split; [reflexivity|]. split; [reflexivity|].
  split; [intros ids; now rewrite F1, F2|]. eexists _, _. reflexivity.
Qed.

Lemma accepted_cons (x : Z * bool) (l : list (Z * bool)) :
  accepted (x :: l) = accepted [x] + accepted l.
Proof. unfold accepted. cbn. destruct (snd x); cbn; lia. Qed.

(** The loop attempts every id of its list, in order, whatever the
    earlier attempts did: the attempts and their results are those the
    store's answers give, the count grows by the closes accepted, and
    the table shows exactly those. *)
Lemma finalizar_cada_outcomes (ids : list Z) (c : Client) :
  forall (sucesso : Z) (w : World),
  (forall v, In v ids -> exists r, In r (table w) /\ id r = v) ->
  exists new_log w',
    finalizar_cada env ids c sucesso w
    = (Ok (sucesso + accepted (outcomes (requests w) ids)), w')
    /\ log w' = log w ++ new_log
    /\ attempts new_log = outcomes (requests w) ids
    /\ Forall2 (swept (outcomes (requests w) ids)) (table w) (table w').
Proof.
  induction ids as [|v ids IH]; intros sucesso w Hids.
  - exists [], w. cbn. unfold accepted. cbn. rewrite Z.add_0_r.
    split; [reflexivity|]. split; [now rewrite app_nil_r|].
    split; [reflexivity|apply swept_nil].
  - destruct (sweep_attempt v c sucesso w (Hids v (or_introl eq_refl)))
      as (b & l1 & w1 & E1 & L1 & A1 & O1 & f & h & T1).
    assert (Hids1 : forall v', In v' ids ->
                      exists r, In r (table w1) /\ id r = v').
    { intros v' Hv'. destruct (Hids v' (or_intror Hv')) as (r & Hr & Hid).
      rewrite T1. destruct b; [|eauto].
      exists (closed_by v f h r). split; [now apply in_map|].
      rewrite <- Hid. apply closed_by_hit. }
    destruct (IH (sucesso + accepted [(v, b)]) w1 Hids1)
      as (l2 & w2 & E2 & L2 & A2 & S2).
    exists (l1 ++ l2), w2. rewrite (O1 ids).
    cbn [finalizar_cada]. unfold mbind at 1. unfold M_bind at 1.
    rewrite E1, E2.
    rewrite (accepted_cons (v, b) (outcomes (requests w1) ids)), Z.add_assoc.
    split; [reflexivity|].
    split; [now rewrite L2, L1, app_assoc|].
    split; [now rewrite attempts_app, A1, A2|].
    now apply (swept_cons v b f h _ (table w) (table w1)).
Qed.

Lemma run_query_open (tbl : list Row) :
  run_query (is_ is_fim_None select) tbl = List.filter is_open tbl.
Proof.
  unfold run_query. cbn. apply filter_ext. intros r. apply andb_true_r.
Qed.

(** C5. [finalizar_atividades_em_andamento] never raises. When the
    client is available and the listing succeeds, it attempts to close
    every session without end time, each once and in the order listed,
    whatever the earlier attempts did; each attempt is accepted or not
    as the store answers its two requests ([outcomes]), a refused one is
    logged and the sweep goes on. The number returned is the number of
    closes accepted; a record has its end time set if a close of its id
    was accepted and is as it was otherwise. *)
Theorem finalizar_atividades_em_andamento_counts (client : option Client)
    (w : World) :
  exists n new_log w',
    finalizar_atividades_em_andamento env client w = (Ok n, w')
    /\ log w' = log w ++ new_log
    /\ ((client = None -> has_credentials env = true) ->
        fault env (requests w) = None ->
        let results := outcomes (S (requests w))
                         (map id (List.filter is_open (table w))) in
        attempts new_log = results
        /\ n = accepted results
        /\ Forall2 (swept results) (table w) (table w')).
Proof.
  unfold finalizar_atividades_em_andamento.
  unfold mbind at 1. unfold M_bind at 1.
  set (body := fun client0 : Client =>
    try_except
      (resp ← execute_select env (is_ is_fim_None select);
       match error resp with
       | Some e => _ ← logger (ErroBuscarEmAndamento e); mret 0
       | None =>
           let ids := map id (data resp) in
           sucesso ← finalizar_cada env ids client0 0;
           _ ← logger (LoteConcluido sucesso
                         (Z.of_nat (length ids) - sucesso)
                         (Z.of_nat (length ids)));
           mret sucesso
       end)
      (fun e => _ ← logger (ErroInesperado e); mret 0)).
  assert (Hbody : forall c0 w0, exists n new_log w',
            body c0 w0 = (Ok n, w')
            /\ log w' = log w0 ++ new_log
            /\ (fault env (requests w0) = None ->
                let results := outcomes (S (requests w0))
                                 (map id (List.filter is_open (table w0))) in
                attempts new_log = results
                /\ n = accepted results
                /\ Forall2 (swept results) (table w0) (table w'))).
  { intros c0 w0. unfold body, try_except, execute_select.
    unfold mbind at 1. unfold M_bind at 1.
    destruct (fault env (requests w0)) as [e|] eqn:F.
    - exists 0, [ErroBuscarEmAndamento e]. eexists.
      split; [reflexivity|]. split; [reflexivity|discriminate].
    - cbn [error data]. rewrite run_query_open.
      destruct (finalizar_cada_outcomes
                  (map id (List.filter is_open (table w0))) c0 0
                  (next_request w0)) as (l & w1 & E & L & A & S).
      { intros v Hv. apply in_map_iff in Hv as (r & Hid & Hr).
        apply filter_In in Hr as [Hr _]. now exists r. }
      cbn [requests table next_request] in E, A, S.
      unfold mbind at 1. unfold M_bind at 1. rewrite E. cbn.
      eexists _, (l ++ [LoteConcluido _ _ _]), _.
      split; [reflexivity|].
      cbn [log table]. split; [now rewrite L, <- app_assoc|].
      intros _. rewrite attempts_app. cbn. rewrite app_nil_r.
      split; [exact A|]. split; [reflexivity|exact S]. }
  unfold try_except at 1. unfold client_or_default.
  destruct client as [c|].
  - unfold mbind at 1. unfold M_bind at 1. unfold mret at 1 2. unfold M_ret.
    cbv beta iota.
    destruct (Hbody c w) as (n & l & w' & E & L & H).
    exists n, l, w'. split; [exact E|]. split; [exact L|]. intros _. exact H.
  - unfold get_supabase_client. destruct (has_credentials env) eqn:Hcred.
    + unfold mbind at 1. unfold M_bind at 1. unfold mret at 1 2. unfold M_ret.
      cbv beta iota.
      destruct (Hbody tt w) as (n & l & w' & E & L & H).
      exists n, l, w'. split; [exact E|]. split; [exact L|]. intros _. exact H.
    + exists 0, [ClienteIndisponivel (RuntimeError
        "SUPABASE_URL e SUPABASE_KEY devem estar definidas como variáveis de ambiente.")].
      eexists. split; [reflexivity|]. split; [reflexivity|].
      intros H. specialize (H eq_refl). discriminate.
Qed.

End sweep_facts.

(** Two sessions, 10 and 11, were left open. *)
Section sweep_scenario.
Import handle_db.

Definition two_orphans : World :=
  mk_World
    [mk_Row 10 "Cadastro" (Some "") (at_instant 0) None (Some "ana")
       2024 1 15 None;
     mk_Row 11 "Custos" (Some "") (at_instant 0) None (Some "ana")
       2024 1 15 None]
    12 0 0 [].

(** The store answers every request. *)
Definition store_up : Env := hourly_clock.

(** The store fails the [k]-th request. *)
Definition store_fails_at (k : nat) : Env :=
  mk_Env true (fun n => if Nat.eqb n k then Some "timeout" else None)
    (wall_clock hourly_clock).

Example sweep_both_close :
  fst (finalizar_atividades_em_andamento store_up None two_orphans) = Ok 2.
Proof. vm_compute. reflexivity. Qed.

(** Request 0 lists, 1 and 2 close session 10, 3 and 4 close session 11. *)
Example sweep_second_fails :
  let '(r, w) := finalizar_atividades_em_andamento (store_fails_at 3) None
                   two_orphans in
  r = Ok 1 /\ map is_open (table w) = [false; true].
Proof. vm_compute. split; reflexivity. Qed.

Example sweep_first_fails :
  let '(r, w) := finalizar_atividades_em_andamento (store_fails_at 1) None
                   two_orphans in
  r = Ok 1 /\ map is_open (table w) = [true; false].
Proof. vm_compute. split; reflexivity. Qed.

End sweep_scenario.

(* ===================================================================== *)
(** * The open-session lookup                                             *)
(* ===================================================================== *)

Section lookup_facts.
Import handle_db.

Variable env : Env.

Lemma insert_desc_In (r x : Row) (l : list Row) :
  In x (insert_desc r l) <-> x = r \/ In x l.
Proof.
  induction l as [|y l IH]; cbn; [intuition|].
  destruct (id y <? id r); cbn; [intuition|].
  rewrite IH. intuition.
Qed.

Lemma sort_desc_In (x : Row) (l : list Row) : In x (sort_desc l) <-> In x l.
Proof.
  unfold sort_desc. induction l as [|y l IH]; cbn; [reflexivity|].
  rewrite insert_desc_In, IH. intuition.
Qed.

(** The first record of a list has the greatest id. *)
Definition head_greatest (l : list Row) : Prop :=
  match l with
  | [] => True
  | x :: _ => forall y, In y l -> id y <= id x
  end.

Lemma insert_desc_head (r : Row) (l : list Row) :
  head_greatest l -> head_greatest (insert_desc r l).
Proof.
  destruct l as [|x l]; cbn.
  - intros _ y [<-|[]]. lia.
  - intros H. destruct (Z.ltb_spec (id x) (id r)); cbn.
    + intros y [<-|Hy]; [lia|]. specialize (H y Hy). lia.
    + intros y [<-|Hy]; [lia|]. apply insert_desc_In in Hy as [->|Hy]; [lia|].
      apply H. now right.
Qed.

Lemma sort_desc_head (l : list Row) : head_greatest (sort_desc l).
Proof.
  unfold sort_desc. induction l as [|x l IH]; cbn; [exact I|].
  now apply insert_desc_head.
Qed.

(** The open sessions of a user. *)
Definition open_for (u : string) (r : Row) : bool :=
  is_open r && match user_id r with
               | Some x => String.eqb x u
               | None => false
               end.

Lemma open_for_spec (u : string) (r : Row) :
  open_for u r = true <-> fim r = None /\ user_id r = Some u.
Proof.
  unfold open_for, is_open.
  destruct (fim r); cbn; [split; [discriminate|intros [? _]; discriminate]|].
  destruct (user_id r) as [x|]; [|split; [discriminate|intros [_ ?]; discriminate]].
  destruct (String.eqb_spec x u); split; try discriminate; intuition congruence.
Qed.

(** The query [buscar_atividade_em_andamento] sends for a user: the
    filter on the user is part of the query although the source adds it
    after the limit. *)
Lemma run_query_newest (u : string) (tbl : list Row) :
  run_query (eq_ (eq_user_id u) (limit 1 (order_desc (is_ is_fim_None select))))
    tbl
  = take 1 (sort_desc (List.filter (open_for u) tbl)).
Proof.
  unfold run_query. cbn. f_equal. f_equal. apply filter_ext. intros r.
  unfold open_for, is_open. now rewrite andb_true_r.
Qed.

Lemma buscar_atividade_em_andamento_run (u : string) (client : option Client)
    (w : World) :
  (client = None -> has_credentials env = true) ->
  fault env (requests w) = None ->
  buscar_atividade_em_andamento env (Some u) client w
  = (Ok (hd_error (sort_desc (List.filter (open_for u) (table w)))),
     next_request w).
Proof.
  intros Hc F. unfold buscar_atividade_em_andamento.
  assert (Hcl : client_or_default env client w = (Ok tt, w)).
  { destruct client as [[]|]; [reflexivity|].
    unfold client_or_default, get_supabase_client. now rewrite Hc. }
  unfold mbind at 1. unfold M_bind at 1. rewrite Hcl.
  unfold mbind at 1. unfold M_bind at 1. unfold execute_select. rewrite F.
  cbn [error data]. rewrite run_query_newest.
  destruct (sort_desc _) as [|x l]; reflexivity.
Qed.

(** The lookup on login returns the open session of the user with the
    greatest id, and nothing when the user has none. *)
Lemma buscar_atividade_em_andamento_newest (u : string)
    (client : option Client) (w : World) :
  (client = None -> has_credentials env = true) ->
  fault env (requests w) = None ->
  exists found w',
    buscar_atividade_em_andamento env (Some u) client w = (Ok found, w')
    /\ table w' = table w
    /\ match found with
       | Some row =>
           In row (table w) /\ fim row = None /\ user_id row = Some u
           /\ forall r, In r (table w) -> fim r = None -> user_id r = Some u ->
                        id r <= id row
       | None =>
           forall r, In r (table w) -> fim r = None -> user_id r <> Some u
       end.
Proof.
  intros Hc F. eexists _, _.
  split; [apply buscar_atividade_em_andamento_run; assumption|].
  split; [reflexivity|].
  pose proof (sort_desc_head (List.filter (open_for u) (table w))) as Hh.
  pose proof (fun x => sort_desc_In x (List.filter (open_for u) (table w))) as Hin.
  destruct (sort_desc _) as [|row l]; cbn.
  - intros r Hr Hf Hu. apply (Hin r). apply filter_In. split; [exact Hr|].
    now apply open_for_spec.
  - assert (Hrow : In row (List.filter (open_for u) (table w)))
      by (apply Hin; now left).
    apply filter_In in Hrow as [Hrow Ho]. apply open_for_spec in Ho as [? ?].
    repeat split; try assumption.
    intros r Hr Hf Hu. apply Hh. apply Hin. apply filter_In.
    split; [exact Hr|]. now apply open_for_spec.
Qed.

End lookup_facts.

(* ===================================================================== *)
(** * Properties of the main screen                                       *)
(* ===================================================================== *)

Section screen_facts.
Import handle_db GUI_principal.

Variable env : Env.
Variable app_user_id : string.

(** ** What the store calls leave unchanged *)

Lemma iniciar_nova_atividade_run (tipo descricao_ u : string) (w : World) :
  iniciar_nova_atividade env tipo descricao_ u None w =
  if has_credentials env then
    match fault env (requests w) with
    | Some e =>
        (Raise (RuntimeError ("Supabase insert error: " +:+ e)),
         mk_World (table w) (serial w) (S (requests w)) (S (clock_reads w))
           (log w ++ [ErroInserir e]))
    | None =>
        let hora_inicio := wall_clock env (clock_reads w) in
        (Ok (Some (serial w)),
         mk_World
           (table w ++
            [mk_Row (serial w) tipo (Some descricao_) hora_inicio None (Some u)
               (year hora_inicio) (month hora_inicio) (day hora_inicio) None])
           (serial w + 1) (S (requests w)) (S (clock_reads w)) (log w))
    end
  else
    (Raise (RuntimeError
       "SUPABASE_URL e SUPABASE_KEY devem estar definidas como variáveis de ambiente."),
     w).
Proof.
  unfold iniciar_nova_atividade, client_or_default, get_supabase_client.
  destruct (has_credentials env); [|reflexivity].
  unfold mbind, M_bind, mret, M_ret, now, execute_insert. cbn.
  destruct (fault env (requests w)); reflexivity.
Qed.

(** C6. When the store's create call errors during a start (or no client
    can be made), [acao_iniciar] only opens an error popup, which reports
    the store's error: the screen is otherwise the one before the call,
    so [current_activity_id] keeps its value ([None] when idle), and the
    status label, the active box and the buttons are not switched to
    "in progress"; no record is added to the table. *)
Theorem acao_iniciar_store_error (s : MainScreen) (w : World) :
  has_credentials env = false \/ fault env (requests w) <> None ->
  exists message w',
    acao_iniciar env app_user_id s w = (show_error message s, w')
    /\ table w' = table w
    /\ current_activity_id (show_error message s) = current_activity_id s
    /\ status_label (show_error message s) = status_label s
    /\ active_box_shown (show_error message s) = active_box_shown s
    /\ start_button_disabled (show_error message s) = start_button_disabled s
    /\ end_button_disabled (show_error message s) = end_button_disabled s
    /\ (truthy_str (selected_activity_type s) = true ->
        has_credentials env = true ->
        forall e, fault env (requests w) = Some e ->
          message = "Falha ao iniciar atividade:" +:+ nl
                    +:+ "Supabase insert error: " +:+ e).
Proof.
  intros H. unfold acao_iniciar.
  destruct (truthy_str (selected_activity_type s)); cbn [negb].
  - rewrite iniciar_nova_atividade_run.
    destruct (has_credentials env).
    + destruct (fault env (requests w)) as [e|].
      * eexists _, _. split; [reflexivity|]. repeat split.
        intros _ _ e' [= <-]. reflexivity.
      * destruct H as [H|H]; [discriminate|contradiction].
    + eexists _, _. split; [reflexivity|]. repeat split. discriminate.
  - eexists _, _. split; [reflexivity|]. repeat split. discriminate.
Qed.

(** C2 (amended). [acao_finalizar] with no session open is rejected with
    an error popup and changes nothing else, in the screen or in the
    store; so is [acao_iniciar] with no activity type selected.
    [acao_iniciar] does not look at [current_activity_id]: a start that
    goes through disables the Iniciar button and enables Finalizar. *)
Theorem rejected_actions_change_nothing (s : MainScreen) (w : World) :
  (truthy_int (current_activity_id s) = false ->
   acao_finalizar env s w
   = (show_error "Não há atividade em andamento para finalizar." s, w))
  /\ (truthy_str (selected_activity_type s) = false ->
      acao_iniciar env app_user_id s w
      = (show_error "Por favor, selecione um tipo de atividade." s, w))
  /\ (popups (fst (acao_iniciar env app_user_id s w)) = popups s ->
      start_button_disabled (fst (acao_iniciar env app_user_id s w)) = true
      /\ end_button_disabled (fst (acao_iniciar env app_user_id s w)) = false).
Proof.
  split; [|split].
  - intros H. unfold acao_finalizar. now rewrite H.
  - intros H. unfold acao_iniciar. now rewrite H.
  - unfold acao_iniciar.
    assert (Hne : forall p, popups s ++ [p] <> popups s).
    { intros p E. apply (f_equal (@length _)) in E.
      rewrite length_app in E. cbn in E. lia. }
    destruct (truthy_str (selected_activity_type s)); cbn [negb fst].
    + rewrite iniciar_nova_atividade_run.
      destruct (has_credentials env).
      * destruct (fault env (requests w)); cbn.
        -- intros E. now apply Hne in E.
        -- intros _. split; reflexivity.
      * cbn. intros E. now apply Hne in E.
    + cbn. intros E. now apply Hne in E.
Qed.

(** ** The fields the toggle buttons leave alone *)

(** The session state of a screen: the open session it holds, the
    scheduler's memory and the Iniciar button. *)
Definition session_state (s : MainScreen)
    : option Z * gmap string (option date) * bool :=
  (current_activity_id s, _auto_finalize_last_date s, start_button_disabled s).

Lemma on_activity_toggled_session (inst : string) (d : bool) (t : string)
    (s : MainScreen) :
  session_state (on_activity_toggled inst d t s) = session_state s.
Proof.
  unfold on_activity_toggled. destruct d; [reflexivity|].
  destruct (is_button _ _); reflexivity.
Qed.

Lemma set_state_session (inst : string) (d : bool) (s : MainScreen) :
  session_state (set_state inst d s) = session_state s.
Proof.
  unfold set_state. destruct (existsb _ _); [|reflexivity].
  now rewrite on_activity_toggled_session.
Qed.

Lemma fold_left_session {A} (f : MainScreen -> A -> MainScreen) (l : list A) :
  (forall s a, session_state (f s a) = session_state s) ->
  forall s, session_state (fold_left f l s) = session_state s.
Proof.
  intros Hf. induction l as [|a l IH]; intros s; cbn; [reflexivity|].
  now rewrite IH, Hf.
Qed.

Lemma press_toggle_session (inst : string) (s : MainScreen) :
  session_state (press_toggle inst s) = session_state s.
Proof.
  unfold press_toggle. destruct (existsb _ _); [|reflexivity].
  rewrite set_state_session. apply fold_left_session.
  intros s0 b. destruct (String.eqb _ _); [reflexivity|].
  apply set_state_session.
Qed.

Lemma show_error_session (m : string) (s : MainScreen) :
  session_state (show_error m s) = session_state s.
Proof. reflexivity. Qed.

Lemma show_active_box_session (t : option string) (s : MainScreen) :
  session_state (_show_active_box t s) = session_state s.
Proof. unfold _show_active_box. destruct (truthy_str t); reflexivity. Qed.

(** The local reset forgets the session and enables Iniciar. *)
Lemma reset_local_session (s : MainScreen) :
  session_state (reset_local s) = (None, _auto_finalize_last_date s, false).
Proof.
  unfold reset_local.
  destruct (selected_button (set_current_activity_id None s)) as [inst|] eqn:E.
  - unfold session_state. cbn.
    pose proof (set_state_session inst false (set_current_activity_id None s)) as H.
    unfold session_state in H. injection H as H1 H2 H3.
    cbn in H1, H2. now rewrite H1, H2.
  - reflexivity.
Qed.

(** ** The outcomes of the actions *)

Lemma truthy_int_Some (o : option Z) :
  truthy_int o = true -> o = Some (default 0 o).
Proof. destruct o; [reflexivity|discriminate]. Qed.

(** A close of session [v] through the default client: the table is
    left as it was, or every record with id [v] gets its end time. *)
Lemma finalizar_atividade_outcome (v : Z) (w : World) :
  exists r w',
    finalizar_atividade env v None w = (r, w')
    /\ serial w' = serial w
    /\ (clock_reads w <= clock_reads w')%nat
    /\ match r with
       | Ok _ => exists f h, table w' = map (closed_by v f h) (table w)
       | Raise _ => table w' = table w
       end.
Proof.
  rewrite finalizar_atividade_no_client.
  destruct (has_credentials env).
  2: { eexists _, _. split; [reflexivity|]. auto. }
  rewrite finalizar_atividade_run.
  destruct (fault env (requests w)).
  { eexists _, _. split; [reflexivity|]. cbn. auto. }
  destruct (List.filter _ (table w)).
  { eexists _, _. split; [reflexivity|]. cbn. auto. }
  cbn zeta. destruct (fault env (S (requests w))).
  { eexists _, _. split; [reflexivity|]. cbn. auto. }
  eexists _, _. split; [reflexivity|]. cbn.
  split; [reflexivity|]. split; [lia|]. eauto.
Qed.

(** Closes the goal for an action that only showed an error. *)
Ltac unchanged :=
  eexists _, _; split; [reflexivity|]; cbn;
  repeat (split; [solve [reflexivity | lia]|]);
  left; repeat split; reflexivity.

(** [acao_iniciar] either only shows an error, or adds one open record
    with a fresh id, holds that id and disables Iniciar. *)
Lemma acao_iniciar_outcome (s : MainScreen) (w : World) :
  exists s' w',
    acao_iniciar env app_user_id s w = (s', w')
    /\ _auto_finalize_last_date s' = _auto_finalize_last_date s
    /\ (clock_reads w <= clock_reads w')%nat
    /\ ((session_state s' = session_state s
         /\ table w' = table w /\ serial w' = serial w)
        \/ (exists r, table w' = table w ++ [r]
                      /\ id r = serial w /\ is_open r = true
                      /\ serial w' = serial w + 1
                      /\ current_activity_id s' = Some (serial w)
                      /\ start_button_disabled s' = true)).
Proof.
  unfold acao_iniciar.
  destruct (truthy_str (selected_activity_type s)); cbn [negb]; [|unchanged].
  rewrite iniciar_nova_atividade_run.
  destruct (has_credentials env); [|unchanged].
  destruct (fault env (requests w)); [unchanged|].
  eexists _, _. split; [reflexivity|].
  match goal with
  | |- context [_show_active_box ?t ?s0] =>
      pose proof (show_active_box_session t s0) as H
  end.
  unfold session_state in H. injection H as H1 H2 H3. cbn in H1, H2.
  cbn. split; [exact H2|]. split; [lia|].
  right. eexists. split; [reflexivity|]. auto.
Qed.

(** [acao_finalizar] either only shows an error, or closes the session
    it holds, forgets it and enables Iniciar. *)
Lemma acao_finalizar_outcome (s : MainScreen) (w : World) :
  exists s' w',
    acao_finalizar env s w = (s', w')
    /\ _auto_finalize_last_date s' = _auto_finalize_last_date s
    /\ (clock_reads w <= clock_reads w')%nat
    /\ ((session_state s' = session_state s
         /\ table w' = table w /\ serial w' = serial w)
        \/ (exists v f h, current_activity_id s = Some v
                          /\ table w' = map (closed_by v f h) (table w)
                          /\ serial w' = serial w
                          /\ current_activity_id s' = None
                          /\ start_button_disabled s' = false)).
Proof.
  unfold acao_finalizar.
  destruct (truthy_int (current_activity_id s)) eqn:T; cbn [negb]; [|unchanged].
  apply truthy_int_Some in T.
  destruct (finalizar_atividade_outcome (default 0 (current_activity_id s)) w)
    as (r & w' & E & Hs & Hc & Ht).
  rewrite E. destruct r as [b|e].
  - destruct Ht as (f & h & Ht).
    eexists _, _. split; [reflexivity|].
    pose proof (reset_local_session
                  (show_success "Atividade finalizada com sucesso." s)) as R.
    pose proof (f_equal (fun p => fst (fst p)) R) as R1.
    pose proof (f_equal (fun p => snd (fst p)) R) as R2.
    pose proof (f_equal snd R) as R3.
    cbn [session_state fst snd] in R1, R2, R3.
    split; [exact R2|]. split; [exact Hc|].
    right. exists (default 0 (current_activity_id s)), f, h. auto.
  - eexists _, _. split; [reflexivity|]. cbn.
    split; [reflexivity|]. split; [exact Hc|]. left. auto.
Qed.

(** A tick reads the clock once and touches nothing in the store. When
    the minute is a checkpoint not yet fired today, it records today's
    date for that checkpoint, and starts a worker if a session is held;
    otherwise it does nothing. *)
Lemma auto_finalize_check_outcome (s : MainScreen) (w : World) :
  let now_ := wall_clock env (clock_reads w) in
  let hhmm := strftime_HM now_ in
  let today := date_of now_ in
  exists s' j,
    _auto_finalize_check env s w
    = (s', j, mk_World (table w) (serial w) (requests w) (S (clock_reads w))
                (log w))
    /\ current_activity_id s' = current_activity_id s
    /\ start_button_disabled s' = start_button_disabled s
    /\ ((In hhmm targets
         /\ last_date_get s hhmm <> Some today
         /\ _auto_finalize_last_date s'
            = <[hhmm := Some today]> (_auto_finalize_last_date s)
         /\ j = if truthy_int (current_activity_id s)
                then Some (mk_Job (default 0 (current_activity_id s)) hhmm today)
                else None)
        \/ (s' = s /\ j = None
            /\ (~ In hhmm targets \/ last_date_get s hhmm = Some today))).
Proof.
  intros now_ hhmm today. unfold _auto_finalize_check, now.
  fold now_. fold hhmm. fold today.
  destruct (existsb (String.eqb hhmm) targets) eqn:T.
  - assert (Hin : In hhmm targets).
    { apply existsb_exists in T as (t & Ht & E).
      apply String.eqb_eq in E. now subst t. }
    destruct (bool_decide (last_date_get s hhmm = Some today)) eqn:B; cbn [andb negb].
    + apply bool_decide_eq_true in B.
      eexists _, _. split; [reflexivity|]. auto 8.
    + apply bool_decide_eq_false in B.
      change (current_activity_id (set_auto_finalize_last_date
                (<[hhmm := Some today]> (_auto_finalize_last_date s)) s))
        with (current_activity_id s).
      destruct (truthy_int (current_activity_id s)) eqn:C.
      * eexists _, _. split; [reflexivity|]. cbn. auto 8.
      * eexists _, _. split; [reflexivity|]. cbn. auto 8.
  - cbn [andb]. eexists _, _. split; [reflexivity|].
    split; [reflexivity|]. split; [reflexivity|]. right.
    split; [reflexivity|]. split; [reflexivity|]. left.
    intros Hin. apply Bool.not_true_iff_false in T. apply T.
    apply existsb_exists. exists hhmm. split; [exact Hin|apply String.eqb_refl].
Qed.

(** A worker closes the session it was given, or reports the failure. *)
Lemma worker_finalize_outcome (j : Job) (w : World) :
  exists c w',
    worker_finalize env j w = (c, w')
    /\ serial w' = serial w
    /\ (clock_reads w <= clock_reads w')%nat
    /\ match c with
       | call_on_auto_finalized_success _ =>
           exists f h, table w' = map (closed_by (act_id j) f h) (table w)
       | call_show_error _ => table w' = table w
       end.
Proof.
  unfold worker_finalize.
  destruct (finalizar_atividade_outcome (act_id j) w)
    as (r & w' & E & Hs & Hc & Ht).
  rewrite E. destruct r; eexists _, _; (split; [reflexivity|]); auto.
Qed.

Lemma run_callback_session (c : Callback) (s : MainScreen) :
  session_state (run_callback c s)
  = match c with
    | call_show_error _ => session_state s
    | call_on_auto_finalized_success _ =>
        (None, _auto_finalize_last_date s, false)
    end.
Proof.
  destruct c; cbn; [reflexivity|].
  unfold _on_auto_finalized_success. now rewrite reset_local_session.
Qed.

(** ** At most one open session per running screen *)

(** The open sessions created by the running instance: those whose id
    the store assigned after the instance started, at [base]. *)
Definition created_open (base : Z) (tbl : list Row) : list Row :=
  List.filter (fun r => (base <=? id r) && is_open r) tbl.

(** Either the instance has no open session, or it has exactly one, the
    Iniciar button is disabled, and the session the screen holds, if
    any, is that one. *)
Definition session_ok (base : Z) (s : MainScreen) (w : World) : Prop :=
  base <= serial w
  /\ Forall (fun r => id r < serial w) (table w)
  /\ (created_open base (table w) = []
      \/ (start_button_disabled s = true
          /\ exists r, created_open base (table w) = [r]
                       /\ forall v, current_activity_id s = Some v -> v = id r)).

Lemma created_open_closed_by (base v : Z) (f : datetime) (h : option Q)
    (tbl : list Row) :
  created_open base (map (closed_by v f h) tbl)
  = List.filter (fun r => negb (id r =? v)) (created_open base tbl).
Proof.
  unfold created_open. induction tbl as [|r tbl IH]; [reflexivity|].
  cbn [map List.filter]. rewrite IH.
  destruct (closed_by_hit v f h r) as (Hid & _ & Hhit & Hmiss).
  destruct (Z.eq_dec (id r) v) as [E|E].
  - destruct (Hhit E) as [Hfim _].
    unfold is_open at 1. rewrite Hfim, andb_false_r.
    destruct ((base <=? id r) && is_open r); [|reflexivity].
    cbn [List.filter]. apply Z.eqb_eq in E. rewrite E. reflexivity.
  - rewrite (Hmiss E).
    destruct ((base <=? id r) && is_open r); [|reflexivity].
    cbn [List.filter]. apply Z.eqb_neq in E. rewrite E. reflexivity.
Qed.

Lemma created_open_fresh (w : World) :
  Forall (fun r => id r < serial w) (table w) ->
  created_open (serial w) (table w) = [].
Proof.
  unfold created_open. induction 1 as [|r tbl Hr _ IH]; [reflexivity|].
  cbn. destruct (Z.leb_spec (serial w) (id r)); [lia|]. exact IH.
Qed.

Lemma session_ok_same (base : Z) (s s' : MainScreen) (w w' : World) :
  session_ok base s w ->
  session_state s' = session_state s ->
  table w' = table w -> serial w' = serial w ->
  session_ok base s' w'.
Proof.
  intros (Hb & Hf & Ho) Hs Ht Hser. unfold session_ok.
  rewrite Ht, Hser.
  pose proof (f_equal (fun p => fst (fst p)) Hs) as H1.
  pose proof (f_equal snd Hs) as H3. cbn in H1, H3. rewrite H1, H3. auto.
Qed.

Lemma session_ok_close (base v : Z) (f : datetime) (h : option Q)
    (s s' : MainScreen) (w w' : World) :
  session_ok base s w ->
  current_activity_id s = Some v ->
  table w' = map (closed_by v f h) (table w) -> serial w' = serial w ->
  session_ok base s' w' /\ created_open base (table w') = [].
Proof.
  intros (Hb & Hf & Ho) Hcur Ht Hser.
  assert (Hnone : created_open base (table w') = []).
  { rewrite Ht, created_open_closed_by.
    destruct Ho as [->|(_ & r & -> & Hr)]; [reflexivity|].
    cbn. rewrite (Hr v Hcur), Z.eqb_refl. reflexivity. }
  split; [|exact Hnone]. unfold session_ok. rewrite Hser.
  split; [exact Hb|]. split; [|now left].
  rewrite Ht. rewrite List.Forall_forall in *. intros r Hr.
  apply in_map_iff in Hr as (r0 & <- & Hr0).
  destruct (closed_by_hit v f h r0) as (-> & _). now apply Hf.
Qed.

Lemma session_ok_start (base : Z) (r : Row) (s s' : MainScreen) (w w' : World) :
  session_ok base s w ->
  start_button_disabled s = false ->
  table w' = table w ++ [r] -> id r = serial w -> is_open r = true ->
  serial w' = serial w + 1 ->
  current_activity_id s' = Some (serial w) ->
  start_button_disabled s' = true ->
  session_ok base s' w'.
Proof.
  intros (Hb & Hf & Ho) Hen Ht Hid Hopen Hser Hcur Hdis.
  unfold session_ok. rewrite Hser, Ht.
  split; [lia|]. split.
  - apply Forall_app. split.
    + eapply List.Forall_impl; [|exact Hf]. cbn. intros; lia.
    + constructor; [lia|constructor].
  - right. split; [exact Hdis|]. exists r.
    destruct Ho as [Ho|(Hd & _)]; [|congruence].
    unfold created_open in *. rewrite List.filter_app, Ho. cbn.
    rewrite Hopen, Hid. destruct (Z.leb_spec base (serial w)); [|lia].
    split; [reflexivity|]. intros v. rewrite Hcur. congruence.
Qed.

(** No worker thread or callback is waiting. *)
Definition at_rest (x : System) : Prop := threads x = [] /\ scheduled x = [].

Lemma perform_session_ok (base : Z) (o : Operation) (x : System) :
  at_rest x ->
  session_ok base (screen x) (world x) ->
  (o = op_iniciar -> start_button_disabled (screen x) = false) ->
  at_rest (perform env app_user_id o x)
  /\ session_ok base (screen (perform env app_user_id o x))
       (world (perform env app_user_id o x)).
Proof.
  destruct x as [s w th sc]. intros [Hth Hsc] Hok Hgate.
  cbn in Hth, Hsc, Hok, Hgate. subst th sc.
  destruct o; unfold perform, actions_of; cbn [run step screen world threads scheduled].
  - (* an activity button *)
    cbn. split; [split; reflexivity|].
    eapply session_ok_same; [exact Hok| |reflexivity|reflexivity].
    apply press_toggle_session.
  - (* Iniciar *)
    destruct (acao_iniciar_outcome s w) as (s' & w' & E & _ & _ & H).
    rewrite E. cbn. split; [split; reflexivity|].
    destruct H as [(Hs & Ht & Hser)|(r & Ht & Hid & Hopen & Hser & Hcur & Hdis)].
    + eapply session_ok_same; eassumption.
    + eapply session_ok_start; try eassumption. now apply Hgate.
  - (* Finalizar *)
    destruct (acao_finalizar_outcome s w) as (s' & w' & E & _ & _ & H).
    rewrite E. cbn. split; [split; reflexivity|].
    destruct H as [(Hs & Ht & Hser)|(v & f & h & Hcur & Ht & Hser & _)].
    + eapply session_ok_same; eassumption.
    + eapply session_ok_close; eassumption.
  - (* a scheduler tick run to completion *)
    destruct (auto_finalize_check_outcome s w)
      as (s1 & j & E & Hcur & Hdis & H).
    rewrite E. cbn [fst snd app option_list].
    set (w1 := mk_World (table w) (serial w) (requests w) (S (clock_reads w)) (log w)).
    assert (Hok1 : session_ok base s1 w1).
    { destruct Hok as (Hb & Hf & Ho). unfold session_ok, w1. cbn.
      rewrite Hcur, Hdis. auto. }
    assert (Hj : j = None \/ exists job, j = Some job
                  /\ current_activity_id s1 = Some (act_id job)).
    { destruct H as [(_ & _ & _ & ->)|(_ & -> & _)]; [|now left].
      destruct (truthy_int (current_activity_id s)) eqn:T; [|now left].
      right. eexists. split; [reflexivity|]. cbn.
      rewrite Hcur. now apply truthy_int_Some. }
    destruct Hj as [->|(job & -> & Hjob)].
    + cbn. split; [split; reflexivity|exact Hok1].
    + cbn [option_list app lookup list_lookup].
      destruct (worker_finalize_outcome job w1) as (c & w2 & Ew & Hser & _ & Hc).
      cbn. rewrite Ew. cbn. split; [split; reflexivity|].
      pose proof (run_callback_session c s1) as R.
      destruct c as [m|t].
      * eapply session_ok_same; [exact Hok1|exact R|exact Hc|exact Hser].
      * destruct Hc as (f & h & Hc).
        eapply session_ok_close; eassumption.
Qed.

Lemma perform_all_session_ok (base : Z) (ops : list Operation) :
  forall x,
    at_rest x ->
    session_ok base (screen x) (world x) ->
    iniciar_enabled env app_user_id ops x = true ->
    session_ok base (screen (perform_all env app_user_id ops x))
      (world (perform_all env app_user_id ops x)).
Proof.
  induction ops as [|o ops IH]; intros x Hrest Hok Hgate; [exact Hok|].
  cbn in Hgate. apply andb_true_iff in Hgate as [Hnow Hlater].
  destruct (perform_session_ok base o x Hrest Hok) as [Hrest' Hok'].
  { intros ->. now apply negb_true_iff in Hnow. }
  unfold perform_all. cbn [fold_left]. now apply IH.
Qed.

(** C1 (amended). For every sequence of operations each run to
    completion before the next one (selecting an activity, a start, a
    stop, a scheduler tick with its worker and callback) in which
    [acao_iniciar] is invoked only while the Iniciar button is enabled,
    at most one session created by the running instance has no end time.
    The instance starts with no worker or callback waiting, over a table
    whose ids the store has already issued. *)
Theorem one_open_session_per_instance (ops : list Operation) (x : System) :
  threads x = [] ->
  scheduled x = [] ->
  Forall (fun r => id r < serial (world x)) (table (world x)) ->
  iniciar_enabled env app_user_id ops x = true ->
  (length (created_open (serial (world x))
             (table (world (perform_all env app_user_id ops x)))) <= 1)%nat.
Proof.
  intros Hth Hsc Hf Hgate.
  assert (Hok : session_ok (serial (world x)) (screen x) (world x)).
  { split; [lia|]. split; [exact Hf|]. left.
    now apply created_open_fresh. }
  destruct (perform_all_session_ok _ ops x (conj Hth Hsc) Hok Hgate)
    as (_ & _ & [->|(_ & r & -> & _)]); cbn; lia.
Qed.

(** ** The scheduler fires a checkpoint at most once per day *)

(** Calendar order on dates. *)
Definition date_lt (a b : date) : Prop :=
  let '(y1, m1, d1) := a in
  let '(y2, m2, d2) := b in
  y1 < y2 \/ (y1 = y2 /\ (m1 < m2 \/ (m1 = m2 /\ d1 < d2))).

Definition date_le (a b : date) : Prop := date_lt a b \/ a = b.

Lemma date_lt_irrefl (a : date) : ~ date_lt a a.
Proof. destruct a as [[y m] d]. cbn. lia. Qed.

Lemma date_lt_le_trans (a b c : date) : date_lt a b -> date_le b c -> date_lt a c.
Proof.
  intros Hab [Hbc| <-]; [|exact Hab].
  destruct a as [[y1 m1] d1], b as [[y2 m2] d2], c as [[y3 m3] d3].
  cbn in *. lia.
Qed.

(** The wall clock never goes back to an earlier date. *)
Definition clock_monotone : Prop :=
  forall n m, (n <= m)%nat ->
    date_le (date_of (wall_clock env n)) (date_of (wall_clock env m)).

(** The worker was started for checkpoint [label] on [day]. *)
Definition fired_at (label : string) (day : date) (j : Job) : bool :=
  String.eqb (time_str j) label && bool_decide (fired_on j = day).

(** How many workers of [js] were started for [label] on [day]. *)
Definition fires (label : string) (day : date) (js : list Job) : nat :=
  length (List.filter (fired_at label day) js).

Lemma fired_at_spec (label : string) (day : date) (j : Job) :
  fired_at label day j = true <-> time_str j = label /\ fired_on j = day.
Proof.
  unfold fired_at. rewrite andb_true_iff, String.eqb_eq, bool_decide_eq_true.
  reflexivity.
Qed.

Lemma fires_none (label : string) (day : date) (js : list Job) :
  (forall j, In j js -> ~ (time_str j = label /\ fired_on j = day)) ->
  fires label day js = 0%nat.
Proof.
  intros H. unfold fires. induction js as [|j js IH]; [reflexivity|].
  cbn. destruct (fired_at label day j) eqn:E.
  - apply fired_at_spec in E. exfalso. apply (H j); [now left|exact E].
  - apply IH. intros j0 Hj0. apply H. now right.
Qed.

Lemma last_date_get_insert (s s' : MainScreen) (hhmm label : string) (d : date) :
  _auto_finalize_last_date s' = <[hhmm := Some d]> (_auto_finalize_last_date s) ->
  last_date_get s' label
  = if decide (hhmm = label) then Some d else last_date_get s label.
Proof.
  intros H. unfold last_date_get. rewrite H, lookup_insert.
  destruct (decide (hhmm = label)); reflexivity.
Qed.

(** What a step does to the scheduler's memory and to the clock: either
    the memory is kept and no worker starts, or the step is a tick that
    records today's date for the current minute, not recorded before,
    and any worker it starts carries that minute and date. *)
Lemma step_effect (a : Action) (x : System) :
  exists x' j,
    step env app_user_id a x = (x', j)
    /\ (clock_reads (world x) <= clock_reads (world x'))%nat
    /\ ((_auto_finalize_last_date (screen x')
         = _auto_finalize_last_date (screen x) /\ j = None)
        \/ (let now_ := wall_clock env (clock_reads (world x)) in
            let hhmm := strftime_HM now_ in
            let today := date_of now_ in
            clock_reads (world x') = S (clock_reads (world x))
            /\ last_date_get (screen x) hhmm <> Some today
            /\ _auto_finalize_last_date (screen x')
               = <[hhmm := Some today]> (_auto_finalize_last_date (screen x))
            /\ forall job, j = Some job ->
                  time_str job = hhmm /\ fired_on job = today)).
Proof.
  destruct x as [s w th sc]. destruct a; cbn [step screen world threads scheduled].
  - eexists _, _. split; [reflexivity|]. cbn. split; [lia|]. left.
    split; [|reflexivity].
    pose proof (press_toggle_session inst s) as H.
    now apply (f_equal (fun p => snd (fst p))) in H.
  - destruct (acao_iniciar_outcome s w) as (s' & w' & E & Hl & Hc & _).
    rewrite E. eexists _, _. split; [reflexivity|]. cbn. auto.
  - destruct (acao_finalizar_outcome s w) as (s' & w' & E & Hl & Hc & _).
    rewrite E. eexists _, _. split; [reflexivity|]. cbn. auto.
  - destruct (auto_finalize_check_outcome s w) as (s' & j & E & _ & _ & H).
    rewrite E. eexists _, _. split; [reflexivity|]. cbn. split; [lia|].
    destruct H as [(_ & Hne & Hl & Hj)|(-> & -> & _)]; [|now left].
    right. split; [reflexivity|]. split; [exact Hne|]. split; [exact Hl|].
    intros job Hjob. rewrite Hj in Hjob.
    destruct (truthy_int (current_activity_id s)); [|discriminate].
    injection Hjob as <-. split; reflexivity.
  - destruct (th !! k) as [j|].
    + destruct (worker_finalize_outcome j w) as (c & w' & E & _ & Hc & _).
      rewrite E. eexists _, _. split; [reflexivity|]. cbn. auto.
    + eexists _, _. split; [reflexivity|]. cbn. auto.
  - destruct sc as [|c sc].
    + eexists _, _. split; [reflexivity|]. cbn. auto.
    + eexists _, _. split; [reflexivity|]. cbn. split; [lia|]. left.
      split; [|reflexivity].
      pose proof (run_callback_session c s) as H.
      apply (f_equal (fun p => snd (fst p))) in H. cbn in H.
      rewrite H. destruct c; reflexivity.
Qed.

(** The workers started so far: each carries the date of an earlier
    clock reading, no two carry the same checkpoint and date, and for
    each either the scheduler still remembers its date for its
    checkpoint or that date is already past. *)
Definition dedup_inv (x : System) (started : list Job) : Prop :=
  (forall j, In j started ->
     exists k, (k < clock_reads (world x))%nat
               /\ fired_on j = date_of (wall_clock env k))
  /\ (forall label day, (fires label day started <= 1)%nat)
  /\ (forall j, In j started ->
        last_date_get (screen x) (time_str j) = Some (fired_on j)
        \/ date_lt (fired_on j)
             (date_of (wall_clock env (clock_reads (world x))))).

Lemma step_dedup_inv (a : Action) (x : System) (started : list Job) :
  clock_monotone ->
  dedup_inv x started ->
  dedup_inv (fst (step env app_user_id a x))
    (started ++ option_list (snd (step env app_user_id a x))).
Proof.
  intros Hmono (H1 & H2 & H3).
  destruct (step_effect a x) as (x' & j & E & Hc & H).
  rewrite E. cbn [fst snd].
  assert (Hpast : forall j0, In j0 started ->
            date_lt (fired_on j0)
              (date_of (wall_clock env (clock_reads (world x)))) ->
            date_lt (fired_on j0)
              (date_of (wall_clock env (clock_reads (world x'))))).
  { intros j0 _ Hlt. eapply date_lt_le_trans; [exact Hlt|]. now apply Hmono. }
  destruct H as [(Hl & ->)|H].
  - (* the memory is kept *)
    cbn. rewrite app_nil_r. split; [|split; [exact H2|]].
    + intros j0 Hj0. destruct (H1 j0 Hj0) as (k & Hk & Hd).
      exists k. split; [lia|exact Hd].
    + intros j0 Hj0. destruct (H3 j0 Hj0) as [Hs|Hlt].
      * left. unfold last_date_get in *. now rewrite Hl.
      * right. now apply Hpast.
  - (* a tick records today's date *)
    cbn zeta in H. destruct H as (Hn & Hne & Hl & Hj).
    set (n := clock_reads (world x)) in *.
    set (hhmm := strftime_HM (wall_clock env n)) in *.
    set (today := date_of (wall_clock env n)) in *.
    assert (Hold : forall j0, In j0 started -> time_str j0 = hhmm ->
              date_lt (fired_on j0) today).
    { intros j0 Hj0 Ht. destruct (H3 j0 Hj0) as [Hs|Hlt]; [|exact Hlt].
      rewrite Ht in Hs.
      destruct (H1 j0 Hj0) as (k & Hk & Hd).
      destruct (Hmono k n ltac:(lia)) as [Hlt|Heq].
      - now rewrite Hd.
      - exfalso. apply Hne. rewrite Hs, Hd. f_equal. exact Heq. }
    assert (Hnew : forall j0, In j0 started ->
              ~ (time_str j0 = hhmm /\ fired_on j0 = today)).
    { intros j0 Hj0 [Ht Hd]. apply (date_lt_irrefl today).
      rewrite <- Hd at 1. now apply Hold. }
    assert (Hnext : date_le today (date_of (wall_clock env (clock_reads (world x'))))).
    { apply Hmono. lia. }
    split; [|split].
    + intros j0 Hj0. apply in_app_or in Hj0 as [Hj0|Hj0].
      * destruct (H1 j0 Hj0) as (k & Hk & Hd). exists k. split; [lia|exact Hd].
      * destruct j as [job|]; [|destruct Hj0].
        destruct Hj0 as [<-|[]]. exists n.
        split; [lia|]. now destruct (Hj job eq_refl).
    + intros label day.
      pose proof (H2 label day) as Hb.
      assert (Happ : fires label day (started ++ option_list j)
                     = (fires label day started
                        + fires label day (option_list j))%nat).
      { unfold fires. now rewrite List.filter_app, length_app. }
      rewrite Happ.
      destruct j as [job|].
      2: { change (option_list None) with (@nil Job).
           unfold fires at 2. cbn [List.filter length]. now rewrite Nat.add_0_r. }
      destruct (Hj job eq_refl) as [Ht Hd].
      change (option_list (Some job)) with [job].
      unfold fires at 2. cbn [List.filter].
      destruct (fired_at label day job) eqn:F;
        [|cbn [length]; now rewrite Nat.add_0_r].
      apply fired_at_spec in F as [Fl Fd].
      rewrite fires_none; [cbn; lia|].
      intros j0 Hj0 [Ht0 Hd0]. apply (Hnew j0 Hj0). split; congruence.
    + intros j0 Hj0. apply in_app_or in Hj0 as [Hj0|Hj0].
      * rewrite (last_date_get_insert _ _ _ (time_str j0) _ Hl).
        destruct (decide (hhmm = time_str j0)) as [Ht|Ht].
        -- right. eapply date_lt_le_trans; [|exact Hnext]. now apply Hold.
        -- destruct (H3 j0 Hj0) as [Hs|Hlt]; [now left|].
           right. now apply Hpast.
      * destruct j as [job|]; [|destruct Hj0].
        destruct Hj0 as [<-|[]]. destruct (Hj job eq_refl) as [Ht Hd].
        left. rewrite (last_date_get_insert _ _ _ (time_str job) _ Hl).
        rewrite Ht, Hd. destruct (decide (hhmm = hhmm)); [reflexivity|contradiction].
Qed.

Lemma run_dedup_inv (acts : list Action) :
  clock_monotone ->
  forall x started,
    dedup_inv x started ->
    dedup_inv (fst (run env app_user_id acts x))
      (started ++ snd (run env app_user_id acts x)).
Proof.
  intros Hmono. induction acts as [|a acts IH]; intros x started Hinv.
  - cbn. now rewrite app_nil_r.
  - cbn [run].
    pose proof (step_dedup_inv a x started Hmono Hinv) as Hstep.
    destruct (step env app_user_id a x) as [x' j]. cbn [fst snd] in Hstep.
    specialize (IH x' _ Hstep).
    destruct (run env app_user_id acts x') as [x'' js]. cbn [fst snd] in *.
    now rewrite app_assoc.
Qed.

(** C3. On a tick whose minute is a checkpoint not yet fired today,
    [_auto_finalize_check] records today's date for that checkpoint,
    whether or not a session is held and before any worker runs. And in
    every run of the screen (presses, ticks, workers and callbacks in any
    order, closes that fail or succeed) under a clock that never goes
    back to an earlier date, at most one worker is started for any
    checkpoint on any date. *)
Theorem checkpoint_fires_once_per_day :
  (forall s w,
     let now_ := wall_clock env (clock_reads w) in
     In (strftime_HM now_) targets ->
     last_date_get s (strftime_HM now_) <> Some (date_of now_) ->
     last_date_get (fst (fst (_auto_finalize_check env s w))) (strftime_HM now_)
     = Some (date_of now_))
  /\ (clock_monotone ->
      forall acts x label day,
        (fires label day (snd (run env app_user_id acts x)) <= 1)%nat).
Proof.
  split.
  - intros s w now_ Hin Hne.
    destruct (auto_finalize_check_outcome s w) as (s' & j & E & _ & _ & H).
    rewrite E. cbn [fst]. fold now_ in H.
    destruct H as [(_ & _ & Hl & _)|(_ & _ & [Hn|Hs])]; try contradiction.
    rewrite (last_date_get_insert _ _ _ (strftime_HM now_) _ Hl).
    destruct (decide (strftime_HM now_ = strftime_HM now_)); [reflexivity|contradiction].
  - intros Hmono acts x label day.
    assert (Hinit : dedup_inv x []).
    { split; [intros ? []|]. split; [intros; cbn; lia|intros ? []]. }
    destruct (run_dedup_inv acts Hmono x [] Hinit) as (_ & H & _).
    exact (H label day).
Qed.

(** ** Resuming on login *)

Lemma resume_buttons_session (tipo : string) (l : list ToggleButton)
    (s : MainScreen) :
  session_state
    (fold_left
       (fun s b =>
          if String.eqb (text b) tipo
          then set_selected_button (Some (text b)) (set_state (text b) true s)
          else s)
       l s)
  = session_state s.
Proof.
  apply fold_left_session. intros s1 b.
  destruct (String.eqb _ _); [|reflexivity].
  rewrite <- (set_state_session (text b) true s1). reflexivity.
Qed.

(** When the lookup finds a session, the screen holds its id. *)
Lemma verificar_atividade_em_andamento_found (s : MainScreen) (w w' : World)
    (row : Row) :
  buscar_atividade_em_andamento env (Some app_user_id) None w
  = (Ok (Some row), w') ->
  current_activity_id (fst (verificar_atividade_em_andamento env app_user_id s w))
  = Some (id row)
  /\ start_button_disabled
       (fst (verificar_atividade_em_andamento env app_user_id s w)) = true.
Proof.
  intros E. unfold verificar_atividade_em_andamento. rewrite E. cbn [fst].
  split; [|reflexivity].
  cbn [_set_state_em_andamento current_activity_id set_activity_buttons set_controls].
  match goal with
  | |- context [_show_active_box ?t ?s0] =>
      pose proof (show_active_box_session t s0) as H
  end.
  apply (f_equal (fun p => fst (fst p))) in H. cbn [session_state fst] in H.
  rewrite H. cbn [current_activity_id set_status_label set_descricao_text
                  set_selected_activity_label].
  match goal with
  | |- context [fold_left ?f ?l ?s0] =>
      pose proof (resume_buttons_session (tipo_atividade row) l s0) as F
  end.
  apply (f_equal (fun p => fst (fst p))) in F. cbn [session_state fst] in F.
  rewrite F. reflexivity.
Qed.

(** C10. When the current user has open sessions and the store answers,
    [buscar_atividade_em_andamento] returns the one with the greatest id
    (open records ordered by id descending, the first taken), and
    [verificar_atividade_em_andamento] makes it the session the screen
    holds. *)
Theorem resume_attaches_to_newest (s : MainScreen) (w : World) (r0 : Row) :
  has_credentials env = true ->
  fault env (requests w) = None ->
  In r0 (table w) -> fim r0 = None -> user_id r0 = Some app_user_id ->
  exists row w',
    buscar_atividade_em_andamento env (Some app_user_id) None w
    = (Ok (Some row), w')
    /\ In row (table w) /\ fim row = None /\ user_id row = Some app_user_id
    /\ (forall r, In r (table w) -> fim r = None ->
                  user_id r = Some app_user_id -> id r <= id row)
    /\ current_activity_id
         (fst (verificar_atividade_em_andamento env app_user_id s w))
       = Some (id row).
Proof.
  intros Hcred F Hin Hopen Huser.
  destruct (buscar_atividade_em_andamento_newest env app_user_id None w
              (fun _ => Hcred) F) as (found & w' & E & _ & H).
  destruct found as [row|].
  - destruct H as (H1 & H2 & H3 & H4).
    exists row, w'. repeat split; try assumption.
    now apply (verificar_atividade_em_andamento_found s w w' row).
  - exfalso. now apply (H r0 Hin Hopen).
Qed.

End screen_facts.

(* ===================================================================== *)
(** * Scenarios                                                           *)
(* ===================================================================== *)

Section scenarios.
Import base64 GUI_login handle_db GUI_principal.

(** A screen with two activity buttons, right after login with no
    session to resume, over an empty table. *)
Definition two_buttons : list ToggleButton :=
  [mk_ToggleButton "Cadastro" false false NORMAL_COLOR;
   mk_ToggleButton "Custos" false false NORMAL_COLOR].

Definition fresh_screen : MainScreen :=
  init two_buttons "Nenhuma atividade selecionada" "" "Pronto para começar."
    false false true false "".

Definition fresh_system : System :=
  mk_System fresh_screen (mk_World [] 1 0 0 []) [] [].

(** The fresh screen after a press on Cadastro. *)
Definition cadastro_chosen : MainScreen := press_toggle "Cadastro" fresh_screen.

(** Every reading of the clock is 11:28 on the same day. *)
Definition at_checkpoint : Env :=
  mk_Env true (fun _ => None) (fun n => mk_datetime (Z.of_nat n) 2024 1 15 11 28).

(** C1, counterexample to "for every sequence of starts and stops": two
    calls of [acao_iniciar] in a row leave two open sessions created by
    the same screen. *)
Lemma two_starts_two_open_sessions :
  let x := perform_all store_up "ana"
             [op_select "Cadastro"; op_iniciar; op_iniciar] fresh_system in
  map id (created_open (serial (world fresh_system)) (table (world x))) = [1; 2]
  /\ (length (created_open (serial (world fresh_system)) (table (world x))) > 1)%nat.
Proof. vm_compute. split; [reflexivity|lia]. Qed.

(** C2, counterexample to "a start while a session is open is rejected
    and changes nothing": [acao_iniciar] with session 1 open shows no
    error, adds a record and replaces the id the screen holds. *)
Lemma acao_iniciar_while_active :
  let x := perform_all store_up "ana" [op_select "Cadastro"; op_iniciar]
             fresh_system in
  let '(s', w') := acao_iniciar store_up "ana" (screen x) (world x) in
  current_activity_id (screen x) = Some 1
  /\ current_activity_id s' = Some 2
  /\ popups s' = popups (screen x)
  /\ map id (table (world x)) = [1]
  /\ map id (table w') = [1; 2].
Proof. vm_compute. repeat split. Qed.

(** Operations that overlap are another matter. A worker started by
    the 11:28 tick is still running when the user stops session 1 and
    starts session 2; the worker then closes session 1 once more, and
    its callback resets the screen and enables Iniciar although session
    2 is open, so a third start leaves two sessions open. Each start
    happened while Iniciar was enabled. *)
Definition overlapping : list Action :=
  [press_activity "Cadastro"; press_iniciar; clock_tick;
   press_finalizar; press_activity "Custos"; press_iniciar;
   thread_runs 0; callback_runs;
   press_activity "Cadastro"; press_iniciar].

Example late_worker_enables_iniciar :
  let after n := fst (run at_checkpoint "ana" (take n overlapping) fresh_system) in
  map (fun n => start_button_disabled (screen (after n))) [1; 5; 9]%nat
  = [false; false; false]
  /\ map id (created_open 1 (table (world (after 10%nat)))) = [2; 3]
  /\ current_activity_id (screen (after 10%nat)) = Some 3.
Proof. vm_compute. repeat split. Qed.

(** Two ticks in the same checkpoint minute start one worker. *)
Example second_tick_does_not_fire :
  let '(x, started) := run at_checkpoint "ana"
        [press_activity "Cadastro"; press_iniciar; clock_tick; clock_tick]
        fresh_system in
  map act_id started = [1] /\ fires "11:28" (2024, 1, 15) started = 1%nat.
Proof. vm_compute. split; reflexivity. Qed.

(** A stand-in key derivation, [int()] and [strip()] to run the vault
    on concrete records. *)
Definition sample_kdf (password salt : bytes) (iterations : Z) : bytes :=
  password ++ salt.

Definition sample_int (v : json) : res Z :=
  match v with
  | JInt z => Ok z
  | _ => Raise (TypeError "int() argument must be a string or a number")
  end.

Definition sample_strip (s : string) : string := s.

(** A record whose salt is not valid base64. *)
Definition broken_record : gmap string json :=
  <["salt" := JStr "A"]> (<["hash" := JStr "AAAA"]> (<["iters" := JInt 1]> ∅)).

(** C8 at a record whose salt does not decode. *)
Lemma fazer_login_malformed_record_witness :
  decodes (broken_record !! "salt") = false
  /\ fazer_login_ok sample_kdf sample_int "senha" broken_record = false.
Proof.
  assert (H : decodes (broken_record !! "salt") = false)
    by (vm_compute; reflexivity).
  split; [exact H|].
  exact (proj1 (fazer_login_malformed_record sample_kdf sample_int sample_strip
                  "senha" broken_record (or_introl H))).
Defined.

(** C9 at two and a half hours of work. *)
Lemma calcular_horas_trabalhadas_spec_witness :
  exists units : Z,
    calcular_horas_trabalhadas (at_instant 0) (Some (at_instant 9000000000))
    = Some (round_to_float (inject_Z units / inject_Z (10 ^ 10)))
    /\ ((0 <= round_to_float (inject_Z units / inject_Z (10 ^ 10)))%Q
        <-> timestamp (at_instant 0) <= timestamp (at_instant 9000000000)).
Proof.
  destruct (proj2 (calcular_horas_trabalhadas_spec (at_instant 0)
                     (Some (at_instant 9000000000)))
              (at_instant 9000000000) eq_refl) as (units & E & _ & S).
  - unfold timedelta_min, timedelta_max, datetime_sub. cbn. lia.
  - exists units. split; [exact E|exact S].
Defined.

(** C4 at the first close of session 1, at 01:00. *)
Lemma finalizar_atividade_overwrites_witness :
  exists w',
    finalizar_atividade hourly_clock 1 None one_open_session = (Ok true, w')
    /\ forall r, In r (table w') -> id r = 1 ->
         fim r = Some (at_instant 3600000000).
Proof.
  destruct (finalizar_atividade_overwrites hourly_clock 1 None one_open_session
              (mk_Row 1 "Cadastro" (Some "") (at_instant 0) None (Some "ana")
                 2024 1 15 None)
              (fun _ => eq_refl) eq_refl eq_refl eq_refl)
    as (w' & E & _ & H & _).
  exists w'. split; [exact E|].
  intros r Hr Hid. exact (proj1 (H r Hr Hid)).
Defined.

(** C5 at the two orphans, when the update of session 11 times out. *)
Lemma finalizar_atividades_em_andamento_counts_witness :
  exists new_log w',
    finalizar_atividades_em_andamento (store_fails_at 4) None two_orphans
    = (Ok 1, w')
    /\ attempts new_log = [(10, true); (11, false)]
    /\ Forall2 (swept [(10, true); (11, false)]) (table two_orphans) (table w').
Proof.
  destruct (finalizar_atividades_em_andamento_counts (store_fails_at 4) None
              two_orphans) as (n & new_log & w' & E & _ & H).
  destruct (H (fun _ => eq_refl) eq_refl) as (A & N & S).
  exists new_log, w'. rewrite N in E.
  split; [exact E|]. split; [exact A|exact S].
Defined.

(** C6 at a start of Cadastro whose insert times out. *)
Lemma acao_iniciar_store_error_witness :
  truthy_str (selected_activity_type cadastro_chosen) = true
  /\ fault (store_fails_at 0) (requests (world fresh_system)) = Some "timeout"
  /\ exists w',
       acao_iniciar (store_fails_at 0) "ana" cadastro_chosen (world fresh_system)
       = (show_error ("Falha ao iniciar atividade:" +:+ nl
                      +:+ "Supabase insert error: " +:+ "timeout")
            cadastro_chosen, w')
       /\ table w' = table (world fresh_system)
       /\ current_activity_id
            (fst (acao_iniciar (store_fails_at 0) "ana" cadastro_chosen
                    (world fresh_system))) = None.
Proof.
  assert (T : truthy_str (selected_activity_type cadastro_chosen) = true)
    by (vm_compute; reflexivity).
  assert (F : fault (store_fails_at 0) (requests (world fresh_system))
              = Some "timeout") by reflexivity.
  split; [exact T|]. split; [exact F|].
  destruct (acao_iniciar_store_error (store_fails_at 0) "ana" cadastro_chosen
              (world fresh_system))
    as (message & w' & E & Tb & _ & _ & _ & _ & _ & M).
  - right. rewrite F. discriminate.
  - exists w'. rewrite (M T eq_refl "timeout" F) in E.
    split; [exact E|]. split; [exact Tb|]. rewrite E. reflexivity.
Defined.

(** C2 at a stop on the idle screen. *)
Lemma rejected_actions_change_nothing_witness :
  truthy_int (current_activity_id fresh_screen) = false
  /\ acao_finalizar store_up fresh_screen (world fresh_system)
     = (show_error "Não há atividade em andamento para finalizar." fresh_screen,
        world fresh_system).
Proof.
  split; [reflexivity|].
  exact (proj1 (rejected_actions_change_nothing store_up "ana" fresh_screen
                  (world fresh_system)) eq_refl).
Defined.

(** A day at the screen: select, start, stop, start again, and the
    11:28 checkpoint closes the session. *)
Definition a_day : list Operation :=
  [op_select "Cadastro"; op_iniciar; op_finalizar; op_select "Custos";
   op_iniciar; op_auto_finalize].

(** C1 at that day. *)
Lemma one_open_session_per_instance_witness :
  iniciar_enabled at_checkpoint "ana" a_day fresh_system = true
  /\ (length (created_open (serial (world fresh_system))
                (table (world (perform_all at_checkpoint "ana" a_day
                                 fresh_system)))) <= 1)%nat.
Proof.
  assert (H : iniciar_enabled at_checkpoint "ana" a_day fresh_system = true)
    by (vm_compute; reflexivity).
  split; [exact H|].
  exact (one_open_session_per_instance at_checkpoint "ana" a_day fresh_system
           eq_refl eq_refl (List.Forall_nil _) H).
Defined.

Lemma at_checkpoint_monotone : clock_monotone at_checkpoint.
Proof. intros n m _. right. reflexivity. Defined.

(** C3 at a run with three ticks in the 11:28 minute. *)
Lemma checkpoint_fires_once_per_day_witness :
  clock_monotone at_checkpoint
  /\ (fires "11:28" (2024, 1, 15)%Z
        (snd (run at_checkpoint "ana"
                [press_activity "Cadastro"; press_iniciar; clock_tick;
                 thread_runs 0; clock_tick; callback_runs; clock_tick]
                fresh_system)) <= 1)%nat.
Proof.
  split; [exact at_checkpoint_monotone|].
  exact (proj2 (checkpoint_fires_once_per_day at_checkpoint "ana")
           at_checkpoint_monotone _ fresh_system "11:28" (2024, 1, 15)).
Defined.

(** C10 at a login of "ana" with sessions 10 and 11 open. *)
Lemma resume_attaches_to_newest_witness :
  exists row w',
    buscar_atividade_em_andamento store_up (Some "ana") None two_orphans
    = (Ok (Some row), w')
    /\ (forall r, In r (table two_orphans) -> fim r = None ->
                  user_id r = Some "ana" -> id r <= id row)
    /\ current_activity_id
         (fst (verificar_atividade_em_andamento store_up "ana" fresh_screen
                 two_orphans))
       = Some (id row).
Proof.
  destruct (resume_attaches_to_newest store_up "ana" fresh_screen two_orphans
              (mk_Row 10 "Cadastro" (Some "") (at_instant 0) None (Some "ana")
                 2024 1 15 None)
              eq_refl eq_refl (or_introl eq_refl) eq_refl eq_refl)
    as (row & w' & E & _ & _ & _ & Hmax & Hcur).
  exists row, w'. split; [exact E|]. split; [exact Hmax|exact Hcur].
Defined.

(** The session resumed is number 11, the newer of the two. *)
Example resume_picks_eleven :
  current_activity_id
    (fst (verificar_atividade_em_andamento store_up "ana" fresh_screen
            two_orphans))
  = Some 11.
Proof. vm_compute. reflexivity. Qed.

End scenarios.

(* ===================================================================== *)
(** * Further properties of the credential vault                          *)
(* ===================================================================== *)

Section vault_more.
Import base64 GUI_login GUI_login_accounts.

Variable pbkdf2_hmac_sha256 : bytes -> bytes -> Z -> bytes.
Variable py_int : json -> res Z.
Variable strip : string -> string.

Lemma b64encode_injective (a b : bytes) :
  string_of_list_byte (b64encode a) = string_of_list_byte (b64encode b) ->
  a = b.
Proof.
  intros H. pose proof (b64decode_encoded a) as Ha.
  rewrite H, b64decode_encoded in Ha. congruence.
Qed.

Lemma hash_password_run (token : bytes) (p : string) (salt : option bytes)
    (n : Z) :
  1 <= n <= INT_MAX ->
  hash_password pbkdf2_hmac_sha256 token p salt n
  = Ok (<["salt" := JStr (string_of_list_byte (b64encode (default token salt)))]>
        (<["hash" := JStr (string_of_list_byte
                             (b64encode (pbkdf2_hmac_sha256 (encode_utf8 p)
                                           (default token salt) n)))]>
         (<["iters" := JInt n]> ∅))).
Proof.
  intros Hn. unfold hash_password.
  replace (match salt with Some s => s | None => token end)
    with (default token salt) by (destruct salt; reflexivity).
  rewrite pbkdf2_hmac_ok by exact Hn. cbn.
  rewrite !decode_ascii_b64encode. reflexivity.
Qed.

Lemma record_fields (salt_b64 hash_b64 : string) (n : Z) :
  let record : gmap string json :=
    <["salt" := JStr salt_b64]>
      (<["hash" := JStr hash_b64]> (<["iters" := JInt n]> ∅)) in
  record !! "salt" = Some (JStr salt_b64)
  /\ record !! "hash" = Some (JStr hash_b64)
  /\ record !! "iters" = Some (JInt n).
Proof.
  cbv zeta. rewrite lookup_insert_eq.
  rewrite lookup_insert_ne by discriminate. rewrite lookup_insert_eq.
  rewrite !lookup_insert_ne by discriminate. rewrite lookup_insert_eq.
  auto.
Qed.

Lemma verify_record_fields (p salt_b64 hash_b64 : string) (n : Z)
    (record : gmap string json) :
  record !! "salt" = Some (JStr salt_b64) ->
  record !! "hash" = Some (JStr hash_b64) ->
  record !! "iters" = Some (JInt n) ->
  py_int (JInt n) = Ok n ->
  verify_record pbkdf2_hmac_sha256 py_int p record
  = verify_password pbkdf2_hmac_sha256 p salt_b64 hash_b64 n.
Proof.
  intros Hs Hh Hi Hint. unfold verify_record, getitem.
  rewrite Hs, Hh, Hi. cbn. rewrite Hint. reflexivity.
Qed.

(** X1. For an iteration count [pbkdf2_hmac] accepts, [hash_password]
    returns a record whose salt and hash fields decode back to the salt
    used (the one given, else the random one) and to the key derived
    from the password under that salt; iters is the count. *)
Theorem hash_password_record_decodes (token : bytes) (p : string)
    (salt : option bytes) (n : Z) :
  1 <= n <= INT_MAX ->
  exists record salt_b64 hash_b64,
    hash_password pbkdf2_hmac_sha256 token p salt n = Ok record
    /\ record !! "salt" = Some (JStr salt_b64)
    /\ record !! "hash" = Some (JStr hash_b64)
    /\ record !! "iters" = Some (JInt n)
    /\ b64decode salt_b64 = Ok (default token salt)
    /\ b64decode hash_b64
       = Ok (pbkdf2_hmac_sha256 (encode_utf8 p) (default token salt) n).
Proof.
  intros Hn. eexists _, _, _. split; [apply hash_password_run; exact Hn|].
  destruct (record_fields
              (string_of_list_byte (b64encode (default token salt)))
              (string_of_list_byte
                 (b64encode (pbkdf2_hmac_sha256 (encode_utf8 p)
                               (default token salt) n))) n) as (A & B & C).
  repeat split; try assumption; apply b64decode_encoded.
Qed.

(** X2. Two calls of [hash_password] that draw different random salts
    store different salt fields, whatever the passwords. *)
Theorem hash_password_distinct_salts (t1 t2 : bytes) (p1 p2 : string) (n : Z)
    (r1 r2 : gmap string json) :
  t1 <> t2 ->
  hash_password pbkdf2_hmac_sha256 t1 p1 None n = Ok r1 ->
  hash_password pbkdf2_hmac_sha256 t2 p2 None n = Ok r2 ->
  r1 !! "salt" <> r2 !! "salt".
Proof.
  intros Hne H1 H2.
  assert (Hn : 1 <= n <= INT_MAX).
  { apply (hash_password_returns pbkdf2_hmac_sha256 t1 p1 None n).
    now rewrite H1. }
  rewrite hash_password_run in H1, H2 by exact Hn.
  injection H1 as <-. injection H2 as <-.
  rewrite !lookup_insert_eq.
  intros [= E]. apply Hne. now apply b64encode_injective.
Qed.

(** X3. On a record whose salt and hash decode, and for an iteration
    count [pbkdf2_hmac] accepts, [verify_password] returns, and returns
    [True] exactly when the key derived from the given password under
    the stored salt is the stored key. *)
Theorem verify_password_exact (p salt_b64 hash_b64 : string) (n : Z)
    (salt expected : bytes) :
  b64decode salt_b64 = Ok salt ->
  b64decode hash_b64 = Ok expected ->
  1 <= n <= INT_MAX ->
  exists ok,
    verify_password pbkdf2_hmac_sha256 p salt_b64 hash_b64 n = Ok ok
    /\ (ok = true <-> pbkdf2_hmac_sha256 (encode_utf8 p) salt n = expected).
Proof.
  intros Hs Hh Hn. unfold verify_password. rewrite Hs, Hh. cbn.
  rewrite pbkdf2_hmac_ok by exact Hn. cbn.
  eexists. split; [reflexivity|]. apply compare_digest_spec.
Qed.

(** X4. [fazer_login] lets a user in only under the stripped user name,
    which is not empty, with a non-empty stripped password, and when the
    user table holds a record for that name that the password verifies
    against. *)
Theorem fazer_login_sound (users : gmap string (gmap string json))
    (username password : option string) (u : string) :
  fazer_login pbkdf2_hmac_sha256 py_int strip users username password
  = login_as u ->
  u = strip (default "" username)
  /\ u <> ""
  /\ strip (default "" password) <> ""
  /\ exists record,
       users !! u = Some record
       /\ verify_record pbkdf2_hmac_sha256 py_int
            (strip (default "" password)) record = Ok true.
Proof.
  unfold fazer_login.
  destruct (String.eqb_spec (strip (default "" username)) "") as [E|E];
    [discriminate|].
  destruct (String.eqb_spec (strip (default "" password)) "") as [E'|E'];
    [discriminate|]. cbn [orb].
  destruct (users !! strip (default "" username)) as [record|] eqn:Hu;
    [|discriminate].
  destruct (bool_decide _); [discriminate|].
  unfold fazer_login_ok.
  destruct (verify_record _ _ _ record) as [[|]|] eqn:V; try discriminate.
  intros [= <-]. repeat split; try assumption. exists record. auto.
Qed.

(** X5. A record made by [hash_password] for one password refuses every
    password whose derived key under the stored salt differs: the
    verification of [fazer_login] yields [False]. *)
Theorem fazer_login_wrong_password (token : bytes) (p1 p2 : string)
    (salt : option bytes) (n : Z) (record : gmap string json) :
  py_int (JInt n) = Ok n ->
  hash_password pbkdf2_hmac_sha256 token p1 salt n = Ok record ->
  pbkdf2_hmac_sha256 (encode_utf8 p2) (default token salt) n
  <> pbkdf2_hmac_sha256 (encode_utf8 p1) (default token salt) n ->
  fazer_login_ok pbkdf2_hmac_sha256 py_int p2 record = false.
Proof.
  intros Hint H Hne.
  assert (Hn : 1 <= n <= INT_MAX).
  { apply (hash_password_returns pbkdf2_hmac_sha256 token p1 salt n).
    now rewrite H. }
  rewrite hash_password_run in H by exact Hn. injection H as <-.
  unfold fazer_login_ok.
  match goal with
  | |- context [<["salt" := JStr ?s]> (<["hash" := JStr ?h]> _)] =>
      destruct (record_fields s h n) as (A & B & C);
      rewrite (verify_record_fields p2 s h n _ A B C Hint)
  end.
  destruct (verify_password_exact p2 _ _ n _ _
              (b64decode_encoded (default token salt))
              (b64decode_encoded
                 (pbkdf2_hmac_sha256 (encode_utf8 p1) (default token salt) n))
              Hn) as (ok & -> & Hok).
  destruct ok; [|reflexivity]. exfalso. apply Hne. now apply Hok.
Qed.

(** What [on_create] does, case by case. *)
Lemma on_create_run (token : bytes) (fault : option save_fault)
    (ut pt ct : string) (f : users_file) :
  let user := strip ut in
  let pwd := strip pt in
  on_create pbkdf2_hmac_sha256 strip token fault ut pt ct f =
  if String.eqb user "" || String.eqb pwd "" then
    (Ok (create_error "Preencha usuário e senha."), f)
  else if negb (String.eqb pwd (strip ct)) then
    (Ok (create_error "Senha e confirmação não coincidem."), f)
  else
    match load_users f !! user with
    | Some _ => (Ok (create_error "Usuário já existe. Escolha outro nome."), f)
    | None =>
        let rec :=
          <["salt" := JStr (string_of_list_byte (b64encode token))]>
            (<["hash" := JStr (string_of_list_byte
                 (b64encode (pbkdf2_hmac_sha256 (encode_utf8 pwd) token 200000)))]>
               (<["iters" := JInt 200000]> ∅)) in
        match fault with
        | None =>
            (Ok (create_info "Conta criada com sucesso. Faça login."),
             file_users (<[user := rec]> (load_users f)))
        | Some (open_fails e) =>
            (Ok (create_error ("Falha ao salvar usuário: " +:+ str_exn e)), f)
        | Some (write_fails e) =>
            (Ok (create_error ("Falha ao salvar usuário: " +:+ str_exn e)),
             file_unreadable)
        end
    end.
Proof.
  intros user pwd. unfold on_create. fold user pwd.
  destruct (_ || _); [reflexivity|].
  destruct (negb _); [reflexivity|].
  destruct (load_users f !! user); [reflexivity|].
  rewrite hash_password_run by (unfold INT_MAX; lia). cbn [default].
  destruct fault as [[e|e]|]; reflexivity.
Qed.

(** X6. An account created by [on_create] can log in: after the
    success message, [fazer_login] over the file written, with the same
    user name and password, lets the user in under the stripped name. *)
Theorem on_create_then_fazer_login (token : bytes) (fault : option save_fault)
    (ut pt ct message : string) (f f' : users_file) :
  py_int (JInt 200000) = Ok 200000 ->
  on_create pbkdf2_hmac_sha256 strip token fault ut pt ct f
  = (Ok (create_info message), f') ->
  fazer_login pbkdf2_hmac_sha256 py_int strip (load_users f')
    (Some ut) (Some pt)
  = login_as (strip ut).
Proof.
  intros Hint. rewrite on_create_run. cbv zeta.
  destruct (String.eqb_spec (strip ut) "") as [Eu|Eu]; [discriminate|].
  destruct (String.eqb_spec (strip pt) "") as [Ep|Ep]; [discriminate|].
  cbn [orb]. destruct (negb _); [discriminate|].
  destruct (load_users f !! strip ut); [discriminate|].
  destruct fault as [[e|e]|]; try discriminate.
  intros [= _ <-]. unfold fazer_login.
  change (default "" (Some ut)) with ut. change (default "" (Some pt)) with pt.
  cbn [load_users].
  destruct (String.eqb_spec (strip ut) "") as [Eu'|_]; [contradiction|].
  destruct (String.eqb_spec (strip pt) "") as [Ep'|_]; [contradiction|].
  cbn [orb]. rewrite lookup_insert_eq.
  destruct (bool_decide _) eqn:B.
  { apply bool_decide_eq_true in B. apply map_size_empty_iff in B.
    apply (f_equal (fun m => m !! "salt")) in B.
    rewrite lookup_insert_eq, lookup_empty in B. discriminate. }
  unfold fazer_login_ok.
  match goal with
  | |- context [<["salt" := JStr ?s]> (<["hash" := JStr ?h]> _)] =>
      destruct (record_fields s h 200000) as (Fs & Fh & Fi);
      rewrite (verify_record_fields (strip pt) s h 200000 _ Fs Fh Fi Hint)
  end.
  destruct (verify_password_exact (strip pt) _ _ 200000 _ _
              (b64decode_encoded token)
              (b64decode_encoded
                 (pbkdf2_hmac_sha256 (encode_utf8 (strip pt)) token 200000))
              ltac:(unfold INT_MAX; lia)) as (ok & E & Hok).
  rewrite E. destruct ok; [reflexivity|].
  destruct Hok as [_ Hok]. specialize (Hok eq_refl). discriminate.
Qed.

(** X7. Over a users.json that is absent, unreadable or holds an
    object: when [on_create] completes, it has not touched an account
    that [load_users] returned. Unless the write itself fails midway,
    every user read from the file before is in the file afterwards with
    the same record, whatever the outcome; and an error message, when
    saving was not at fault, means the file is the one before. *)
Theorem on_create_keeps_accounts (token : bytes) (fault : option save_fault)
    (ut pt ct : string) (f f' : users_file) (outcome : create_outcome) :
  on_create pbkdf2_hmac_sha256 strip token fault ut pt ct f
  = (Ok outcome, f') ->
  ((forall e, fault <> Some (write_fails e)) ->
   forall u record,
     load_users f !! u = Some record -> load_users f' !! u = Some record)
  /\ (fault = None ->
      forall message, outcome = create_error message -> f' = f).
Proof.
  rewrite on_create_run. cbv zeta.
  destruct (_ || _); [intros [= <- <-]; auto|].
  destruct (negb _); [intros [= <- <-]; auto|].
  destruct (load_users f !! strip ut) eqn:Hu; [intros [= <- <-]; auto|].
  destruct fault as [[e|e]|]; intros [= <- <-].
  - split; [auto|discriminate].
  - split; [|discriminate]. intros H. exfalso. now apply (H e).
  - split; [|discriminate].
    intros _ u record Hr. cbn [load_users].
    rewrite lookup_insert_ne; [exact Hr|]. intros <-. congruence.
Qed.

(** X8. [_on_key_down] handles Tab whatever the focus was, leaves
    exactly one of the two fields focused and the texts as they were,
    and never submits the form. *)
Theorem on_key_down_tab (form : LoginForm) (key : Z)
    (codepoint : option string) :
  key = 9 \/ codepoint = Some tab ->
  exists form',
    _on_key_down strip form key codepoint = (true, form', None)
    /\ username_focus form' = negb (password_focus form')
    /\ username_focus form' = negb (username_focus form)
    /\ username_text form' = username_text form
    /\ password_text form' = password_text form.
Proof.
  intros H. unfold _on_key_down.
  assert (E : (key =? 9) || codepoint_is codepoint tab = true).
  { destruct H as [->| ->]; [reflexivity|]. cbn. apply orb_true_r. }
  rewrite E. eexists. split; [reflexivity|].
  destruct (username_focus form), (password_focus form); repeat split.
Qed.

(** X9. On Enter the handler reports the key as handled and runs
    [fazer_login] exactly when both stripped texts are non-empty, with
    those stripped texts. The user name and the focus are left as they
    were; the password field is cleared exactly when that login ends
    with "Usuário ou senha incorretos.", and is left as it was
    otherwise. Any key other than Tab and Enter is not handled and
    changes nothing. *)
Theorem on_key_down_enter (users : gmap string (gmap string json))
    (form : LoginForm) (key : Z) (codepoint : option string) :
  key <> 9 -> codepoint <> Some tab ->
  let u := strip (username_text form) in
  let p := strip (password_text form) in
  let outcome :=
    fazer_login pbkdf2_hmac_sha256 py_int strip users (Some u) (Some p) in
  if (key =? 13) || codepoint_is codepoint carriage_return
     || codepoint_is codepoint line_feed
  then
    exists form' result,
      _on_key_down_login pbkdf2_hmac_sha256 py_int strip users form key
        codepoint = (true, form', result)
      /\ username_text form' = username_text form
      /\ username_focus form' = username_focus form
      /\ password_focus form' = password_focus form
      /\ (u <> "" /\ p <> "" ->
          result = Some outcome
          /\ password_text form'
             = if wrong_password outcome then "" else password_text form)
      /\ (u = "" \/ p = "" -> result = None /\ form' = form)
  else
    _on_key_down_login pbkdf2_hmac_sha256 py_int strip users form key codepoint
    = (false, form, None).
Proof.
  intros Hk Hc u p outcome. unfold _on_key_down_login, _on_key_down.
  fold u p.
  assert (E : (key =? 9) || codepoint_is codepoint tab = false).
  { apply orb_false_iff. split; [now apply Z.eqb_neq|].
    destruct codepoint as [c|]; [|reflexivity]. cbn.
    apply String.eqb_neq. congruence. }
  rewrite E.
  destruct (_ || _ || _); [|reflexivity].
  destruct (String.eqb_spec u "") as [Eu|Eu];
    [|destruct (String.eqb_spec p "") as [Ep|Ep]]; cbn [negb andb].
  - exists form, None. repeat split; tauto.
  - exists form, None. repeat split; tauto.
  - fold outcome. eexists _, _. split; [reflexivity|].
    destruct (wrong_password outcome); cbn; repeat split; tauto.
Qed.

End vault_more.

(* ===================================================================== *)
(** * Further properties of handle_db                                     *)
(* ===================================================================== *)

Section store_more.
Import handle_db handle_db_queries.

Variable env : Env.

(** Ids in descending order. *)
Definition descending (l : list Row) : Prop :=
  StronglySorted (fun a b => id b <= id a) l.

Lemma insert_desc_descending (r : Row) (l : list Row) :
  descending l -> descending (insert_desc r l).
Proof.
  unfold descending. induction 1 as [|x l Hl IH Hx]; cbn.
  - repeat constructor.
  - destruct (Z.ltb_spec (id x) (id r)).
    + constructor; [constructor; assumption|].
      constructor; [lia|]. eapply List.Forall_impl; [|exact Hx].
      cbn. intros; lia.
    + constructor; [exact IH|]. apply List.Forall_forall. intros y Hy.
      apply insert_desc_In in Hy as [->|Hy]; [lia|].
      rewrite List.Forall_forall in Hx. now apply Hx.
Qed.

Lemma sort_desc_descending (l : list Row) : descending (sort_desc l).
Proof.
  unfold sort_desc. induction l as [|x l IH]; cbn; [constructor|].
  now apply insert_desc_descending.
Qed.

Lemma descending_app (l1 l2 : list Row) :
  descending (l1 ++ l2) ->
  descending l1 /\ forall x y, In x l1 -> In y l2 -> id y <= id x.
Proof.
  unfold descending. induction l1 as [|a l1 IH]; cbn; intros H.
  - split; [constructor|intros ? ? []].
  - inversion H as [|? ? Hs Ha]; subst. destruct (IH Hs) as [IH1 IH2].
    rewrite List.Forall_forall in Ha. split.
    + constructor; [exact IH1|]. apply List.Forall_forall. intros y Hy.
      apply Ha. apply in_or_app. now left.
    + intros x y [<-|Hx] Hy; [|now apply IH2].
      apply Ha. apply in_or_app. now right.
Qed.

(** The records a listing for [u] is about. *)
Definition listed_for (u : option string) (r : Row) : bool :=
  match u with
  | Some x => matches r (eq_user_id x)
  | None => true
  end.

Lemma run_query_listing (k : nat) (u : option string) (tbl : list Row) :
  run_query
    (match u with
     | Some x => eq_ (eq_user_id x) (limit k (order_desc select))
     | None => limit k (order_desc select)
     end) tbl
  = take k (sort_desc (List.filter (listed_for u) tbl)).
Proof.
  destruct u as [x|]; unfold run_query; cbn.
  - f_equal. f_equal. apply filter_ext. intros r. cbn. apply andb_true_r.
  - reflexivity.
Qed.

Lemma client_or_default_ok (client : option Client) (w : World) :
  (client = None -> has_credentials env = true) ->
  client_or_default env client w = (Ok tt, w).
Proof.
  intros H. destruct client as [[]|]; [reflexivity|].
  unfold client_or_default, get_supabase_client. now rewrite H.
Qed.

(** X10. With a client, [listar_atividades] makes one request and leaves
    the table alone. When the request fails it raises and logs the
    error. Otherwise it returns at most [limit] records, all of the
    table and of the user asked for, in descending order of id, and
    they are the newest: no record of that user left out has a greater
    id than one returned. *)
Theorem listar_atividades_newest_first (k : nat) (u : option string)
    (client : option Client) (w : World) :
  (client = None -> has_credentials env = true) ->
  match fault env (requests w) with
  | Some e =>
      listar_atividades env k u client w
      = (Raise (RuntimeError ("Supabase select error: " +:+ e)),
         [ErroListarAtividades e], next_request w)
  | None =>
      exists rows,
        listar_atividades env k u client w = (Ok rows, [], next_request w)
        /\ (length rows <= k)%nat
        /\ descending rows
        /\ (forall r, In r rows -> In r (table w) /\ listed_for u r = true)
        /\ (forall r r', In r rows -> In r' (table w) -> listed_for u r' = true ->
                         ~ In r' rows -> id r' <= id r)
  end.
Proof.
  intros Hc. unfold listar_atividades.
  rewrite (client_or_default_ok client w Hc). unfold execute_select.
  destruct (fault env (requests w)) as [e|]; [reflexivity|].
  cbn [error data]. rewrite run_query_listing.
  set (sorted := sort_desc (List.filter (listed_for u) (table w))).
  exists (take k sorted). split; [reflexivity|].
  pose proof (sort_desc_descending (List.filter (listed_for u) (table w))) as Hs.
  fold sorted in Hs. rewrite <- (take_drop k sorted) in Hs.
  apply descending_app in Hs as [Hs Hsplit].
  split; [rewrite length_take; lia|]. split; [exact Hs|].
  assert (Hin : forall r, In r sorted <-> In r (table w) /\ listed_for u r = true).
  { intros r. unfold sorted. rewrite sort_desc_In. apply filter_In. }
  split.
  - intros r Hr. apply Hin. rewrite <- (take_drop k sorted).
    apply in_or_app. now left.
  - intros r r' Hr Hr' Hu Hout. apply Hsplit; [exact Hr|].
    assert (H' : In r' sorted) by (apply Hin; auto).
    rewrite <- (take_drop k sorted) in H'.
    apply in_app_or in H' as [H'|H']; [contradiction|exact H'].
Qed.

(** X11. [setup_database] raises only when no client can be made, before
    any request. Otherwise it reports the table as existing exactly when
    the first request is answered without an error and neither request
    raises; the SQL to create the table is handed back exactly when it
    does not exist; an error in the answer to the second request (the
    added columns) only adds a warning. The table is never changed. *)
Theorem setup_database_answer (raises : nat -> option exn) (w : World) :
  let n := requests w in
  if has_credentials env then
    exists status lines w',
      setup_database env raises w = (Ok status, lines, w')
      /\ table w' = table w
      /\ (exists_ status = true
          <-> raises n = None /\ fault env n = None /\ raises (S n) = None)
      /\ create_table_sql status
         = (if exists_ status then None else Some CREATE_TABLE_SQL)
      /\ (exists_ status = true ->
          (In FaltamColunas lines <-> fault env (S n) <> None))
  else
    exists e, setup_database env raises w = (Raise e, [], w).
Proof.
  cbv zeta. unfold setup_database, get_supabase_client.
  destruct (has_credentials env); [|eexists; reflexivity].
  unfold execute, execute_select. cbn.
  destruct (raises (requests w)) as [e|] eqn:R1.
  { eexists _, _, _. split; [reflexivity|]. cbn.
    repeat split; try discriminate. intros (H & _). discriminate. }
  destruct (fault env (requests w)) as [e|] eqn:F1; cbn.
  { eexists _, _, _. split; [reflexivity|]. cbn.
    repeat split; try discriminate. intros (_ & H & _). discriminate. }
  destruct (raises (S (requests w))) as [e|] eqn:R2.
  { eexists _, _, _. split; [reflexivity|]. cbn.
    repeat split; try discriminate. intros (_ & _ & H). discriminate. }
  destruct (fault env (S (requests w))) as [e|] eqn:F2; cbn;
    eexists _, _, _; (split; [reflexivity|]); cbn;
    repeat split; try discriminate; auto;
    try (intros [[=]|[]]); try (intros H; now contradiction H).
Qed.

(** X12. A session just started is the one the lookup finds: after a
    successful [iniciar_nova_atividade] over a table whose ids the
    store has already issued, [buscar_atividade_em_andamento] for the
    same user returns the new record, open, with the type, description
    and user given and the id that was returned. *)
Theorem iniciar_then_buscar (tipo descricao_ u : string) (w : World) :
  has_credentials env = true ->
  fault env (requests w) = None ->
  fault env (S (requests w)) = None ->
  Forall (fun r => id r < serial w) (table w) ->
  exists w1 w2 row,
    iniciar_nova_atividade env tipo descricao_ u None w
    = (Ok (Some (serial w)), w1)
    /\ buscar_atividade_em_andamento env (Some u) None w1 = (Ok (Some row), w2)
    /\ id row = serial w
    /\ tipo_atividade row = tipo
    /\ descricao row = Some descricao_
    /\ user_id row = Some u
    /\ fim row = None.
Proof.
  intros Hc F1 F2 Hf.
  rewrite iniciar_nova_atividade_run, Hc, F1. cbv zeta.
  set (r_new := mk_Row (serial w) tipo (Some descricao_) _ None (Some u) _ _ _ None).
  set (w1 := mk_World (table w ++ [r_new]) _ _ _ _).
  destruct (buscar_atividade_em_andamento_newest env u None w1 (fun _ => Hc) F2)
    as (found & w2 & E & _ & H).
  assert (Hnew : In r_new (table w1)) by (apply in_or_app; right; now left).
  destruct found as [row|].
  2: { exfalso. now apply (H r_new Hnew eq_refl). }
  destruct H as (Hin & Hopen & Hu & Hmax).
  exists w1, w2, row. split; [reflexivity|]. split; [exact E|].
  assert (row = r_new) as ->.
  { apply in_app_or in Hin as [Hin|[<-|[]]]; [|reflexivity].
    rewrite List.Forall_forall in Hf. specialize (Hf row Hin).
    specialize (Hmax r_new Hnew eq_refl eq_refl). cbn in Hmax. lia. }
  repeat split.
Qed.

(** When a close through a client raises, and what it leaves. *)
Lemma finalizar_atividade_failure (v : Z) (c : Client) (w : World) :
  (raised (fst (finalizar_atividade env v (Some c) w)) = true
   <-> fault env (requests w) <> None
       \/ find (fun r => id r =? v) (table w) = None
       \/ fault env (S (requests w)) <> None)
  /\ (raised (fst (finalizar_atividade env v (Some c) w)) = true ->
      table (snd (finalizar_atividade env v (Some c) w)) = table w).
Proof.
  rewrite finalizar_atividade_run, <- filter_find.
  destruct (fault env (requests w)) as [e|]; cbn.
  { split; [|reflexivity]. split; [intros _; left; discriminate|reflexivity]. }
  destruct (List.filter _ (table w)) as [|x l]; cbn.
  { split; [|reflexivity]. split; [intros _; right; now left|reflexivity]. }
  destruct (fault env (S (requests w))) as [e|]; cbn.
  { split; [|reflexivity].
    split; [intros _; right; right; discriminate|reflexivity]. }
  split; [|discriminate]. split; [discriminate|].
  intros [H|[H|H]]; [now contradiction H|discriminate|now contradiction H].
Qed.

(** X13. [finalizar_atividade] raises exactly when no client can be
    made, or the select fails, or no record has the id, or the update
    fails; and whenever it raises, the table is as it was. *)
Theorem finalizar_atividade_fails_cleanly (v : Z) (client : option Client)
    (w : World) :
  (raised (fst (finalizar_atividade env v client w)) = true
   <-> (client = None /\ has_credentials env = false)
       \/ fault env (requests w) <> None
       \/ find (fun r => id r =? v) (table w) = None
       \/ fault env (S (requests w)) <> None)
  /\ (raised (fst (finalizar_atividade env v client w)) = true ->
      table (snd (finalizar_atividade env v client w)) = table w).
Proof.
  destruct client as [c|].
  - destruct (finalizar_atividade_failure v c w) as [H1 H2]. split; [|exact H2].
    rewrite H1. split; [auto|]. intros [[? _]|H]; [discriminate|exact H].
  - rewrite finalizar_atividade_no_client.
    destruct (has_credentials env).
    + destruct (finalizar_atividade_failure v tt w) as [H1 H2].
      split; [|exact H2].
      rewrite H1. split; [auto|]. intros [[_ ?]|H]; [discriminate|exact H].
    + cbn. split; [|reflexivity]. split; [auto|reflexivity].
Qed.

Lemma filter_id_fresh (v : Z) (l : list Row) :
  Forall (fun r => id r < v) l -> List.filter (fun r => id r =? v) l = [].
Proof.
  induction 1 as [|r l Hr _ IH]; [reflexivity|]. cbn [List.filter].
  destruct (Z.eqb_spec (id r) v); [lia|exact IH].
Qed.

Lemma closed_by_fresh (v : Z) (f : datetime) (h : option Q) (l : list Row) :
  Forall (fun r => id r < v) l -> map (closed_by v f h) l = l.
Proof.
  induction 1 as [|r l Hr _ IH]; [reflexivity|]. cbn [map].
  rewrite IH. f_equal. apply closed_by_hit. lia.
Qed.

(** A start and a stop of the id returned, step by step. *)
Lemma iniciar_then_finalizar_run (tipo descricao_ u : string) (w : World) :
  has_credentials env = true ->
  fault env (requests w) = None ->
  fault env (S (requests w)) = None ->
  fault env (S (S (requests w))) = None ->
  Forall (fun r => id r < serial w) (table w) ->
  let t0 := wall_clock env (clock_reads w) in
  let t1 := wall_clock env (S (clock_reads w)) in
  exists w1 w2,
    iniciar_nova_atividade env tipo descricao_ u None w
    = (Ok (Some (serial w)), w1)
    /\ finalizar_atividade env (serial w) None w1 = (Ok true, w2)
    /\ table w2
       = table w
         ++ [mk_Row (serial w) tipo (Some descricao_) t0 (Some t1) (Some u)
               (year t0) (month t0) (day t0)
               (calcular_horas_trabalhadas t0 (Some t1))].
Proof.
  intros Hc F1 F2 F3 Hf t0 t1.
  rewrite iniciar_nova_atividade_run, Hc, F1. cbv zeta. fold t0.
  set (r_new := mk_Row (serial w) tipo (Some descricao_) t0 None (Some u) _ _ _ None).
  set (w1 := mk_World (table w ++ [r_new]) _ _ _ _).
  pose proof (filter_id_fresh (serial w) (table w) Hf) as Hold.
  pose proof (closed_by_fresh (serial w) t1
                (calcular_horas_trabalhadas t0 (Some t1)) (table w) Hf) as Hmap.
  eexists w1, _. split; [reflexivity|].
  rewrite finalizar_atividade_no_client, Hc, finalizar_atividade_run.
  cbn [requests table clock_reads w1]. rewrite F2.
  rewrite List.filter_app, Hold. cbn [List.filter app id r_new].
  rewrite Z.eqb_refl. cbv zeta. rewrite F3. fold t1.
  split; [reflexivity|]. cbn [table].
  change (inicio r_new) with t0.
  rewrite map_app, Hmap. cbn [map]. unfold closed_by. cbn [id r_new].
  rewrite Z.eqb_refl. reflexivity.
Qed.


End store_more.

(* ===================================================================== *)
(** * Further properties of the shutdown sweep                            *)
(* ===================================================================== *)

Section sweep_more.
Import handle_db.

Variable env : Env.

(** The table after some closes: the same records in the same places,
    each untouched unless it now has an end time. *)
Definition evolved (tbl tbl' : list Row) : Prop :=
  Forall2 (fun r r' => id r' = id r /\ (is_open r' = true -> r' = r)) tbl tbl'.

Lemma evolved_refl (tbl : list Row) : evolved tbl tbl.
Proof. unfold evolved. induction tbl; constructor; auto. Qed.

Lemma evolved_trans (a b c : list Row) : evolved a b -> evolved b c -> evolved a c.
Proof.
  unfold evolved. intros Hab. revert c.
  induction Hab as [|x y a b [Hid Ho] _ IH]; intros c Hbc;
    inversion Hbc as [|? z ? c' [Hid' Ho'] Hbc']; subst; constructor.
  - split; [congruence|]. intros Hz. specialize (Ho' Hz). subst z. auto.
  - now apply IH.
Qed.

Lemma evolved_closed_by (v : Z) (f : datetime) (h : option Q) (tbl : list Row) :
  evolved tbl (map (closed_by v f h) tbl).
Proof.
  unfold evolved. induction tbl as [|r tbl IH]; cbn; constructor; [|exact IH].
  destruct (closed_by_hit v f h r) as (Hid & _ & Hhit & Hmiss).
  split; [exact Hid|]. intros Ho.
  destruct (Z.eq_dec (id r) v) as [E|E]; [|now apply Hmiss].
  destruct (Hhit E) as [Hf _]. unfold is_open in Ho. rewrite Hf in Ho.
  discriminate.
Qed.

Lemma evolved_In (tbl tbl' : list Row) (r' : Row) :
  evolved tbl tbl' -> In r' tbl' ->
  exists r, In r tbl /\ id r' = id r /\ (is_open r' = true -> r' = r).
Proof.
  induction 1 as [|x y a b H _ IH]; intros Hin; [destruct Hin|].
  destruct Hin as [<-|Hin].
  - exists x. split; [now left|exact H].
  - destruct (IH Hin) as (r & Hr & Hrest). exists r. split; [now right|exact Hrest].
Qed.

Lemma evolved_In_l (tbl tbl' : list Row) (r : Row) :
  evolved tbl tbl' -> In r tbl -> exists r', In r' tbl' /\ id r' = id r.
Proof.
  induction 1 as [|x y a b [H _] _ IH]; intros Hin; [destruct Hin|].
  destruct Hin as [<-|Hin].
  - exists y. split; [now left|exact H].
  - destruct (IH Hin) as (r' & Hr & Hrest). exists r'. split; [now right|exact Hrest].
Qed.

Lemma evolved_closed (v : Z) (tbl tbl' : list Row) :
  evolved tbl tbl' -> closed v tbl -> closed v tbl'.
Proof.
  intros He Hc r' Hr' Hid.
  destruct (evolved_In tbl tbl' r' He Hr') as (r & Hr & Hidr & Ho).
  destruct (is_open r') eqn:E; [|reflexivity].
  rewrite (Ho eq_refl) in *. rewrite <- E. apply Hc; [exact Hr|exact Hid].
Qed.

(** When the store answers every request, every attempt of the loop
    succeeds. *)
Lemma finalizar_cada_all (c : Client) (ids : list Z) :
  forall (sucesso : Z) (w : World),
    (forall n, (requests w <= n)%nat -> fault env n = None) ->
    (forall v, In v ids -> exists r, In r (table w) /\ id r = v) ->
    exists w',
      finalizar_cada env ids c sucesso w
      = (Ok (sucesso + Z.of_nat (length ids)), w')
      /\ evolved (table w) (table w')
      /\ (forall v, In v ids -> closed v (table w'))
      /\ (requests w <= requests w')%nat.
Proof.
  induction ids as [|v ids IH]; intros sucesso w Hup Hids.
  - exists w. cbn. rewrite Z.add_0_r. split; [reflexivity|].
    split; [apply evolved_refl|]. split; [intros ? []|lia].
  - cbn [finalizar_cada]. unfold mbind at 1. unfold M_bind at 1.
    unfold try_except. unfold mbind at 1. unfold M_bind at 1.
    rewrite finalizar_atividade_run.
    rewrite (Hup (requests w)) by lia.
    destruct (Hids v (or_introl eq_refl)) as (r & Hr & Hid).
    destruct (List.filter (fun r => id r =? v) (table w)) as [|first rest] eqn:Hfil.
    { exfalso. assert (Hin : In r (List.filter (fun r => id r =? v) (table w))).
      { apply filter_In. split; [exact Hr|]. now apply Z.eqb_eq. }
      rewrite Hfil in Hin. destruct Hin. }
    cbv zeta. rewrite (Hup (S (requests w))) by lia.
    unfold mret, M_ret.
    set (w1 := mk_World _ _ _ _ _).
    assert (He1 : evolved (table w) (table w1)) by apply evolved_closed_by.
    assert (Hc1 : closed v (table w1)) by apply closed_by_closes.
    destruct (IH (sucesso + 1) w1) as (w' & E & He & Hcl & Hreq).
    { intros n Hn. apply Hup. cbn in Hn. lia. }
    { intros v' Hv'. destruct (Hids v' (or_intror Hv')) as (r0 & Hr0 & Hid0).
      destruct (evolved_In_l _ _ r0 He1 Hr0) as (r1 & Hr1 & Hid1).
      exists r1. split; [exact Hr1|congruence]. }
    exists w'. rewrite E. split.
    { f_equal. f_equal. cbn [length]. lia. }
    split; [eapply evolved_trans; [exact He1|exact He]|].
    split; [|cbn in Hreq; lia].
    intros v' [<-|Hv']; [|now apply Hcl].
    eapply evolved_closed; [exact He|exact Hc1].
Qed.

(** The sweep after a successful listing, in terms of its loop. *)
Lemma sweep_after_listing (client : option Client) (w w1 : World) (n : Z) :
  (client = None -> has_credentials env = true) ->
  fault env (requests w) = None ->
  finalizar_cada env (map id (List.filter is_open (table w))) tt 0
    (next_request w) = (Ok n, w1) ->
  exists w',
    finalizar_atividades_em_andamento env client w = (Ok n, w')
    /\ table w' = table w1.
Proof.
  intros Hc F E. unfold finalizar_atividades_em_andamento.
  unfold mbind at 1. unfold M_bind at 1. unfold try_except at 1.
  unfold mbind at 1. unfold M_bind at 1.
  rewrite (client_or_default_ok env client w Hc). unfold mret at 1. unfold M_ret at 1.
  cbv beta iota. unfold try_except, execute_select.
  unfold mbind at 1. unfold M_bind at 1. rewrite F.
  cbn [error data]. rewrite run_query_open.
  unfold mbind at 1. unfold M_bind at 1. rewrite E.
  eexists. split; reflexivity.
Qed.

(** X15. When the client is available and the store answers every
    request, the sweep closes every session that had no end time and
    returns how many there were; no record is open afterwards, and a
    second sweep returns 0. *)
Theorem sweep_closes_all (client : option Client) (w : World) :
  (client = None -> has_credentials env = true) ->
  (forall n, (requests w <= n)%nat -> fault env n = None) ->
  exists w' w'',
    finalizar_atividades_em_andamento env client w
    = (Ok (Z.of_nat (length (List.filter is_open (table w)))), w')
    /\ (forall r, In r (table w') -> is_open r = false)
    /\ map id (table w') = map id (table w)
    /\ finalizar_atividades_em_andamento env client w' = (Ok 0, w'').
Proof.
  intros Hc Hup.
  destruct (finalizar_cada_all tt (map id (List.filter is_open (table w))) 0
              (next_request w)) as (w1 & E & He & Hcl & Hreq).
  { intros n Hn. apply Hup. cbn in Hn. lia. }
  { intros v Hv. apply in_map_iff in Hv as (r & <- & Hr).
    apply filter_In in Hr as [Hr _]. exists r. auto. }
  rewrite length_map in E. cbn [Z.add] in E.
  destruct (sweep_after_listing client w w1 _ Hc (Hup _ (le_n _)) E)
    as (w' & Es & Ht).
  assert (Hnone : forall r, In r (table w') -> is_open r = false).
  { intros r' Hr'. rewrite Ht in Hr'. cbn [table next_request] in He.
    destruct (evolved_In _ _ r' He Hr') as (r & Hr & Hid & Ho).
    destruct (is_open r') eqn:Eo; [|reflexivity].
    rewrite (Ho eq_refl) in *. rewrite <- Eo.
    apply (Hcl (id r)); [|exact Hr'|reflexivity].
    apply in_map. apply filter_In. auto. }
  assert (Hfil : List.filter is_open (table w') = []).
  { clear -Hnone. induction (table w') as [|r l IH]; [reflexivity|].
    cbn. rewrite (Hnone r (or_introl eq_refl)). apply IH.
    intros r' Hr'. apply Hnone. now right. }
  assert (Hup' : fault env (requests w') = None).
  { apply Hup.
    assert (requests w' = requests w1) as ->.
    { revert Es. unfold finalizar_atividades_em_andamento.
      unfold mbind at 1. unfold M_bind at 1. unfold try_except at 1.
      unfold mbind at 1. unfold M_bind at 1.
      rewrite (client_or_default_ok env client w Hc).
      unfold mret at 1. unfold M_ret at 1. cbv beta iota.
      unfold try_except, execute_select.
      unfold mbind at 1. unfold M_bind at 1. rewrite (Hup _ (le_n _)).
      cbn [error data]. rewrite run_query_open.
      unfold mbind at 1. unfold M_bind at 1. rewrite length_map, E.
      intros [= <-]. reflexivity. }
    cbn in Hreq. lia. }
  destruct (sweep_after_listing client w' (next_request w') 0 Hc Hup')
    as (w'' & Es' & _).
  { rewrite Hfil. reflexivity. }
  exists w', w''. split; [exact Es|]. split; [exact Hnone|].
  split; [|exact Es'].
  rewrite Ht. cbn [table next_request] in He. clear -He.
  induction He as [|x y a b [H _] _ IH]; [reflexivity|]. cbn. now rewrite H, IH.
Qed.

(** X16. When no client can be made, or the listing request fails, the
    sweep returns 0 and the table is as it was. *)
Theorem sweep_without_listing (client : option Client) (w : World) :
  (client = None /\ has_credentials env = false)
  \/ fault env (requests w) <> None ->
  exists w',
    finalizar_atividades_em_andamento env client w = (Ok 0, w')
    /\ table w' = table w.
Proof.
  intros H. unfold finalizar_atividades_em_andamento.
  unfold mbind at 1. unfold M_bind at 1. unfold try_except at 1.
  unfold mbind at 1. unfold M_bind at 1.
  assert (Hlist : forall c w0, table w0 = table w ->
            fault env (requests w0) <> None ->
            exists w',
              try_except
                (resp ← execute_select env (is_ is_fim_None select);
                 match error resp with
                 | Some e => _ ← logger (ErroBuscarEmAndamento e); mret 0
                 | None =>
                     let ids := map id (data resp) in
                     sucesso ← finalizar_cada env ids c 0;
                     _ ← logger (LoteConcluido sucesso
                                   (Z.of_nat (length ids) - sucesso)
                                   (Z.of_nat (length ids)));
                     mret sucesso
                 end)
                (fun e => _ ← logger (ErroInesperado e); mret 0) w0
              = (Ok 0, w') /\ table w' = table w).
  { intros c w0 Ht Hf. unfold try_except, execute_select.
    unfold mbind at 1. unfold M_bind at 1.
    destruct (fault env (requests w0)) as [e|]; [|contradiction].
    eexists. split; [reflexivity|]. exact Ht. }
  destruct client as [c|].
  - destruct H as [[? _]|H]; [discriminate|].
    unfold client_or_default. unfold mret at 1. unfold M_ret at 1.
    cbv beta iota. unfold mret at 1. unfold M_ret at 1. cbv beta iota.
    now apply Hlist.
  - unfold client_or_default, get_supabase_client.
    destruct (has_credentials env).
    + destruct H as [[_ ?]|H]; [discriminate|].
      unfold mret at 1. unfold M_ret at 1.
      cbv beta iota. unfold mret at 1. unfold M_ret at 1. cbv beta iota.
      now apply Hlist.
    + eexists. split; reflexivity.
Qed.

End sweep_more.

(* ===================================================================== *)
(** * Further properties of the main screen                               *)
(* ===================================================================== *)

Section screen_more.
Import handle_db GUI_principal GUI_principal_lifecycle.

Variable env : Env.
Variable app_user_id : string.

(** ** A stop the store refuses *)

(** X17. When a session is held and the close fails (no client can be
    made, a request fails, or no record has the id), [acao_finalizar]
    only opens an error popup: the session stays held, Finalizar stays
    as it was, and the table is not changed. *)
Theorem acao_finalizar_store_error (s : MainScreen) (w : World) :
  truthy_int (current_activity_id s) = true ->
  has_credentials env = false
  \/ fault env (requests w) <> None
  \/ find (fun r => id r =? default 0 (current_activity_id s)) (table w) = None
  \/ fault env (S (requests w)) <> None ->
  exists message w',
    acao_finalizar env s w = (show_error message s, w')
    /\ table w' = table w
    /\ current_activity_id (show_error message s) = current_activity_id s
    /\ selected_activity_type (show_error message s) = selected_activity_type s
    /\ status_label (show_error message s) = status_label s
    /\ active_box_shown (show_error message s) = active_box_shown s
    /\ start_button_disabled (show_error message s) = start_button_disabled s
    /\ end_button_disabled (show_error message s) = end_button_disabled s.
Proof.
  intros T H. unfold acao_finalizar. rewrite T. cbn [negb].
  rewrite finalizar_atividade_no_client.
  destruct (has_credentials env) eqn:Hc.
  - destruct (finalizar_atividade_failure env
                (default 0 (current_activity_id s)) tt w) as [Hiff Htab].
    assert (R : raised (fst (finalizar_atividade env
                  (default 0 (current_activity_id s)) (Some tt) w)) = true).
    { apply Hiff. destruct H as [H|[H|[H|H]]]; auto; discriminate. }
    specialize (Htab R). unfold Client in R, Htab.
    destruct (finalizar_atividade env (default 0 (current_activity_id s))
                (Some tt) w) as [[b|e] w'];
      cbn [fst snd raised] in R, Htab; [discriminate|].
    eexists _, _. split; [reflexivity|]. repeat split. exact Htab.
  - eexists _, _. split; [reflexivity|]. repeat split.
Qed.

(** ** The selection while a session is in progress *)

(** Every button the screen holds as the selected one is down. *)
Definition selection_down (s : MainScreen) : Prop :=
  forall b, In b (activity_buttons s) ->
    is_button (selected_button s) (text b) = true -> down b = true.

Lemma show_active_box_buttons (t : option string) (s : MainScreen) :
  activity_buttons (_show_active_box t s) = activity_buttons s
  /\ selected_button (_show_active_box t s) = selected_button s.
Proof. unfold _show_active_box. destruct (truthy_str t); split; reflexivity. Qed.

Lemma in_progress_locked (inst : string) (s : MainScreen) :
  selection_down s ->
  press_toggle inst (_set_state_em_andamento true s)
  = _set_state_em_andamento true s.
Proof.
  intros Hsel. unfold press_toggle.
  replace (existsb _ (activity_buttons (_set_state_em_andamento true s)))
    with false; [reflexivity|].
  symmetry. apply Bool.not_true_iff_false. intros H.
  apply existsb_exists in H as (b' & Hin & Hb).
  cbn [_set_state_em_andamento activity_buttons set_activity_buttons
       set_controls selected_button] in Hin.
  apply in_map_iff in Hin as (b & <- & Hin).
  cbn [with_disabled text disabled down andb] in Hb.
  destruct (is_button (selected_button s) (text b)) eqn:I.
  - rewrite (Hsel b Hin I) in Hb. cbn in Hb.
    now rewrite andb_false_r in Hb.
  - cbn in Hb. now rewrite andb_false_r in Hb.
Qed.

(** X18. After a start that went through, a press on any activity button
    changes nothing: the buttons other than the selected one are
    disabled, and the selected one is already down. *)
Theorem selection_locked_after_start (s : MainScreen) (w : World)
    (inst : string) :
  selection_down s ->
  truthy_str (selected_activity_type s) = true ->
  has_credentials env = true ->
  fault env (requests w) = None ->
  press_toggle inst (fst (acao_iniciar env app_user_id s w))
  = fst (acao_iniciar env app_user_id s w).
Proof.
  intros Hsel T Hc F. unfold acao_iniciar. rewrite T. cbn [negb].
  rewrite iniciar_nova_atividade_run, Hc, F. cbn [fst].
  apply in_progress_locked.
  intros b Hin I.
  match type of Hin with
  | In _ (activity_buttons (_show_active_box ?t ?s0)) =>
      destruct (show_active_box_buttons t s0) as [Hb Hs]
  end.
  rewrite Hb in Hin. rewrite Hs in I. now apply (Hsel b).
Qed.

(** ** The minutes at which a worker starts *)

Lemma two_digits_targets (h m : Z) :
  0 <= h < 24 -> 0 <= m < 60 ->
  existsb (String.eqb (two_digits h +:+ ":" +:+ two_digits m)) targets
  = ((h =? 11) && (m =? 28)) || ((h =? 16) && (m =? 10)).
Proof.
  intros Hh Hm.
  assert (A : forallb (fun h =>
                forallb (fun m =>
                  Bool.eqb
                    (existsb (String.eqb (two_digits h +:+ ":" +:+ two_digits m))
                       targets)
                    (((h =? 11) && (m =? 28)) || ((h =? 16) && (m =? 10))))
                  (map Z.of_nat (seq 0 60)))
                (map Z.of_nat (seq 0 24)) = true)
    by (vm_compute; reflexivity).
  rewrite forallb_forall in A.
  assert (Ih : In h (map Z.of_nat (seq 0 24))).
  { apply in_map_iff. exists (Z.to_nat h). split; [lia|]. apply in_seq. lia. }
  specialize (A h Ih). cbn beta in A. rewrite forallb_forall in A.
  assert (Im : In m (map Z.of_nat (seq 0 60))).
  { apply in_map_iff. exists (Z.to_nat m). split; [lia|]. apply in_seq. lia. }
  specialize (A m Im). now apply Bool.eqb_prop in A.
Qed.

(** X19. A tick starts a worker exactly when the clock reads 11:28 or
    16:10, that checkpoint has not fired on this date, and a session is
    held; the worker is given the session the screen holds, and the tick
    itself changes nothing in the table. *)
Theorem auto_finalize_check_starts_worker (s : MainScreen) (w : World) :
  let now_ := wall_clock env (clock_reads w) in
  0 <= hour now_ < 24 -> 0 <= minute now_ < 60 ->
  let j := snd (fst (_auto_finalize_check env s w)) in
  (j <> None
   <-> ((hour now_ = 11 /\ minute now_ = 28)
        \/ (hour now_ = 16 /\ minute now_ = 10))
       /\ last_date_get s (strftime_HM now_) <> Some (date_of now_)
       /\ truthy_int (current_activity_id s) = true)
  /\ (forall job, j = Some job ->
        current_activity_id s = Some (act_id job)
        /\ time_str job = strftime_HM now_
        /\ fired_on job = date_of now_)
  /\ table (snd (_auto_finalize_check env s w)) = table w.
Proof.
  intros now_ Hh Hm j.
  pose proof (two_digits_targets (hour now_) (minute now_) Hh Hm) as TT.
  fold (strftime_HM now_) in TT.
  assert (Hck : existsb (String.eqb (strftime_HM now_)) targets = true
                <-> (hour now_ = 11 /\ minute now_ = 28)
                    \/ (hour now_ = 16 /\ minute now_ = 10)).
  { rewrite TT, orb_true_iff, !andb_true_iff, !Z.eqb_eq. reflexivity. }
  subst j. unfold _auto_finalize_check, now.
  fold now_.
  destruct (existsb (String.eqb (strftime_HM now_)) targets) eqn:T.
  - destruct (bool_decide (last_date_get s (strftime_HM now_)
                           = Some (date_of now_))) eqn:B; cbn [andb negb].
    + apply bool_decide_eq_true in B. cbn [fst snd table].
      split; [|split; [discriminate|reflexivity]].
      split; [intros H; now contradiction H|].
      intros (_ & H & _). now contradiction H.
    + apply bool_decide_eq_false in B.
      change (current_activity_id (set_auto_finalize_last_date
                (<[strftime_HM now_ := Some (date_of now_)]>
                   (_auto_finalize_last_date s)) s))
        with (current_activity_id s).
      destruct (truthy_int (current_activity_id s)) eqn:C; cbn [fst snd table].
      * split; [|split; [|reflexivity]].
        -- split; [intros _|discriminate].
           split; [now apply Hck|]. split; [exact B|reflexivity].
        -- intros job [= <-]. cbn. split; [|split; reflexivity].
           destruct (current_activity_id s); [reflexivity|discriminate].
      * split; [|split; [discriminate|reflexivity]].
        split; [intros H; now contradiction H|].
        intros (_ & _ & H). discriminate.
  - cbn [andb fst snd table].
    split; [|split; [discriminate|reflexivity]].
    split; [intros H; now contradiction H|].
    intros (H & _). apply Hck in H. discriminate.
Qed.

(** ** The scheduler's interval *)

Lemma filter_keeps {A} (f : A -> bool) (l : list A) :
  Forall (fun x => f x = true) l -> List.filter f l = l.
Proof.
  induction 1 as [|x l Hx _ IH]; cbn; [reflexivity|].
  now rewrite Hx, IH.
Qed.

(** What the visits keep true of the screen's ticker: the intervals are
    those of [base] and the one the screen holds, whose handle is newer
    than every one of [base]. *)
Definition ticker_inv (base : list nat) (t : Ticker) : Prop :=
  intervals (clock t) = base ++ option_list (_auto_finalize_event t)
  /\ Forall (fun h => (h < next_handle (clock t))%nat) (intervals (clock t))
  /\ (forall h, _auto_finalize_event t = Some h ->
        Forall (fun x => (x < h)%nat) base).

Lemma visit_ticker_inv (base : list nat) (t : Ticker) (v : Visit) :
  ticker_inv base t ->
  ticker_inv base (visit t v)
  /\ (is_Some (_auto_finalize_event (visit t v)) <-> v = enter).
Proof.
  intros (Hi & Hn & Hb).
  destruct v;
    unfold visit, on_pre_enter, on_leave, start_auto_finalizer,
      stop_auto_finalizer;
    destruct (_auto_finalize_event t) as [h|] eqn:E; cbv beta iota zeta.
  - split; [|rewrite E; split; [reflexivity|intros _; now exists h]].
    unfold ticker_inv. rewrite E. auto.
  - cbn [option_list] in Hi. rewrite app_nil_r in Hi.
    split; [|cbn; split; [reflexivity|intros _; eauto]].
    unfold ticker_inv. cbn [intervals clock _auto_finalize_event next_handle].
    split; [now rewrite Hi|]. split.
    + apply Forall_app. split.
      * eapply List.Forall_impl; [|exact Hn]. cbn. intros; lia.
      * repeat constructor.
    + intros h' [= <-]. now rewrite <- Hi.
  - split.
    + unfold ticker_inv. cbn [intervals clock _auto_finalize_event next_handle].
      rewrite Hi. change (option_list (Some h)) with [h].
      rewrite List.filter_app. cbn [List.filter]. rewrite Nat.eqb_refl.
      cbn [negb option_list].
      assert (Hk : List.filter (fun x => negb (x =? h)%nat) base = base).
      { apply filter_keeps. eapply List.Forall_impl; [|exact (Hb h eq_refl)].
        cbn. intros x Hx. apply negb_true_iff, Nat.eqb_neq. lia. }
      rewrite Hk. split; [reflexivity|]. split; [|discriminate].
      rewrite app_nil_r. rewrite Hi in Hn. apply Forall_app in Hn. tauto.
    + cbn. split; [intros [x [=]]|discriminate].
  - split; [|rewrite E; split; [intros [x [=]]|discriminate]].
    unfold ticker_inv. rewrite E. auto.
Qed.

Lemma visits_ticker_inv (base : list nat) (visits : list Visit) (t : Ticker) :
  ticker_inv base t ->
  ticker_inv base (fold_left visit visits t).
Proof.
  revert t. induction visits as [|v visits IH]; intros t H; cbn; [exact H|].
  apply IH. now apply visit_ticker_inv.
Qed.

(** X20. However the screen is entered and left, the clock holds the
    intervals it had before and at most one of the screen's own: the one
    whose handle is in [_auto_finalize_event], which is set exactly when
    the last visit was an entry. *)
Theorem auto_finalizer_one_interval (visits : list Visit) (c0 : ClockState) :
  Forall (fun h => (h < next_handle c0)%nat) (intervals c0) ->
  let t := fold_left visit visits (mk_Ticker None c0) in
  intervals (clock t) = intervals c0 ++ option_list (_auto_finalize_event t)
  /\ (is_Some (_auto_finalize_event t) <-> last visits = Some enter).
Proof.
  intros H0 t.
  assert (I0 : ticker_inv (intervals c0) (mk_Ticker None c0)).
  { unfold ticker_inv. cbn. rewrite app_nil_r. split; [reflexivity|].
    split; [exact H0|discriminate]. }
  split; [now apply visits_ticker_inv|].
  subst t. destruct visits as [|v visits] using rev_ind.
  - cbn. split; [intros [x [=]]|discriminate].
  - rewrite fold_left_app, last_snoc. cbn [fold_left].
    destruct (visit_ticker_inv (intervals c0)
                (fold_left visit visits (mk_Ticker None c0)) v
                (visits_ticker_inv _ visits _ I0)) as [_ Hv].
    rewrite Hv. split; [now intros ->|now intros [= ->]].
Qed.

(** ** Building the grid and resuming *)

(** X21. When the lookup finds an open session whose type is one of the
    grid's, [carregar_atividades] builds the ten buttons with that one
    down, coloured as selected and enabled, and every other one up and
    disabled; the screen holds the session, Iniciar is disabled and
    Finalizar enabled. *)
Theorem carregar_atividades_resumes (s : MainScreen) (w w' : World)
    (row : Row) :
  buscar_atividade_em_andamento env (Some app_user_id) None w
  = (Ok (Some row), w') ->
  In (tipo_atividade row) activity_types ->
  let s' := fst (carregar_atividades env app_user_id s w) in
  activity_buttons s'
  = map (fun t => if String.eqb t (tipo_atividade row)
                  then mk_ToggleButton t true false SELECTED_COLOR
                  else mk_ToggleButton t false true NORMAL_COLOR)
      activity_types
  /\ current_activity_id s' = Some (id row)
  /\ selected_activity_type s' = Some (tipo_atividade row)
  /\ selected_button s' = Some (tipo_atividade row)
  /\ descricao_text s' = default "" (descricao row)
  /\ status_label s' = "Continuando: " +:+ tipo_atividade row
  /\ active_box_shown s' = true
  /\ start_button_disabled s' = true
  /\ end_button_disabled s' = false.
Proof.
  intros E Hin s'. subst s'.
  unfold carregar_atividades, verificar_atividade_em_andamento.
  rewrite E. cbn [fst].
  unfold activity_types in Hin |- *.
  repeat (destruct Hin as [<-|Hin];
          [vm_compute; repeat split; reflexivity|]).
  destruct Hin.
Qed.

(** X22. When the lookup finds nothing or fails, [carregar_atividades]
    leaves the ten buttons up and enabled, Iniciar enabled and Finalizar
    disabled; it does not clear what the screen held before. *)
Theorem carregar_atividades_nothing_to_resume (s : MainScreen) (w : World) :
  (forall row,
     fst (buscar_atividade_em_andamento env (Some app_user_id) None w)
     <> Ok (Some row)) ->
  let s' := fst (carregar_atividades env app_user_id s w) in
  activity_buttons s' = map new_button activity_types
  /\ start_button_disabled s' = false
  /\ end_button_disabled s' = true
  /\ descricao_text_disabled s' = false
  /\ current_activity_id s' = current_activity_id s
  /\ selected_activity_type s' = selected_activity_type s
  /\ selected_button s' = selected_button s
  /\ popups s' = popups s.
Proof.
  intros H s'. subst s'.
  unfold carregar_atividades, verificar_atividade_em_andamento.
  destruct (buscar_atividade_em_andamento env (Some app_user_id) None w)
    as [[[row|]|e] w'].
  - now contradiction (H row).
  - cbn. repeat split.
  - cbn. repeat split.
Qed.

(** ** Back to idle *)

(** The screen with no session: nothing held or selected, the
    description empty and editable, Iniciar enabled, Finalizar disabled,
    the active box hidden and every activity button enabled. *)
Definition idle (s : MainScreen) : Prop :=
  current_activity_id s = None
  /\ selected_activity_type s = None
  /\ selected_button s = None
  /\ descricao_text s = EmptyString
  /\ descricao_text_disabled s = false
  /\ status_label s = "Pronto para começar."
  /\ active_box_shown s = false
  /\ start_button_disabled s = false
  /\ end_button_disabled s = true
  /\ Forall (fun b => disabled b = false) (activity_buttons s).

Lemma set_state_popups (inst : string) (d : bool) (s : MainScreen) :
  popups (set_state inst d s) = popups s.
Proof.
  unfold set_state. destruct (existsb _ _); [|reflexivity].
  unfold on_activity_toggled. destruct d; [reflexivity|].
  destruct (is_button _ _); reflexivity.
Qed.

Lemma reset_local_idle (s : MainScreen) :
  idle (reset_local s)
  /\ popups (reset_local s) = popups s
  /\ _auto_finalize_last_date (reset_local s) = _auto_finalize_last_date s.
Proof.
  assert (Hb : forall s0 : MainScreen,
             Forall (fun b => disabled b = false)
               (map (fun b => with_disabled
                       (false && negb (is_button (selected_button s0) (text b))) b)
                  (activity_buttons s0))).
  { intros s0. apply List.Forall_forall. intros b' Hin.
    apply in_map_iff in Hin as (b & <- & _). reflexivity. }
  unfold reset_local, idle.
  cbn [selected_button set_current_activity_id].
  destruct (selected_button s) as [inst|] eqn:E.
  - pose proof (set_state_session inst false (set_current_activity_id None s)) as H.
    pose proof (f_equal (fun p => fst (fst p)) H) as H1.
    pose proof (f_equal (fun p => snd (fst p)) H) as H2.
    cbn [session_state fst snd] in H1, H2.
    pose proof (set_state_popups inst false (set_current_activity_id None s)) as P.
    cbn in H1, H2, P.
    cbn; repeat split; try assumption; apply Hb.
  - cbn. rewrite E. repeat split. apply Hb.
Qed.

(** X23. A start and then a stop through the two buttons, with the store
    answering, bring the screen back to idle with one success popup, and
    leave in the table one more record, closed, of the type selected and
    for the user logged in. *)
Theorem acao_iniciar_then_acao_finalizar (s : MainScreen) (w : World) :
  truthy_str (selected_activity_type s) = true ->
  has_credentials env = true ->
  fault env (requests w) = None ->
  fault env (S (requests w)) = None ->
  fault env (S (S (requests w))) = None ->
  serial w <> 0 ->
  Forall (fun r => id r < serial w) (table w) ->
  let s1 := fst (acao_iniciar env app_user_id s w) in
  let w1 := snd (acao_iniciar env app_user_id s w) in
  let s2 := fst (acao_finalizar env s1 w1) in
  let w2 := snd (acao_finalizar env s1 w1) in
  idle s2
  /\ popups s2 = popups s ++ [Sucesso "Atividade finalizada com sucesso."]
  /\ exists row,
       table w2 = table w ++ [row]
       /\ id row = serial w
       /\ tipo_atividade row = default EmptyString (selected_activity_type s)
       /\ user_id row = Some app_user_id
       /\ inicio row = wall_clock env (clock_reads w)
       /\ fim row = Some (wall_clock env (S (clock_reads w))).
Proof.
  intros T Hc F1 F2 F3 Hs Hf s1 w1 s2 w2.
  destruct (iniciar_then_finalizar_run env
              (default EmptyString (selected_activity_type s)) (descricao_text s)
              app_user_id w Hc F1 F2 F3 Hf)
    as (w1' & w2' & E1 & E2 & Ht).
  assert (A : acao_iniciar env app_user_id s w
              = (_set_state_em_andamento true
                   (_show_active_box (selected_activity_type s)
                      (set_status_label
                         ("Em andamento: "
                          +:+ default EmptyString (selected_activity_type s))
                         (set_current_activity_id (Some (serial w)) s))),
                 w1')).
  { unfold acao_iniciar. rewrite T. cbn [negb]. rewrite E1. reflexivity. }
  assert (C1 : current_activity_id s1 = Some (serial w)).
  { subst s1. rewrite A. cbn [fst].
    match goal with
    | |- context [_show_active_box ?t ?s0] =>
        pose proof (show_active_box_session t s0) as H
    end.
    apply (f_equal (fun p => fst (fst p))) in H. cbn [session_state fst] in H.
    cbn. exact H. }
  assert (P1 : popups s1 = popups s).
  { subst s1. rewrite A. cbn [fst]. unfold _show_active_box.
    destruct (truthy_str _); reflexivity. }
  assert (W1 : w1 = w1') by (subst w1; now rewrite A).
  assert (B : acao_finalizar env s1 w1
              = (reset_local
                   (show_success "Atividade finalizada com sucesso." s1), w2')).
  { unfold acao_finalizar. rewrite C1, W1.
    change (default 0 (Some (serial w))) with (serial w). cbn [truthy_int].
    destruct (Z.eqb_spec (serial w) 0) as [H0|_]; [contradiction|].
    cbn [negb]. rewrite E2. reflexivity. }
  subst s2 w2. rewrite B. cbn [fst snd].
  destruct (reset_local_idle
              (show_success "Atividade finalizada com sucesso." s1))
    as (Hidle & Hp & _).
  split; [exact Hidle|]. split.
  - rewrite Hp. cbn. now rewrite P1.
  - eexists. split; [exact Ht|]. repeat split.
Qed.

(** X24. At a checkpoint not yet fired today, with a session held, no
    thread or callback waiting and the store answering, a tick followed
    by its worker and its callback closes the session in the store,
    brings the screen back to idle with a popup naming the checkpoint,
    and records the date for that checkpoint. *)
Theorem auto_finalize_closes_session (x : System) (v : Z) (first : Row) :
  let now_ := wall_clock env (clock_reads (world x)) in
  let hhmm := strftime_HM now_ in
  let fim_ := wall_clock env (S (clock_reads (world x))) in
  let horas := calcular_horas_trabalhadas (inicio first) (Some fim_) in
  threads x = [] -> scheduled x = [] ->
  In hhmm targets ->
  last_date_get (screen x) hhmm <> Some (date_of now_) ->
  current_activity_id (screen x) = Some v -> v <> 0 ->
  has_credentials env = true ->
  fault env (requests (world x)) = None ->
  fault env (S (requests (world x))) = None ->
  find (fun r => id r =? v) (table (world x)) = Some first ->
  let x' := perform env app_user_id op_auto_finalize x in
  idle (screen x')
  /\ threads x' = [] /\ scheduled x' = []
  /\ popups (screen x')
     = popups (screen x)
       ++ [Sucesso ("Atividade finalizada automaticamente às " +:+ hhmm +:+ ".")]
  /\ table (world x') = map (closed_by v fim_ horas) (table (world x))
  /\ last_date_get (screen x') hhmm = Some (date_of now_).
Proof.
  intros now_ hhmm fim_ horas Ht Hs Hin Hlast Hcur Hv Hc F1 F2 Hfind x'.
  set (s1 := set_auto_finalize_last_date
               (<[hhmm := Some (date_of now_)]>
                  (_auto_finalize_last_date (screen x))) (screen x)).
  set (w1 := mk_World (table (world x)) (serial (world x)) (requests (world x))
               (S (clock_reads (world x))) (log (world x))).
  set (job := mk_Job v hhmm (date_of now_)).
  assert (E1 : _auto_finalize_check env (screen x) (world x)
               = (s1, Some job, w1)).
  { unfold _auto_finalize_check, now. fold now_. fold hhmm.
    assert (T : existsb (String.eqb hhmm) targets = true).
    { apply existsb_exists. exists hhmm. split; [exact Hin|apply String.eqb_refl]. }
    rewrite T. rewrite (bool_decide_eq_false_2 _ Hlast). cbn [andb negb].
    fold s1. change (current_activity_id s1) with (current_activity_id (screen x)).
    rewrite Hcur. change (default 0 (Some v)) with v. cbn [truthy_int].
    destruct (Z.eqb_spec v 0) as [H0|_]; [contradiction|]. reflexivity. }
  set (w2 := mk_World (map (closed_by v fim_ horas) (table (world x)))
               (serial (world x)) (S (S (requests (world x))))
               (S (S (clock_reads (world x))))
               (log (world x) ++ [AtividadeFinalizada v horas])).
  assert (E2 : worker_finalize env job w1
               = (call_on_auto_finalized_success hhmm, w2)).
  { unfold worker_finalize. cbn [act_id job time_str].
    rewrite finalizar_atividade_no_client, Hc, finalizar_atividade_run.
    cbn [requests table clock_reads serial log w1]. rewrite F1.
    rewrite <- filter_find in Hfind.
    destruct (List.filter (fun r => id r =? v) (table (world x)))
      as [|first' rest]; [discriminate|].
    cbn [hd_error] in Hfind. injection Hfind as ->.
    cbv zeta. rewrite F2. reflexivity. }
  assert (R : x' = mk_System
                     (_on_auto_finalized_success hhmm s1) w2 [] []).
  { subst x'. unfold perform. cbn [actions_of run]. unfold step at 1.
    rewrite E1, Ht. cbn [app].
    change (option_list (Some job)) with [job].
    unfold step at 1. cbn [threads world screen scheduled].
    change ([job] !! 0%nat) with (Some job). cbv iota beta.
    rewrite E2, Hs. cbv iota beta zeta. cbn [app].
    unfold step. cbn [scheduled run_callback screen world threads].
    reflexivity. }
  rewrite R. cbn [screen threads scheduled world table].
  unfold _on_auto_finalized_success.
  destruct (reset_local_idle
              (show_success
                 ("Atividade finalizada automaticamente às " +:+ hhmm +:+ ".") s1))
    as (Hidle & Hp & Hd).
  split; [exact Hidle|]. split; [reflexivity|]. split; [reflexivity|].
  split; [rewrite Hp; reflexivity|]. split; [reflexivity|].
  unfold last_date_get. rewrite Hd. cbn [show_success open_popup
    _auto_finalize_last_date s1 set_auto_finalize_last_date].
  now rewrite lookup_insert_eq.
Qed.


(** ** Choosing an activity *)

(** What a press can see of a button: its text, whether it is down and
    whether it is disabled. *)
Definition face (b : ToggleButton) : string * bool * bool :=
  (text b, down b, disabled b).

Definition faces (s : MainScreen) : list (string * bool * bool) :=
  map face (activity_buttons s).

Lemma set_state_faces (t : string) (d : bool) (s : MainScreen) :
  faces (set_state t d s)
  = map (fun '(x, dn, dis) => (x, if String.eqb x t then d else dn, dis))
      (faces s).
Proof.
  unfold faces, set_state. rewrite map_map.
  destruct (existsb _ (activity_buttons s)) eqn:Ex.
  - assert (H : activity_buttons
                  (on_activity_toggled t d t (update_button t (with_down d) s))
                = map (fun b => if String.eqb (text b) t
                                then with_color
                                       (if d then SELECTED_COLOR else NORMAL_COLOR)
                                       (with_down d b)
                                else b)
                    (activity_buttons s)).
    { unfold on_activity_toggled. destruct d.
      - cbn. rewrite map_map. apply map_ext. intros b.
        destruct (String.eqb (text b) t) eqn:E; cbn; now rewrite E.
      - match goal with
        | |- context [if ?c then _ else _] => destruct c
        end; cbn; rewrite map_map; apply map_ext; intros b;
          destruct (String.eqb (text b) t) eqn:E; cbn; now rewrite E. }
    rewrite H, map_map. apply map_ext. intros b. unfold face.
    destruct (String.eqb (text b) t); reflexivity.
  - apply map_ext_in. intros b Hin. unfold face.
    destruct (String.eqb (text b) t) eqn:E; [|reflexivity].
    assert (Hb : String.eqb (text b) t && negb (Bool.eqb (down b) d) = false).
    { destruct (String.eqb (text b) t && negb (Bool.eqb (down b) d)) eqn:C;
        [|reflexivity].
      rewrite <- Ex. symmetry. apply existsb_exists. now exists b. }
    rewrite E in Hb. cbn in Hb. apply negb_false_iff, Bool.eqb_prop in Hb.
    now rewrite Hb.
Qed.

Lemma set_state_selection (t : string) (d : bool) (s : MainScreen) :
  existsb (fun b => String.eqb (text b) t && negb (Bool.eqb (down b) d))
    (activity_buttons s) = true ->
  d = true ->
  selected_button (set_state t d s) = Some t
  /\ selected_activity_type (set_state t d s) = Some t
  /\ selected_activity_label (set_state t d s) = "Selecionado: " +:+ t.
Proof.
  intros Ex ->. unfold set_state. rewrite Ex. repeat split.
Qed.

(** The buttons after the group has released every button of [l] but
    [inst]. *)
Lemma release_others_faces (inst : string) (l : list ToggleButton)
    (s : MainScreen) :
  faces (fold_left (fun s b => if String.eqb (text b) inst then s
                               else set_state (text b) false s) l s)
  = map (fun '(x, dn, dis) =>
           (x, if negb (String.eqb x inst)
                  && existsb (fun b => String.eqb x (text b)) l
               then false else dn, dis))
      (faces s).
Proof.
  revert s. induction l as [|c l IH]; intros s; cbn [fold_left existsb].
  - rewrite <- (map_id (faces s)) at 1. apply map_ext.
    intros [[x dn] dis]. now rewrite andb_false_r.
  - rewrite IH. destruct (String.eqb_spec (text c) inst) as [E|E].
    + apply map_ext. intros [[x dn] dis].
      destruct (String.eqb_spec x inst) as [->|N]; [reflexivity|].
      cbn [negb andb]. destruct (String.eqb_spec x (text c)) as [->|_];
        [contradiction|reflexivity].
    + rewrite set_state_faces, map_map. apply map_ext. intros [[x dn] dis].
      destruct (String.eqb_spec x (text c)) as [->|N].
      * destruct (String.eqb_spec (text c) inst) as [|_]; [contradiction|].
        cbn [negb andb orb].
        now destruct (existsb _ l).
      * reflexivity.
Qed.

(** X25. A press on an activity button that is enabled and up makes it
    the selection: the screen holds its text as the selected button and
    the selected type, the label names it, and the buttons with that
    text are the only ones down; no button is enabled or disabled by
    the press. *)
Theorem press_toggle_selects (inst : string) (s : MainScreen) :
  existsb (fun b => String.eqb (text b) inst && negb (disabled b) && negb (down b))
    (activity_buttons s) = true ->
  let s' := press_toggle inst s in
  selected_button s' = Some inst
  /\ selected_activity_type s' = Some inst
  /\ selected_activity_label s' = "Selecionado: " +:+ inst
  /\ map (fun b => (text b, down b, disabled b)) (activity_buttons s')
     = map (fun b => (text b, String.eqb (text b) inst, disabled b))
         (activity_buttons s)
  /\ selection_down s'.
Proof.
  intros Ex s'. subst s'. unfold press_toggle. rewrite Ex.
  set (s1 := fold_left _ (activity_buttons s) s).
  assert (F1 : faces s1
               = map (fun b => (text b,
                                if String.eqb (text b) inst then down b else false,
                                disabled b))
                   (activity_buttons s)).
  { subst s1. rewrite release_others_faces. unfold faces. rewrite map_map.
    apply map_ext_in. intros b Hin. unfold face.
    destruct (String.eqb (text b) inst); [reflexivity|]. cbn [negb andb].
    replace (existsb _ (activity_buttons s)) with true; [reflexivity|].
    symmetry. apply existsb_exists. exists b. split; [exact Hin|].
    apply String.eqb_refl. }
  assert (Ex1 : existsb (fun b => String.eqb (text b) inst
                                  && negb (Bool.eqb (down b) true))
                  (activity_buttons s1) = true).
  { apply existsb_exists in Ex as (b & Hin & Hb).
    apply andb_true_iff in Hb as [Hb Hdn]. apply andb_true_iff in Hb as [Ht _].
    apply negb_true_iff in Hdn.
    assert (Hf : In (text b, down b, disabled b) (faces s1)).
    { rewrite F1. apply in_map_iff. exists b. now rewrite Ht. }
    unfold faces in Hf. apply in_map_iff in Hf as (b1 & Hb1 & Hin1).
    apply existsb_exists. exists b1. split; [exact Hin1|].
    unfold face in Hb1. injection Hb1 as H1 H2 H3.
    now rewrite H1, H2, Ht, Hdn. }
  destruct (set_state_selection inst true s1 Ex1 eq_refl) as (S1 & S2 & S3).
  assert (F2 : faces (set_state inst true s1)
               = map (fun b => (text b, String.eqb (text b) inst, disabled b))
                   (activity_buttons s)).
  { rewrite set_state_faces, F1, map_map. apply map_ext. intros b.
    now destruct (String.eqb (text b) inst). }
  repeat split; try assumption.
  intros b' Hin I. rewrite S1 in I. cbn [is_button] in I.
  assert (Hf : In (face b') (faces (set_state inst true s1)))
    by (apply in_map; exact Hin).
  rewrite F2 in Hf. apply in_map_iff in Hf as (b & Hb & _).
  unfold face in Hb. injection Hb as H1 H2 H3.
  rewrite <- H2, H1. now rewrite String.eqb_sym.
Qed.


End screen_more.

(* ===================================================================== *)
(** * Further scenarios                                                   *)
(* ===================================================================== *)

Section more_scenarios.
Import base64 GUI_login GUI_login_accounts handle_db handle_db_queries
  GUI_principal GUI_principal_lifecycle.

(** The salt drawn at the creation of Ana's account, and another one. *)
Definition ana_token : bytes := encode_utf8 "0123456789abcdef".
Definition other_token : bytes := encode_utf8 "fedcba9876543210".

(** The record [hash_password] makes, or the empty one if it raises. *)
Definition record_of (r : res (gmap string json)) : gmap string json :=
  match r with
  | Ok record => record
  | Raise _ => ∅
  end.

Definition ana_record : gmap string json :=
  record_of (hash_password sample_kdf ana_token "senha" None 1).

Definition other_record : gmap string json :=
  record_of (hash_password sample_kdf other_token "senha" None 1).

(** The record [on_create] stores for Ana. *)
Definition ana_record_200000 : gmap string json :=
  record_of (hash_password sample_kdf ana_token "senha" None 200000).

(** X1 at one iteration and a drawn salt. *)
Lemma hash_password_record_decodes_witness :
  exists record,
    hash_password sample_kdf ana_token "senha" None 1 = Ok record
    /\ record !! "iters" = Some (JInt 1).
Proof.
  destruct (hash_password_record_decodes sample_kdf ana_token "senha" None 1)
    as (record & s & h & E & _ & _ & I & _).
  - unfold INT_MAX. lia.
  - exists record. split; [exact E|exact I].
Defined.

(** X2 at two salts drawn for the same password. *)
Lemma hash_password_distinct_salts_witness :
  ana_record !! "salt" <> other_record !! "salt".
Proof.
  apply (hash_password_distinct_salts sample_kdf ana_token other_token
           "senha" "senha" 1 ana_record other_record).
  - vm_compute. discriminate.
  - vm_compute. reflexivity.
  - vm_compute. reflexivity.
Defined.

(** X3 at a stored salt and key, with the right password. *)
Lemma verify_password_exact_witness :
  exists ok,
    verify_password sample_kdf "ab" "Y2Q=" "YWJjZA==" 1 = Ok ok
    /\ (ok = true <-> sample_kdf (encode_utf8 "ab") (encode_utf8 "cd") 1
                      = encode_utf8 "abcd").
Proof.
  apply (verify_password_exact sample_kdf "ab" "Y2Q=" "YWJjZA==" 1
           (encode_utf8 "cd") (encode_utf8 "abcd")).
  - vm_compute. reflexivity.
  - vm_compute. reflexivity.
  - unfold INT_MAX. lia.
Defined.

(** The user table with Ana's account. *)
Definition ana_users : gmap string (gmap string json) :=
  <["ana" := ana_record]> ∅.

(** X4 at Ana's login. *)
Lemma fazer_login_sound_witness :
  fazer_login sample_kdf sample_int sample_strip ana_users
    (Some "ana") (Some "senha") = login_as "ana"
  /\ exists record,
       ana_users !! "ana" = Some record
       /\ verify_record sample_kdf sample_int "senha" record = Ok true.
Proof.
  assert (H : fazer_login sample_kdf sample_int sample_strip ana_users
                (Some "ana") (Some "senha") = login_as "ana")
    by (vm_compute; reflexivity).
  split; [exact H|].
  destruct (fazer_login_sound sample_kdf sample_int sample_strip ana_users
              (Some "ana") (Some "senha") "ana" H) as (_ & _ & _ & R).
  exact R.
Defined.

(** X5 at Ana's record and another password. *)
Lemma fazer_login_wrong_password_witness :
  fazer_login_ok sample_kdf sample_int "outra" ana_record = false.
Proof.
  apply (fazer_login_wrong_password sample_kdf sample_int ana_token
           "senha" "outra" None 1 ana_record).
  - reflexivity.
  - vm_compute. reflexivity.
  - vm_compute. discriminate.
Defined.

(** The file after Ana creates her account. *)
Definition ana_file : users_file :=
  snd (on_create sample_kdf sample_strip ana_token None "ana" "senha" "senha"
         file_absent).

(** X6 at the creation of Ana's account, with no file yet. *)
Lemma on_create_then_fazer_login_witness :
  fazer_login sample_kdf sample_int sample_strip (load_users ana_file)
    (Some "ana") (Some "senha")
  = login_as "ana".
Proof.
  apply (on_create_then_fazer_login sample_kdf sample_int sample_strip
           ana_token None "ana" "senha" "senha"
           "Conta criada com sucesso. Faça login." file_absent ana_file).
  - reflexivity.
  - vm_compute. reflexivity.
Defined.

(** The file with Ana's account, and Bia creating hers. *)
Definition bia_file : users_file :=
  snd (on_create sample_kdf sample_strip other_token None "bia" "segredo"
         "segredo" ana_file).

(** X7 at the creation of Bia's account after Ana's. *)
Lemma on_create_keeps_accounts_witness :
  load_users ana_file !! "ana" = Some ana_record_200000
  /\ load_users bia_file !! "ana" = Some ana_record_200000.
Proof.
  assert (A : load_users ana_file !! "ana" = Some ana_record_200000)
    by (vm_compute; reflexivity).
  split; [exact A|].
  refine (proj1 (on_create_keeps_accounts sample_kdf sample_strip other_token
                   None "bia" "segredo" "segredo" ana_file bia_file
                   (create_info "Conta criada com sucesso. Faça login.") _)
            _ "ana" ana_record_200000 A).
  - vm_compute. reflexivity.
  - discriminate.
Defined.

(** The login form with the user name typed and focused. *)
Definition typing_user : LoginForm := mk_LoginForm "ana" "" true false.

(** X8 at Tab from the user name field. *)
Lemma on_key_down_tab_witness :
  exists form',
    _on_key_down sample_strip typing_user 9 None = (true, form', None)
    /\ password_focus form' = true.
Proof.
  destruct (on_key_down_tab sample_strip typing_user 9 None
              (or_introl eq_refl)) as (form' & E & H1 & H2 & _).
  exists form'. split; [exact E|].
  rewrite H2 in H1. cbn in H1. now destruct (password_focus form').
Defined.

(** The login form with Ana's name and another password typed. *)
Definition typing_wrong : LoginForm := mk_LoginForm "ana" "outra" false true.

(** X9 at Enter with a wrong password: the login is attempted and the
    password field is cleared. *)
Lemma on_key_down_enter_witness :
  exists form',
    _on_key_down_login sample_kdf sample_int sample_strip ana_users
      typing_wrong 13 None
    = (true, form', Some (GUI_login.show_error "Usuário ou senha incorretos."))
    /\ username_text form' = "ana"
    /\ password_text form' = "".
Proof.
  pose proof (on_key_down_enter sample_kdf sample_int sample_strip ana_users
                typing_wrong 13 None ltac:(discriminate) ltac:(discriminate))
    as H.
  cbv zeta in H. cbn [Z.eqb Pos.eqb orb] in H.
  destruct H as (form' & result & E & U & _ & _ & C & _).
  destruct C as [R P]; [split; discriminate|].
  exists form'. rewrite E, R, U, P.
  split; [|split]; vm_compute; reflexivity.
Defined.

(** X10 at the newest of the two sessions. *)
Lemma listar_atividades_newest_first_witness :
  exists rows,
    listar_atividades store_up 1 (Some "ana") None two_orphans
    = (Ok rows, [], next_request two_orphans)
    /\ (length rows <= 1)%nat.
Proof.
  pose proof (listar_atividades_newest_first store_up 1 (Some "ana") None
                two_orphans (fun _ => eq_refl)) as H.
  cbn in H. destruct H as (rows & E & L & _).
  exists rows. split; [exact E|exact L].
Defined.

(** X12 at a start over the two orphans. *)
Lemma iniciar_then_buscar_witness :
  exists w1 w2 row,
    iniciar_nova_atividade store_up "RNC" "peça 7" "ana" None two_orphans
    = (Ok (Some 12), w1)
    /\ buscar_atividade_em_andamento store_up (Some "ana") None w1
       = (Ok (Some row), w2)
    /\ id row = 12.
Proof.
  destruct (iniciar_then_buscar store_up "RNC" "peça 7" "ana" two_orphans)
    as (w1 & w2 & row & E1 & E2 & I & _).
  - reflexivity.
  - reflexivity.
  - reflexivity.
  - repeat constructor.
  - exists w1, w2, row. split; [exact E1|]. split; [exact E2|exact I].
Defined.


(** X15 at the two orphans. *)
Lemma sweep_closes_all_witness :
  exists w' w'',
    finalizar_atividades_em_andamento store_up None two_orphans = (Ok 2, w')
    /\ finalizar_atividades_em_andamento store_up None w' = (Ok 0, w'').
Proof.
  destruct (sweep_closes_all store_up None two_orphans
              (fun _ => eq_refl) (fun _ _ => eq_refl))
    as (w' & w'' & E & _ & _ & E').
  exists w', w''. split; [exact E|exact E'].
Defined.

(** X16 at a listing that times out. *)
Lemma sweep_without_listing_witness :
  exists w',
    finalizar_atividades_em_andamento (store_fails_at 0) None two_orphans
    = (Ok 0, w')
    /\ table w' = table two_orphans.
Proof.
  apply (sweep_without_listing (store_fails_at 0) None two_orphans).
  right. vm_compute. discriminate.
Defined.

(** A screen that holds session 10 of the two orphans. *)
Definition holding_ten : MainScreen :=
  set_current_activity_id (Some 10) fresh_screen.

(** X17 at a stop whose update times out. *)
Lemma acao_finalizar_store_error_witness :
  exists message w',
    acao_finalizar (store_fails_at 1) holding_ten two_orphans
    = (show_error message holding_ten, w')
    /\ table w' = table two_orphans.
Proof.
  destruct (acao_finalizar_store_error (store_fails_at 1) holding_ten
              two_orphans eq_refl)
    as (message & w' & E & T & _).
  - right. right. right. vm_compute. discriminate.
  - exists message, w'. split; [exact E|exact T].
Defined.

Lemma cadastro_chosen_down : selection_down cadastro_chosen.
Proof.
  intros b Hin. vm_compute in Hin.
  destruct Hin as [<-|[<-|[]]]; vm_compute; [reflexivity|discriminate].
Defined.

(** X18 at a press on Custos after Cadastro was started. *)
Lemma selection_locked_after_start_witness :
  press_toggle "Custos"
    (fst (acao_iniciar store_up "ana" cadastro_chosen (world fresh_system)))
  = fst (acao_iniciar store_up "ana" cadastro_chosen (world fresh_system)).
Proof.
  apply (selection_locked_after_start store_up "ana" cadastro_chosen
           (world fresh_system) "Custos" cadastro_chosen_down).
  - reflexivity.
  - reflexivity.
  - reflexivity.
Defined.

(** X19 at a tick of 09:00: no worker. *)
Lemma auto_finalize_check_starts_worker_witness :
  snd (fst (_auto_finalize_check store_up holding_ten two_orphans)) = None.
Proof.
  destruct (auto_finalize_check_starts_worker store_up holding_ten two_orphans)
    as (H & _).
  - cbn. lia.
  - cbn. lia.
  - destruct (snd (fst (_auto_finalize_check store_up holding_ten two_orphans)))
      as [job|]; [|reflexivity].
    destruct (proj1 H ltac:(discriminate)) as ([[A _]|[A _]] & _);
      cbn in A; discriminate.
Defined.

(** X20 at a screen entered twice, left and entered again, beside an
    interval of another widget. *)
Lemma auto_finalizer_one_interval_witness :
  intervals (clock (fold_left visit [enter; enter; leave; enter]
                      (mk_Ticker None (mk_ClockState [0%nat] 1))))
  = [0%nat; 2%nat].
Proof.
  destruct (auto_finalizer_one_interval [enter; enter; leave; enter]
              (mk_ClockState [0%nat] 1)) as (H & _).
  - repeat constructor.
  - exact H.
Defined.

(** The lookup of Ana's newest open session. *)
Definition ana_lookup : res (option Row) * World :=
  buscar_atividade_em_andamento store_up (Some "ana") None two_orphans.

(** X21 at a login of Ana with session 11, of type Custos, open. *)
Lemma carregar_atividades_resumes_witness :
  selected_button
    (fst (carregar_atividades store_up "ana" fresh_screen two_orphans))
  = Some "Custos".
Proof.
  destruct (carregar_atividades_resumes store_up "ana" fresh_screen two_orphans
              (snd ana_lookup)
              (mk_Row 11 "Custos" (Some "") (at_instant 0) None (Some "ana")
                 2024 1 15 None))
    as (_ & _ & _ & H & _).
  - reflexivity.
  - cbn. tauto.
  - exact H.
Defined.

(** X22 at a login with an empty table. *)
Lemma carregar_atividades_nothing_to_resume_witness :
  start_button_disabled
    (fst (carregar_atividades store_up "ana" fresh_screen (world fresh_system)))
  = false.
Proof.
  destruct (carregar_atividades_nothing_to_resume store_up "ana" fresh_screen
              (world fresh_system)) as (_ & H & _).
  - intros row. vm_compute. discriminate.
  - exact H.
Defined.

(** X23 at a start and a stop of Cadastro. *)
Lemma acao_iniciar_then_acao_finalizar_witness :
  idle (fst (acao_finalizar store_up
               (fst (acao_iniciar store_up "ana" cadastro_chosen
                       (world fresh_system)))
               (snd (acao_iniciar store_up "ana" cadastro_chosen
                       (world fresh_system))))).
Proof.
  destruct (acao_iniciar_then_acao_finalizar store_up "ana" cadastro_chosen
              (world fresh_system)) as (H & _).
  - reflexivity.
  - reflexivity.
  - reflexivity.
  - reflexivity.
  - reflexivity.
  - discriminate.
  - constructor.
  - exact H.
Defined.

(** The screen holds session 10 at the 11:28 checkpoint. *)
Definition before_checkpoint : System :=
  mk_System holding_ten two_orphans [] [].

(** X24 at that checkpoint. *)
Lemma auto_finalize_closes_session_witness :
  idle (screen (perform at_checkpoint "ana" op_auto_finalize before_checkpoint))
  /\ threads (perform at_checkpoint "ana" op_auto_finalize before_checkpoint) = [].
Proof.
  destruct (auto_finalize_closes_session at_checkpoint "ana" before_checkpoint 10
              (mk_Row 10 "Cadastro" (Some "") (at_instant 0) None (Some "ana")
                 2024 1 15 None))
    as (H & T & _).
  - reflexivity.
  - reflexivity.
  - left. reflexivity.
  - vm_compute. discriminate.
  - reflexivity.
  - discriminate.
  - reflexivity.
  - reflexivity.
  - reflexivity.
  - reflexivity.
  - split; [exact H|exact T].
Defined.

(** X25 at a press on Cadastro on the fresh screen. *)
Lemma press_toggle_selects_witness :
  selected_button (press_toggle "Cadastro" fresh_screen) = Some "Cadastro".
Proof.
  destruct (press_toggle_selects "Cadastro" fresh_screen) as (H & _).
  - reflexivity.
  - exact H.
Defined.

End more_scenarios.
